(** * Nextiva Missed Call Collector (Google Sheets integration, v3.6)

    A shallow embedding of the reconciliation, dedup, persistence and
    delivery logic of the [NextivaCollector] class, together with the
    properties of the engine that the design document states.

    Conventions of the embedding.
    - A JavaScript [Date] is its [getTime()] value: an integer number of
      milliseconds since the epoch ([Z]).  Local calendar fields are
      computed under a fixed UTC offset (no daylight-saving transitions).
    - Text is ASCII ([string]); the character classes [\d] and [\s] of
      the source's regular expressions are their ASCII parts.
    - A JavaScript [Set] / [Map] is an insertion-ordered list without
      duplicate keys, because the code slices their iteration order.
    - The DOM is abstracted to the row descriptors the code reads.
    - Console logging is not modelled; network requests and local-storage
      writes are returned as a list of effects.  A write to local storage
      is taken to succeed. *)

From Stdlib Require Import ZArith List String Ascii Bool Lia Arith.
From Stdlib Require Import DecimalString.
From Stdlib Require Import DecimalPos Permutation Sorted.
Import ListNotations.
Open Scope string_scope.
Open Scope list_scope.
Open Scope Z_scope.

(** ** JavaScript text primitives *)

Module JSString.

Definition chars (s : string) : list ascii := list_ascii_of_string s.
Definition text (l : list ascii) : string := string_of_list_ascii l.

Definition code (c : ascii) : nat := nat_of_ascii c.

Definition is_digit (c : ascii) : bool :=
  (48 <=? code c)%nat && (code c <=? 57)%nat.

(** ASCII part of the [\s] class / of the characters [trim] removes. *)
Definition is_space (c : ascii) : bool :=
  match code c with
  | 9%nat | 10%nat | 11%nat | 12%nat | 13%nat | 32%nat => true
  | _ => false
  end.

Definition lower (c : ascii) : ascii :=
  if ((65 <=? code c)%nat && (code c <=? 90)%nat)%bool
  then ascii_of_nat (code c + 32) else c.

Definition upper (c : ascii) : ascii :=
  if ((97 <=? code c)%nat && (code c <=? 122)%nat)%bool
  then ascii_of_nat (code c - 32) else c.

Definition toUpperCase (s : string) : string := text (map upper (chars s)).
Definition toLowerCase (s : string) : string := text (map lower (chars s)).

Fixpoint dropWhile {A} (p : A -> bool) (l : list A) : list A :=
  match l with
  | [] => []
  | x :: r => if p x then dropWhile p r else l
  end.

Definition trim (s : string) : string :=
  text (rev (dropWhile is_space (rev (dropWhile is_space (chars s))))).

Fixpoint prefixb (p l : list ascii) : bool :=
  match p, l with
  | [], _ => true
  | _ :: _, [] => false
  | a :: p', b :: l' => Ascii.eqb a b && prefixb p' l'
  end.

Fixpoint includes_chars (l p : list ascii) : bool :=
  prefixb p l ||
  match l with
  | [] => false
  | _ :: r => includes_chars r p
  end.

(** [s.includes(p)] *)
Definition includes (s p : string) : bool := includes_chars (chars s) (chars p).

(** [String(n)] for an integer-valued number. *)
Definition ofZ (n : Z) : string := NilZero.string_of_int (Z.to_int n).

(** [s.padStart(2, '0')] *)
Definition padStart2 (s : string) : string :=
  match String.length s with
  | 0%nat => "00"
  | 1%nat => ("0" ++ s)%string
  | _ => s
  end.

Definition digit_val (c : ascii) : Z := Z.of_nat (code c) - 48.

Fixpoint digits_val (acc : Z) (l : list ascii) : Z :=
  match l with
  | [] => acc
  | c :: r => if is_digit c then digits_val (10 * acc + digit_val c) r else acc
  end.

(** [parseInt] of a regex capture made of digits only. *)
Definition parseDigits (l : list ascii) : Z := digits_val 0 l.

End JSString.

(** ** Regular expressions

    A backtracking matcher with the priorities of ECMAScript: ordered
    alternation, greedy repetition, numbered capture groups.  The
    source's regex literals are written in this syntax below. *)

Module Regex.
Import JSString.

Inductive regex : Type :=
| Eps
| Cls (p : ascii -> bool)
| Cat (r1 r2 : regex)
| Alt (r1 r2 : regex)
| Star (r : regex)
| Grp (n : nat) (r : regex)
| Eoi.

Definition caps := list (nat * list ascii).

Fixpoint cap (n : nat) (c : caps) : option (list ascii) :=
  match c with
  | [] => None
  | (m, v) :: r => if Nat.eqb m n then Some v else cap n r
  end.

Section Matcher.
Context {A : Type}.

Definition orElse (x : option A) (y : option A) : option A :=
  match x with Some _ => x | None => y end.

Fixpoint run (r : regex) (s : list ascii) (c : caps)
         (k : list ascii -> caps -> option A) {struct r} : option A :=
  match r with
  | Eps => k s c
  | Cls p => match s with
             | a :: s' => if p a then k s' c else None
             | [] => None
             end
  | Cat r1 r2 => run r1 s c (fun s' c' => run r2 s' c' k)
  | Alt r1 r2 => orElse (run r1 s c k) (run r2 s c k)
  | Star r' =>
      (fix loop (fuel : nat) (s : list ascii) (c : caps) {struct fuel}
         : option A :=
         match fuel with
         | O => k s c
         | S fuel' =>
             orElse
               (run r' s c
                    (fun s' c' =>
                       if (List.length s' <? List.length s)%nat
                       then loop fuel' s' c' else None))
               (k s c)
         end) (List.length s) s c
  | Grp n r' =>
      run r' s c
          (fun s' c' =>
             k s' ((n, firstn (List.length s - List.length s') s) :: c'))
  | Eoi => match s with [] => k s c | _ :: _ => None end
  end.

End Matcher.

(** The result of [text.match(re)] / of locating a match for [replace]:
    text before the match, the captures, and the text after it. *)
Record found := { before : list ascii; groups : caps; after : list ascii }.

(** A pattern anchored with [^]. *)
Definition matchStart (r : regex) (s : string) : option found :=
  run r (chars s) []
      (fun rest c => Some {| before := []; groups := c; after := rest |}).

Fixpoint searchFrom (r : regex) (pre : list ascii) (s : list ascii)
  : option found :=
  match run r s []
            (fun rest c =>
               Some {| before := rev pre; groups := c; after := rest |}) with
  | Some f => Some f
  | None => match s with
            | [] => None
            | a :: s' => searchFrom r (a :: pre) s'
            end
  end.

(** An unanchored pattern: the leftmost match. *)
Definition search (r : regex) (s : string) : option found :=
  searchFrom r [] (chars s).

Definition Opt (r : regex) : regex := Alt r Eps.
Definition Plus (r : regex) : regex := Cat r (Star r).
Definition chr (a : ascii) : regex := Cls (Ascii.eqb a).
(** a literal character under the [i] flag *)
Definition chri (a : ascii) : regex :=
  Cls (fun b => Ascii.eqb (lower a) (lower b)).
Definition oneOf (l : list ascii) : regex :=
  Cls (fun b => existsb (Ascii.eqb b) l).
Definition oneOfi (l : list ascii) : regex :=
  Cls (fun b => existsb (fun a => Ascii.eqb (lower a) (lower b)) l).
Definition digit : regex := Cls is_digit.
Definition space : regex := Cls is_space.

Fixpoint liti_chars (l : list ascii) : regex :=
  match l with
  | [] => Eps
  | a :: r => Cat (chri a) (liti_chars r)
  end.
(** a literal word under the [i] flag *)
Definition liti (s : string) : regex := liti_chars (chars s).

Fixpoint cats (l : list regex) : regex :=
  match l with
  | [] => Eps
  | [r] => r
  | r :: rs => Cat r (cats rs)
  end.

Fixpoint alts (l : list regex) : regex :=
  match l with
  | [] => Cls (fun _ => false)
  | [r] => r
  | r :: rs => Alt r (alts rs)
  end.

End Regex.

(** ** ECMAScript [Date] arithmetic

    Time values are milliseconds since the epoch.  Calendar fields follow
    the proleptic Gregorian calendar, as ECMAScript prescribes. *)

Module JSDate.

Definition msPerDay : Z := 86400000.
Definition msPerHour : Z := 3600000.
Definition msPerMinute : Z := 60000.

Definition Day (t : Z) : Z := t / msPerDay.
Definition TimeWithinDay (t : Z) : Z := t mod msPerDay.

(** Day number of the civil date [y]-[m]-[d], for a month [m] in 1..12. *)
Definition daysFromCivil (y m d : Z) : Z :=
  let y' := if m <=? 2 then y - 1 else y in
  let era := y' / 400 in
  let yoe := y' - era * 400 in
  let mp := if 2 <? m then m - 3 else m + 9 in
  let doy := (153 * mp + 2) / 5 + d - 1 in
  let doe := yoe * 365 + yoe / 4 - yoe / 100 + doy in
  era * 146097 + doe - 719468.

(** Civil date (year, month in 1..12, day of month) of a day number. *)
Definition civilFromDays (z : Z) : Z * Z * Z :=
  let z' := z + 719468 in
  let era := z' / 146097 in
  let doe := z' - era * 146097 in
  let yoe := (doe - doe / 1460 + doe / 36524 - doe / 146096) / 365 in
  let doy := doe - (365 * yoe + yoe / 4 - yoe / 100) in
  let mp := (5 * doy + 2) / 153 in
  let d := doy - (153 * mp + 2) / 5 + 1 in
  let m := if mp <? 10 then mp + 3 else mp - 9 in
  let y := yoe + era * 400 in
  (if m <=? 2 then y + 1 else y, m, d).

Definition YearFromTime (t : Z) : Z := fst (fst (civilFromDays (Day t))).
(** zero-based, as [getMonth] *)
Definition MonthFromTime (t : Z) : Z := snd (fst (civilFromDays (Day t))) - 1.
Definition DateFromTime (t : Z) : Z := snd (civilFromDays (Day t)).
Definition WeekDay (t : Z) : Z := (Day t + 4) mod 7.
Definition HourFromTime (t : Z) : Z := TimeWithinDay t / msPerHour.
Definition MinFromTime (t : Z) : Z := (TimeWithinDay t / msPerMinute) mod 60.

(** [MakeDay(year, month, date)] with a zero-based, possibly out of range
    month and an arbitrary day of month. *)
Definition MakeDay (year month date : Z) : Z :=
  daysFromCivil (year + month / 12) (month mod 12 + 1) 1 + date - 1.

Definition MakeTime (h m s ms : Z) : Z :=
  h * msPerHour + m * msPerMinute + s * 1000 + ms.

Definition MakeDate (day time : Z) : Z := day * msPerDay + time.

End JSDate.

(** ** The host environment

    What the script takes from the browser: the local time zone and the
    implementation-defined [Date.parse]. *)

Class Host : Type := {
  (** local time = UTC + [tzOffset] (milliseconds) *)
  tzOffset : Z;
  (** [Date.parse(text)]; [None] is [NaN] *)
  Date_parse : string -> option Z
}.

Module LocalDate.
Import JSDate.
Section WithHost.
Context {H : Host}.

Definition LocalTime (t : Z) : Z := t + tzOffset.
Definition UTC (l : Z) : Z := l - tzOffset.

Definition getFullYear (t : Z) : Z := YearFromTime (LocalTime t).
Definition getMonth (t : Z) : Z := MonthFromTime (LocalTime t).
Definition getDate (t : Z) : Z := DateFromTime (LocalTime t).
Definition getDay (t : Z) : Z := WeekDay (LocalTime t).
Definition getHours (t : Z) : Z := HourFromTime (LocalTime t).
Definition getMinutes (t : Z) : Z := MinFromTime (LocalTime t).

(** [d.setHours(h, m, s, ms)] *)
Definition setHours (t h m s ms : Z) : Z :=
  UTC (MakeDate (Day (LocalTime t)) (MakeTime h m s ms)).

(** [d.setDate(date)] *)
Definition setDate (t date : Z) : Z :=
  let l := LocalTime t in
  UTC (MakeDate (MakeDay (YearFromTime l) (MonthFromTime l) date)
                (TimeWithinDay l)).

(** [d.setSeconds(s, ms)] *)
Definition setSeconds (t s ms : Z) : Z :=
  let l := LocalTime t in
  UTC (MakeDate (Day l) (MakeTime (HourFromTime l) (MinFromTime l) s ms)).

(** [new Date(year, month, date, h, m, s, ms)]; a year in 0..99 means
    1900 + year. *)
Definition newDate (year month date h m s ms : Z) : Z :=
  let y := if (0 <=? year) && (year <=? 99) then 1900 + year else year in
  UTC (MakeDate (MakeDay y month date) (MakeTime h m s ms)).

End WithHost.
End LocalDate.

(** ** The regular expressions of the script *)

Module Patterns.
Import JSString Regex.

(** [\d{1,2}], [\d{2}], [\d{3}], [\d{4}] *)
Definition d12 : regex := Cat digit (Opt digit).
Definition d2 : regex := Cat digit digit.
Definition d3 : regex := cats [digit; digit; digit].
Definition d4 : regex := cats [digit; digit; digit; digit].
(** [[AP]M] under the [i] flag *)
Definition ampm : regex := Cat (oneOfi ["A"; "P"]%char) (chri "M").
(** [[-.\s]] *)
Definition sep : regex :=
  Cls (fun c => Ascii.eqb c "-" || Ascii.eqb c "." || is_space c).

(** [/^(\d{1,2}):(\d{2})\s*([AP]M)?/i] *)
Definition timeOnlyRe : regex :=
  cats [Grp 1 d12; chr ":"; Grp 2 d2; Star space; Opt (Grp 3 ampm)].

(** [/Yesterday\s*(\d{1,2}):(\d{2})(?:\s*([AP]M))?/i] *)
Definition yesterdayRe : regex :=
  cats [liti "Yesterday"; Star space; Grp 1 d12; chr ":"; Grp 2 d2;
        Opt (Cat (Star space) (Grp 3 ampm))].

(** [/^(Monday|Tuesday|Wednesday|Thursday|Friday|Saturday|Sunday)\s+(\d{1,2}):(\d{2})\s*([AP]M)?/i] *)
Definition dayOfWeekRe : regex :=
  cats [Grp 1 (alts (map liti ["Monday"; "Tuesday"; "Wednesday"; "Thursday";
                               "Friday"; "Saturday"; "Sunday"]));
        Plus space; Grp 2 d12; chr ":"; Grp 3 d2; Star space;
        Opt (Grp 4 ampm)].

(** [/^(\d{1,2})\/(\d{1,2})\/(\d{4})\s*(\d{1,2}):(\d{2})\s*([AP]M)?/i] *)
Definition mdyRe : regex :=
  cats [Grp 1 d12; chr "/"; Grp 2 d12; chr "/"; Grp 3 d4; Star space;
        Grp 4 d12; chr ":"; Grp 5 d2; Star space; Opt (Grp 6 ampm)].

(** [/\+?1?\s*\(?(\d{3})\)?[-.\s]?(\d{3})[-.\s]?(\d{4})/] *)
Definition phoneRe : regex :=
  cats [Opt (chr "+"); Opt (chr "1"); Star space; Opt (chr "(");
        Grp 1 d3; Opt (chr ")"); Opt sep; Grp 2 d3; Opt sep; Grp 3 d4].

(** [/\+?1?\s*\(?\d{3}\)?[-.\s]?\d{3}[-.\s]?\d{4}/], the pattern that
    [replace] removes from a contact *)
Definition phonePlainRe : regex :=
  cats [Opt (chr "+"); Opt (chr "1"); Star space; Opt (chr "(");
        d3; Opt (chr ")"); Opt sep; d3; Opt sep; d4].

(** [/^1?\d{10}$/] *)
Definition bareNumberRe : regex :=
  cats [Opt (chr "1"); d3; d3; d4; Eoi].

(** the class of [/[\s\-\(\)\+\.]/g] *)
Definition punctuation (c : ascii) : bool :=
  is_space c || existsb (Ascii.eqb c) ["-"; "("; ")"; "+"; "."]%char.

Definition group (n : nat) (f : found) : list ascii :=
  match cap n (groups f) with Some v => v | None => [] end.

(** [m[n]?.toUpperCase()] *)
Definition groupUpper (n : nat) (f : found) : option string :=
  option_map (fun v => toUpperCase (text v)) (cap n (groups f)).

End Patterns.

(** ** Data model *)

(** [class CallRecord] *)
Record CallRecord : Type := {
  timestamp : Z;
  contact : string;
  dataIndex : string;
  calledBack : bool;
  isAnswered : bool
}.

(** [new CallRecord(timestamp, contact, dataIndex)] *)
Definition newCallRecord (ts : Z) (c idx : string) : CallRecord :=
  {| timestamp := ts; contact := c; dataIndex := idx;
     calledBack := false; isAnswered := false |}.

(** An entry of [recentCalls]. *)
Record Call : Type := {
  time : Z;
  isMissed : bool;
  wasAnswered : bool   (* the entry's [isAnswered] field *)
}.

(** A value of [sentRecords]. *)
Record SentInfo : Type := {
  sentDateTime : string;
  sentNumber : string;
  sentActualMissedCall : string
}.

(** The JSON body of a request to the sheet endpoint. *)
Record Payload : Type := {
  dateTime : string;
  number : string;
  frequency : option Z;
  actualMissedCall : string;
  isUpdate : bool;
  phoneNumber : string;
  source : string;
  notes : option string;
  answerTime : option string
}.

(** What a row card of the live view exposes to the script. *)
Record Row : Type := {
  (** [row.textContent] *)
  textContent : string;
  (** [row.closest('[data-index]')?.getAttribute('data-index')] *)
  dataIndexAttr : option string;
  (** text of the [...-timestamp] element, if present *)
  timestampText : option string;
  (** text of the [...-sender] element, if present *)
  senderText : option string;
  (** text of the [...-callerInfo] element, if present *)
  callerInfoText : option string
}.

(** Performance counters of [PerformanceMonitor.metrics]. *)
Record Metrics : Type := {
  domQueries : Z;
  networkRequests : Z;
  errors : Z
}.

(** The object written to local storage. *)
Record Snapshot : Type := {
  snapRecords : list CallRecord;
  snapProcessedIndexes : list string;
  snapRealTimeMissedCount : Z;
  snapMonitorStartTime : option Z;
  snapSentRecords : list (string * SentInfo);
  snapProcessedAnswers : list string
}.

(** The mutable fields of [NextivaCollector] that the reconciliation,
    delivery and persistence code reads.  The two statistics that only
    feed log lines ([maxProcessedIndex], [lastKnownRowCount]), the
    observer and timer handles, the sheet URLs and the processing-time
    samples are left out. *)
Record State : Type := {
  isCollecting : bool;
  isRealTimeMode : bool;
  allRecords : list CallRecord;
  processedIndexes : list string;            (* Set, insertion order *)
  realTimeMissedCount : Z;
  monitorStartTime : option Z;
  recentCalls : list (string * list Call);   (* Map, insertion order *)
  sentRecords : list (string * SentInfo);    (* Map, insertion order *)
  processedAnswers : list string;            (* Set, insertion order *)
  pendingRequests : list string;             (* Set, insertion order *)
  metrics : Metrics
}.

(** Observable effects of a handler. *)
Inductive Effect : Type :=
| Post (requestId : string) (body : Payload)   (* [GM_xmlhttpRequest] *)
| Store (data : Snapshot)                      (* [localStorage.setItem] *)
| Unstore.                                     (* [localStorage.removeItem] *)

(** ** JavaScript [Set] and [Map] as insertion-ordered lists *)

Module JSColl.

Definition has (k : string) (s : list string) : bool :=
  existsb (String.eqb k) s.

Definition add (k : string) (s : list string) : list string :=
  if has k s then s else s ++ [k].

Definition delete (k : string) (s : list string) : list string :=
  filter (fun x => negb (String.eqb k x)) s.

Section Map.
Context {V : Type}.

Fixpoint get (k : string) (m : list (string * V)) : option V :=
  match m with
  | [] => None
  | (k', v) :: r => if String.eqb k k' then Some v else get k r
  end.

Definition mhas (k : string) (m : list (string * V)) : bool :=
  match get k m with Some _ => true | None => false end.

(** [m.set(k, v)]: an existing key keeps its position. *)
Fixpoint set (k : string) (v : V) (m : list (string * V))
  : list (string * V) :=
  match m with
  | [] => [(k, v)]
  | (k', v') :: r => if String.eqb k k' then (k, v) :: r
                     else (k', v') :: set k v r
  end.

Definition mdelete (k : string) (m : list (string * V)) : list (string * V) :=
  filter (fun kv => negb (String.eqb k (fst kv))) m.

End Map.

(** [a.slice(-n)] *)
Definition sliceLast {A} (n : nat) (l : list A) : list A :=
  skipn (List.length l - n) l.

(** [a.slice(0, n)] *)
Definition sliceFirst {A} (n : nat) (l : list A) : list A := firstn n l.

End JSColl.

(** ** The collector: parsing and formatting *)

Section Collector.
Context {H : Host}.
Import JSString Regex Patterns JSColl JSDate LocalDate.

Definition isPeriod (p : option string) (s : string) : bool :=
  match p with Some x => String.eqb x s | None => false end.

(** The two 12-hour adjustments shared by the timestamp parsers:
    [if (period === 'PM' && hours !== 12) hours += 12;
     if (period === 'AM' && hours === 12) hours = 0;] *)
Definition to24 (hours : Z) (period : option string) : Z :=
  let hours := if isPeriod period "PM" && negb (hours =? 12)
               then hours + 12 else hours in
  if isPeriod period "AM" && (hours =? 12) then 0 else hours.

(** The [some(...)] test of [parseDateTime]: [d] falls on the calendar
    date of [now]. *)
Definition sameCalendarDate (now d : Z) : bool :=
  (getDate d =? getDate now) && (getMonth d =? getMonth now)
  && (getFullYear d =? getFullYear now).

(** [parseDateTime(text, lowerRowDates)], run at the instant [now]. *)
Definition parseDateTime (txt : string) (lowerRowDates : list Z) (now : Z)
  : option Z :=
  match matchStart timeOnlyRe txt with
  | Some m =>
      let hours := to24 (parseDigits (group 1 m)) (groupUpper 3 m) in
      let minutes := parseDigits (group 2 m) in
      Some (setHours now hours minutes 0 0)
  | None =>
      match search yesterdayRe txt with
      | Some m =>
          let hours := to24 (parseDigits (group 1 m)) (groupUpper 3 m) in
          let minutes := parseDigits (group 2 m) in
          let date := setDate now (getDate now - 1) in
          let date := setHours date hours minutes 0 0 in
          if existsb (sameCalendarDate now) lowerRowDates
          then Some (newDate (getFullYear now) (getMonth now) (getDate now)
                             hours minutes 0 0)
          else Some date
      | None => Date_parse txt
      end
  end.

Fixpoint indexOf (x : string) (l : list string) (i : Z) : Z :=
  match l with
  | [] => -1
  | y :: r => if String.eqb x y then i else indexOf x r (i + 1)
  end.

Definition dayNames : list string :=
  ["sunday"; "monday"; "tuesday"; "wednesday"; "thursday"; "friday";
   "saturday"].

(** [parseAnyDateTime(text)], run at the instant [now]. *)
Definition parseAnyDateTime (txt : string) (now : Z) : option Z :=
  if String.eqb txt "" then None else
  let dayOfWeek :=
    match matchStart dayOfWeekRe txt with
    | Some m =>
        let targetDayIndex :=
          indexOf (toLowerCase (text (group 1 m))) dayNames 0 in
        if targetDayIndex =? -1 then None else
        let currentDayIndex := getDay now in
        let daysAgo := currentDayIndex - targetDayIndex in
        let daysAgo := if daysAgo <=? 0 then daysAgo + 7 else daysAgo in
        let hour24 := to24 (parseDigits (group 2 m)) (groupUpper 4 m) in
        let targetDate := setDate now (getDate now - daysAgo) in
        Some (setHours targetDate hour24 (parseDigits (group 3 m)) 0 0)
    | None => None
    end in
  match dayOfWeek with
  | Some d => Some d
  | None =>
      match matchStart mdyRe txt with
      | Some m =>
          let hour24 := to24 (parseDigits (group 4 m)) (groupUpper 6 m) in
          Some (newDate (parseDigits (group 3 m))
                        (parseDigits (group 1 m) - 1)
                        (parseDigits (group 2 m))
                        hour24 (parseDigits (group 5 m)) 0 0)
      | None => Date_parse txt
      end
  end.

(** [formatDateTimeForSheet(date)]: [MM/DD/YYYY hh:mm AM|PM] *)
Definition formatDateTimeForSheet (date : Z) : string :=
  let month := padStart2 (ofZ (getMonth date + 1)) in
  let day := padStart2 (ofZ (getDate date)) in
  let year := ofZ (getFullYear date) in
  let hours := getHours date in
  let minutes := padStart2 (ofZ (getMinutes date)) in
  let ampm := if 12 <=? hours then "PM" else "AM" in
  let hours := if hours =? 0 then 12
               else if 12 <? hours then hours - 12 else hours in
  let formattedHours := padStart2 (ofZ hours) in
  (month ++ "/" ++ day ++ "/" ++ year ++ " " ++ formattedHours ++ ":"
   ++ minutes ++ " " ++ ampm)%string.

(** [`(${m[1]})${m[2]}-${m[3]}`] *)
Definition formatPhone (m : found) : string :=
  ("(" ++ text (group 1 m) ++ ")" ++ text (group 2 m) ++ "-"
   ++ text (group 3 m))%string.

(** [extractPhoneNumber(contact)] *)
Definition extractPhoneNumber (c : string) : string :=
  match search phoneRe c with
  | Some m => text (group 1 m ++ group 2 m ++ group 3 m)
  | None => c
  end.

(** [extractPhoneFromRow(row)] *)
Definition extractPhoneFromRow (row : Row) : option string :=
  let fromCallerInfo :=
    match callerInfoText row with
    | Some t => option_map formatPhone (search phoneRe (trim t))
    | None => None
    end in
  match fromCallerInfo with
  | Some p => Some p
  | None => option_map formatPhone (search phoneRe (textContent row))
  end.

Record ContactInfo : Type := {
  displayNumber : string;
  contactName : option string
}.

(** [x || null] for a string *)
Definition orNull (s : string) : option string :=
  if String.eqb s "" then None else Some s.

(** [separateContactInfo(contact, row = null)] *)
Definition separateContactInfo (c : string) (row : option Row)
  : ContactInfo :=
  match search phoneRe c with
  | Some m =>
      let formattedPhone := formatPhone m in
      let stripped :=
        text (filter (fun a => negb (punctuation a)) (chars (trim c))) in
      match matchStart bareNumberRe stripped with
      | Some _ => {| displayNumber := formattedPhone; contactName := None |}
      | None =>
          let nameWithoutPhone :=
            match search phonePlainRe c with
            | Some f => trim (text (before f ++ after f))
            | None => trim c
            end in
          {| displayNumber := formattedPhone;
             contactName := orNull nameWithoutPhone |}
      end
  | None =>
      let fromRow :=
        match row with
        | Some r => extractPhoneFromRow r
        | None => None
        end in
      match fromRow with
      | Some phoneFromRow =>
          {| displayNumber := phoneFromRow; contactName := Some c |}
      | None => {| displayNumber := c; contactName := Some c |}
      end
  end.

End Collector.

(** ** [Array.prototype.sort] *)

(** [a.sort(cmp)] for a consistent comparator: the stable sort, by
    insertion.  [cmp x y > 0] places [x] after [y]. *)
Fixpoint insertSorted {A} (cmp : A -> A -> Z) (x : A) (l : list A) : list A :=
  match l with
  | [] => [x]
  | y :: r => if 0 <? cmp x y then y :: insertSorted cmp x r else x :: l
  end.

Definition sortStable {A} (cmp : A -> A -> Z) (l : list A) : list A :=
  fold_right (insertSorted cmp) [] l.

(** ** [parseInt] and [split] *)

Module JSParse.
Import JSString.

Definition hex_val (c : ascii) : option Z :=
  if is_digit c then Some (digit_val c)
  else let n := code (lower c) in
       if ((97 <=? n)%nat && (n <=? 102)%nat)%bool
       then Some (Z.of_nat n - 87) else None.

Fixpoint hex_digits_val (acc : Z) (l : list ascii) : Z :=
  match l with
  | [] => acc
  | c :: r => match hex_val c with
              | Some v => hex_digits_val (16 * acc + v) r
              | None => acc
              end
  end.

Definition isHexPrefix (l : list ascii) : bool :=
  match l with
  | "0"%char :: x :: _ => Ascii.eqb (lower x) "x"
  | _ => false
  end.

(** [parseInt(s)] without a radix: optional leading white space and
    sign, an optional [0x] prefix, then the longest run of digits;
    [None] is [NaN]. *)
Definition parseInt (s : string) : option Z :=
  let l := dropWhile is_space (chars s) in
  let '(neg, l) :=
    match l with
    | "-"%char :: r => (true, r)
    | "+"%char :: r => (false, r)
    | _ => (false, l)
    end in
  let signed (v : Z) := if neg : bool then - v else v in
  if isHexPrefix l then
    match skipn 2 l with
    | c :: _ => match hex_val c with
                | Some _ => Some (signed (hex_digits_val 0 (skipn 2 l)))
                | None => None
                end
    | [] => None
    end
  else
    match l with
    | c :: _ => if is_digit c then Some (signed (digits_val 0 l)) else None
    | [] => None
    end.

(** [s.split(sep)] for a one-character separator, on characters. *)
Fixpoint split_chars (sep : ascii) (cur : list ascii) (l : list ascii)
  : list (list ascii) :=
  match l with
  | [] => [rev cur]
  | c :: r => if Ascii.eqb c sep then rev cur :: split_chars sep [] r
              else split_chars sep (c :: cur) r
  end.

Definition split (sep : ascii) (s : string) : list string :=
  map text (split_chars sep [] (chars s)).

End JSParse.

(** ** The collector: reconciliation, delivery and persistence *)

Section Engine.
Context {H : Host}.
Import JSString JSColl LocalDate.

Definition hourMs : Z := 60 * 60 * 1000.

(** [`${phoneNumber}_${time}`], the key of [sentRecords] and of
    [processedAnswers] *)
Definition keyOf (phone : string) (t : Z) : string :=
  (phone ++ "_" ++ ofZ t)%string.

Definition set_isRealTimeMode (b : bool) (s : State) : State :=
  {| isCollecting := isCollecting s; isRealTimeMode := b;
     allRecords := allRecords s; processedIndexes := processedIndexes s;
     realTimeMissedCount := realTimeMissedCount s;
     monitorStartTime := monitorStartTime s; recentCalls := recentCalls s;
     sentRecords := sentRecords s; processedAnswers := processedAnswers s;
     pendingRequests := pendingRequests s; metrics := metrics s |}.

Definition set_isCollecting (b : bool) (s : State) : State :=
  {| isCollecting := b; isRealTimeMode := isRealTimeMode s;
     allRecords := allRecords s; processedIndexes := processedIndexes s;
     realTimeMissedCount := realTimeMissedCount s;
     monitorStartTime := monitorStartTime s; recentCalls := recentCalls s;
     sentRecords := sentRecords s; processedAnswers := processedAnswers s;
     pendingRequests := pendingRequests s; metrics := metrics s |}.

Definition set_allRecords (l : list CallRecord) (s : State) : State :=
  {| isCollecting := isCollecting s; isRealTimeMode := isRealTimeMode s;
     allRecords := l; processedIndexes := processedIndexes s;
     realTimeMissedCount := realTimeMissedCount s;
     monitorStartTime := monitorStartTime s; recentCalls := recentCalls s;
     sentRecords := sentRecords s; processedAnswers := processedAnswers s;
     pendingRequests := pendingRequests s; metrics := metrics s |}.

Definition set_processedIndexes (l : list string) (s : State) : State :=
  {| isCollecting := isCollecting s; isRealTimeMode := isRealTimeMode s;
     allRecords := allRecords s; processedIndexes := l;
     realTimeMissedCount := realTimeMissedCount s;
     monitorStartTime := monitorStartTime s; recentCalls := recentCalls s;
     sentRecords := sentRecords s; processedAnswers := processedAnswers s;
     pendingRequests := pendingRequests s; metrics := metrics s |}.

Definition set_realTimeMissedCount (n : Z) (s : State) : State :=
  {| isCollecting := isCollecting s; isRealTimeMode := isRealTimeMode s;
     allRecords := allRecords s; processedIndexes := processedIndexes s;
     realTimeMissedCount := n;
     monitorStartTime := monitorStartTime s; recentCalls := recentCalls s;
     sentRecords := sentRecords s; processedAnswers := processedAnswers s;
     pendingRequests := pendingRequests s; metrics := metrics s |}.

Definition set_monitorStartTime (t : option Z) (s : State) : State :=
  {| isCollecting := isCollecting s; isRealTimeMode := isRealTimeMode s;
     allRecords := allRecords s; processedIndexes := processedIndexes s;
     realTimeMissedCount := realTimeMissedCount s;
     monitorStartTime := t; recentCalls := recentCalls s;
     sentRecords := sentRecords s; processedAnswers := processedAnswers s;
     pendingRequests := pendingRequests s; metrics := metrics s |}.

Definition set_recentCalls (m : list (string * list Call)) (s : State)
  : State :=
  {| isCollecting := isCollecting s; isRealTimeMode := isRealTimeMode s;
     allRecords := allRecords s; processedIndexes := processedIndexes s;
     realTimeMissedCount := realTimeMissedCount s;
     monitorStartTime := monitorStartTime s; recentCalls := m;
     sentRecords := sentRecords s; processedAnswers := processedAnswers s;
     pendingRequests := pendingRequests s; metrics := metrics s |}.

Definition set_sentRecords (m : list (string * SentInfo)) (s : State)
  : State :=
  {| isCollecting := isCollecting s; isRealTimeMode := isRealTimeMode s;
     allRecords := allRecords s; processedIndexes := processedIndexes s;
     realTimeMissedCount := realTimeMissedCount s;
     monitorStartTime := monitorStartTime s; recentCalls := recentCalls s;
     sentRecords := m; processedAnswers := processedAnswers s;
     pendingRequests := pendingRequests s; metrics := metrics s |}.

Definition set_processedAnswers (l : list string) (s : State) : State :=
  {| isCollecting := isCollecting s; isRealTimeMode := isRealTimeMode s;
     allRecords := allRecords s; processedIndexes := processedIndexes s;
     realTimeMissedCount := realTimeMissedCount s;
     monitorStartTime := monitorStartTime s; recentCalls := recentCalls s;
     sentRecords := sentRecords s; processedAnswers := l;
     pendingRequests := pendingRequests s; metrics := metrics s |}.

Definition set_pendingRequests (l : list string) (s : State) : State :=
  {| isCollecting := isCollecting s; isRealTimeMode := isRealTimeMode s;
     allRecords := allRecords s; processedIndexes := processedIndexes s;
     realTimeMissedCount := realTimeMissedCount s;
     monitorStartTime := monitorStartTime s; recentCalls := recentCalls s;
     sentRecords := sentRecords s; processedAnswers := processedAnswers s;
     pendingRequests := l; metrics := metrics s |}.

Definition set_metrics (m : Metrics) (s : State) : State :=
  {| isCollecting := isCollecting s; isRealTimeMode := isRealTimeMode s;
     allRecords := allRecords s; processedIndexes := processedIndexes s;
     realTimeMissedCount := realTimeMissedCount s;
     monitorStartTime := monitorStartTime s; recentCalls := recentCalls s;
     sentRecords := sentRecords s; processedAnswers := processedAnswers s;
     pendingRequests := pendingRequests s; metrics := m |}.

(** [this.performanceMonitor.metrics.domQueries++] *)
Definition countDomQuery (s : State) : State :=
  set_metrics {| domQueries := domQueries (metrics s) + 1;
                 networkRequests := networkRequests (metrics s);
                 errors := errors (metrics s) |} s.

(** [this.performanceMonitor.metrics.networkRequests++] *)
Definition countNetworkRequest (s : State) : State :=
  set_metrics {| domQueries := domQueries (metrics s);
                 networkRequests := networkRequests (metrics s) + 1;
                 errors := errors (metrics s) |} s.

(** [this.performanceMonitor.logError(...)] *)
Definition logError (s : State) : State :=
  set_metrics {| domQueries := domQueries (metrics s);
                 networkRequests := networkRequests (metrics s);
                 errors := errors (metrics s) + 1 |} s.

(** The [data] object of [saveToLocalStorage]. *)
Definition snapshot (s : State) : Snapshot :=
  {| snapRecords := sliceLast 100 (allRecords s);
     snapProcessedIndexes := sliceLast 300 (processedIndexes s);
     snapRealTimeMissedCount := realTimeMissedCount s;
     snapMonitorStartTime := monitorStartTime s;
     snapSentRecords := sliceLast 50 (sentRecords s);
     snapProcessedAnswers := sliceLast 50 (processedAnswers s) |}.

(** [saveToLocalStorage()], the storage write succeeding.  (The [catch]
    branch, which answers a failed write with [performanceCleanup] and
    so with another write, is outside the embedding.) *)
Definition saveToLocalStorage (s : State) : list Effect :=
  [Store (snapshot s)].

(** The constructor's defaults. *)
Definition emptyState : State :=
  {| isCollecting := false; isRealTimeMode := false; allRecords := [];
     processedIndexes := []; realTimeMissedCount := 0;
     monitorStartTime := None; recentCalls := []; sentRecords := [];
     processedAnswers := []; pendingRequests := [];
     metrics := {| domQueries := 0; networkRequests := 0; errors := 0 |} |}.

(** [loadFromLocalStorage()] on the stored object, if any.  The stored
    start time is tested for truthiness: a stored [0] loads as [null]. *)
Definition loadFromLocalStorage (stored : option Snapshot) (s : State)
  : State :=
  match stored with
  | None => s
  | Some d =>
      let s := set_allRecords (snapRecords d) s in
      let s := set_processedIndexes
                 (fold_left (fun acc k => add k acc)
                            (snapProcessedIndexes d) []) s in
      let s := set_realTimeMissedCount (snapRealTimeMissedCount d) s in
      let s := set_monitorStartTime
                 match snapMonitorStartTime d with
                 | Some t => if t =? 0 then None else Some t
                 | None => None
                 end s in
      let s := set_sentRecords
                 (fold_left (fun acc kv => set (fst kv) (snd kv) acc)
                            (snapSentRecords d) []) s in
      set_processedAnswers
        (fold_left (fun acc k => add k acc) (snapProcessedAnswers d) []) s
  end.

(** [new NextivaCollector()] *)
Definition construct (stored : option Snapshot) : State :=
  loadFromLocalStorage stored emptyState.

(** [clearLocalStorage()] *)
Definition clearLocalStorage (s : State) : State * list Effect :=
  let s := set_allRecords [] s in
  let s := set_processedIndexes [] s in
  let s := set_realTimeMissedCount 0 s in
  let s := set_monitorStartTime None s in
  let s := set_sentRecords [] s in
  let s := set_pendingRequests [] s in
  (s, [Unstore]).

(** [isActualMissedCall(phoneNumber, timestamp)] *)
Definition isActualMissedCall (phone : string) (ts : Z) (s : State)
  : string :=
  let oneHourAgo := ts - hourMs in
  let oneHourLater := ts + hourMs in
  let calls := match get phone (recentCalls s) with
               | Some c => c | None => [] end in
  if existsb (fun call => (oneHourAgo <? time call)
                          && (time call <? oneHourLater)
                          && wasAnswered call) calls
  then "No" else "Yes".

(** [updateRecentCalls(phoneNumber, timestamp, isMissed, isAnswered)] at
    the instant [now] *)
Definition updateRecentCalls (phone : string) (ts : Z)
           (missed answered : bool) (now : Z) (s : State) : State :=
  let calls := match get phone (recentCalls s) with
               | Some c => c | None => [] end in
  let calls := calls ++ [{| time := ts; isMissed := missed;
                            wasAnswered := answered |}] in
  let twoHoursAgo := now - 2 * hourMs in
  let recent := sliceLast 10
                  (filter (fun call => twoHoursAgo <? time call) calls) in
  set_recentCalls (set phone recent (recentCalls s)) s.

(** [sendToGoogleSheets(record, isUpdate)]; [requestId] is the identifier
    this call draws from the clock and [Math.random()].  The request is
    issued and its completion arrives later as a separate event. *)
Definition sendToGoogleSheets (record : CallRecord) (isUpd : bool)
           (requestId : string) (s : State) : State * list Effect :=
  if negb (isRealTimeMode s) then (s, []) else
  let s := countNetworkRequest s in
  let phone := extractPhoneNumber (contact record) in
  let actual := isActualMissedCall phone (timestamp record) s in
  let contactInfo := separateContactInfo (contact record) None in
  let data :=
    {| dateTime := formatDateTimeForSheet (timestamp record);
       number := displayNumber contactInfo;
       frequency := Some 1;
       actualMissedCall := actual;
       isUpdate := isUpd;
       phoneNumber := phone;
       source := if isUpd then "Real-time Update" else "Real-time Monitor";
       notes := contactName contactInfo;
       answerTime := None |} in
  let recordKey := keyOf phone (timestamp record) in
  let s := set_sentRecords
             (set recordKey
                  {| sentDateTime := dateTime data;
                     sentNumber := number data;
                     sentActualMissedCall := actual |}
                  (sentRecords s)) s in
  let s := set_pendingRequests (add requestId (pendingRequests s)) s in
  (s, [Post requestId data]).

(** The [onload] callback of a request (both call sites have the same
    one, up to log text). *)
Definition onload (requestId : string) (status : Z) (s : State) : State :=
  let s := set_pendingRequests (delete requestId (pendingRequests s)) s in
  if negb (isRealTimeMode s) then s
  else if status =? 200 then s else s.

(** The [onerror] callback of a request. *)
Definition onerror (requestId : string) (s : State) : State :=
  logError (set_pendingRequests (delete requestId (pendingRequests s)) s).

(** The [ontimeout] callback of a request. *)
Definition ontimeout (requestId : string) (s : State) : State :=
  set_pendingRequests (delete requestId (pendingRequests s)) s.

(** The [updateData] object of [updateMissedCallsAfterAnswer]. *)
Definition updateData (record : CallRecord) (phone : string)
           (answerTimestamp : Z) : Payload :=
  let contactInfo := separateContactInfo (contact record) None in
  {| dateTime := formatDateTimeForSheet (timestamp record);
     number := displayNumber contactInfo;
     frequency := None;
     actualMissedCall := "No";
     isUpdate := true;
     phoneNumber := phone;
     source := ("Call answered at "
                ++ formatDateTimeForSheet answerTimestamp)%string;
     notes := contactName contactInfo;
     answerTime := Some (formatDateTimeForSheet answerTimestamp) |}.

(** The sending loop of [updateMissedCallsAfterAnswer]; [requestIds i] is
    the identifier drawn at iteration [i]. *)
Fixpoint sendUpdates (records : list CallRecord) (phone : string)
         (answerTimestamp : Z) (requestIds : nat -> string) (i : nat)
         (s : State) : State * list Effect :=
  match records with
  | [] => (s, [])
  | record :: rest =>
      let data := updateData record phone answerTimestamp in
      if negb (isRealTimeMode s) then (s, []) else
      let requestId := ("update_" ++ requestIds i)%string in
      let s := set_pendingRequests (add requestId (pendingRequests s)) s in
      let '(s', es) :=
        sendUpdates rest phone answerTimestamp requestIds (S i) s in
      (s', Post requestId data :: es)
  end.

(** The test selecting [affectedRecords]. *)
Definition isAffected (phone : string) (answerTimestamp : Z) (s : State)
           (record : CallRecord) : bool :=
  String.eqb (extractPhoneNumber (contact record)) phone
  && (answerTimestamp - hourMs <? timestamp record)
  && (timestamp record <? answerTimestamp)
  && mhas (keyOf phone (timestamp record)) (sentRecords s).

(** [answerKey]: the phone and the answer time rounded to its minute *)
Definition answerKeyOf (phone : string) (answerTimestamp : Z) : string :=
  keyOf phone (setSeconds answerTimestamp 0 0).

(** [updateMissedCallsAfterAnswer(phoneNumber, answerTimestamp)]; returns
    the new state, the effects and [affectedRecords.length]. *)
Definition updateMissedCallsAfterAnswer (phone : string)
           (answerTimestamp : Z) (requestIds : nat -> string) (s : State)
  : State * list Effect * Z :=
  if negb (isRealTimeMode s) then (s, [], 0) else
  let answerKey := answerKeyOf phone answerTimestamp in
  if has answerKey (processedAnswers s) then (s, [], 0) else
  let affectedRecords :=
    filter (isAffected phone answerTimestamp s) (allRecords s) in
  let '(s, es) :=
    sendUpdates (sliceFirst 3 affectedRecords) phone answerTimestamp
                requestIds 0 s in
  let s := set_processedAnswers (add answerKey (processedAnswers s)) s in
  match affectedRecords with
  | _ :: _ => (s, es ++ saveToLocalStorage s,
               Z.of_nat (List.length affectedRecords))
  | [] => (s, es, 0)
  end.

(** [stopRealTimeMode(skipDownload)] *)
Definition stopRealTimeMode (skipDownload : bool) (s : State)
  : State * list Effect :=
  if negb (isRealTimeMode s) then (s, []) else
  let s := set_isRealTimeMode false s in
  let s := set_pendingRequests [] s in
  if negb skipDownload then
    let '(s, es) := clearLocalStorage s in
    let s := set_realTimeMissedCount 0 s in
    let s := set_monitorStartTime None s in
    (s, es)
  else (s, []).

(** [startRealTimeMode()] at the instant [now] *)
Definition startRealTimeMode (now : Z) (s : State) : State * list Effect :=
  let '(s, es) := if isRealTimeMode s then stopRealTimeMode true s
                  else (s, []) in
  let s := set_isRealTimeMode true s in
  let s := set_isCollecting false s in
  let s := set_realTimeMissedCount 0 s in
  let s := set_monitorStartTime (Some now) s in
  let s := set_allRecords [] s in
  let s := set_processedIndexes [] s in
  let s := set_recentCalls [] s in
  let s := set_sentRecords [] s in
  let s := set_processedAnswers [] s in
  (s, es).

(** [destroy()] *)
Definition destroy (s : State) : State * list Effect :=
  let '(s, es) := stopRealTimeMode false s in
  let s := set_allRecords [] s in
  let s := set_processedIndexes [] s in
  let s := set_recentCalls [] s in
  let s := set_sentRecords [] s in
  let s := set_processedAnswers [] s in
  (s, es).

Definition isMissedRow (row : Row) : bool :=
  includes (textContent row) "Missed call".

Definition isAnsweredRow (row : Row) : bool :=
  includes (textContent row) "Incoming call answered by"
  || includes (textContent row) "Incoming call".

(** The [some(...)] test of [checkForNewCalls]: a record with this
    contact and time value exists. *)
Definition recordExists (c : string) (ts : Z) (records : list CallRecord)
  : bool :=
  existsb (fun record => String.eqb (contact record) c
                         && (timestamp record =? ts)) records.

(** The result object [{ newMissedFound, answeredFound }]. *)
Definition Found : Type := (Z * Z)%type.

(** [checkForNewCalls()]: [topRow] is the first row card of the view, if
    any, [now] the instant of the call. *)
Definition checkForNewCalls (topRow : option Row) (now : Z)
           (requestIds : nat -> string) (s : State)
  : State * list Effect * Found :=
  let s := countDomQuery s in
  match topRow with
  | None => (s, [], (0, 0))
  | Some row =>
      match dataIndexAttr row with
      | None => (s, [], (0, 0))
      | Some idx =>
          let isMissedCall := isMissedRow row in
          let isAnsweredCall := isAnsweredRow row in
          match timestampText row, senderText row with
          | Some tsText, Some sender =>
              let c := trim sender in
              let contactInfo := separateContactInfo c (Some row) in
              let c := displayNumber contactInfo in
              match parseDateTime tsText [] now with
              | None => (s, [], (0, 0))
              | Some ts =>
                  if match monitorStartTime s with
                     | Some start => ts <=? start
                     | None => false
                     end
                  then (s, [], (0, 0))
                  else
                    let phone := extractPhoneNumber c in
                    let s := updateRecentCalls phone ts isMissedCall
                                               isAnsweredCall now s in
                    if isAnsweredCall then
                      let '(s, es, updatedCount) :=
                        updateMissedCallsAfterAnswer phone ts requestIds s in
                      (s, es, (0, if 0 <? updatedCount then 1 else 0))
                    else if isMissedCall
                            && negb (recordExists c ts (allRecords s))
                    then
                      let record := newCallRecord ts c idx in
                      let s := set_allRecords (allRecords s ++ [record]) s in
                      let s := set_realTimeMissedCount
                                 (realTimeMissedCount s + 1) s in
                      let '(s, es) :=
                        sendToGoogleSheets record false (requestIds 0%nat) s in
                      (s, es ++ saveToLocalStorage s, (1, 0))
                    else (s, [], (0, 0))
              end
          | _, _ => (s, [], (0, 0))
          end
      end
  end.

(** The first loop of [collectRecords]: the dates of all rows. *)
Definition lowerRowDatesOf (rows : list Row) (now : Z) : list Z :=
  flat_map (fun row =>
              match timestampText row with
              | Some t => match parseDateTime t [] now with
                          | Some d => [d]
                          | None => []
                          end
              | None => []
              end) rows.

(** One iteration of the main loop of [collectRecords]; the [bool] tells
    whether a record was added. *)
Definition collectRow (lowerRowDates : list Z) (now : Z) (row : Row)
           (s : State) : State * bool :=
  match dataIndexAttr row with
  | None => (s, false)
  | Some idx =>
      if has idx (processedIndexes s) then (s, false) else
      let isMissedCall := isMissedRow row in
      let isAnsweredCall := isAnsweredRow row in
      let markProcessed (s : State) :=
        set_processedIndexes (add idx (processedIndexes s)) s in
      if negb isMissedCall && negb isAnsweredCall
      then (markProcessed s, false) else
      match timestampText row, senderText row with
      | Some tsText, Some sender =>
          let c := trim sender in
          let contactInfo := separateContactInfo c (Some row) in
          let c := displayNumber contactInfo in
          let parsed :=
            match parseDateTime tsText lowerRowDates now with
            | Some ts => Some ts
            | None => parseAnyDateTime tsText now
            end in
          match parsed with
          | None => (markProcessed s, false)
          | Some ts =>
              let phone := extractPhoneNumber c in
              let s := updateRecentCalls phone ts isMissedCall
                                         isAnsweredCall now s in
              if isMissedCall then
                let s := set_allRecords
                           (allRecords s ++ [newCallRecord ts c idx]) s in
                (markProcessed s, true)
              else (markProcessed s, false)
          end
      | _, _ => (s, false)
      end
  end.

Fixpoint collectRows (lowerRowDates : list Z) (now : Z) (rows : list Row)
         (s : State) : State * Z :=
  match rows with
  | [] => (s, 0)
  | row :: rest =>
      let '(s, added) := collectRow lowerRowDates now row s in
      let '(s, n) := collectRows lowerRowDates now rest s in
      (s, if added : bool then n + 1 else n)
  end.

(** [collectRecords()] over the row cards of the view; returns the new
    state and [newRecordsCount]. *)
Definition collectRecords (rows : list Row) (now : Z) (s : State)
  : State * Z :=
  collectRows (lowerRowDatesOf rows now) now rows s.

(** ** Periodic cleanup

    [performanceCleanup()] runs on a five-minute timer, on high memory
    use and between the passes of a slow collection.  [now] is the
    instant of the call.

    Its block on the processed indexes reads them through [Number], sorts
    the numbers with [(a, b) => b - a] and writes them back through
    [String].  For indexes that are decimal integers, as the row indexes
    of the view are, the result is below.  For other texts the numeric
    reading, and the order that [sort] leaves when a reading is [NaN],
    belong to the JavaScript engine: [engineSorted] is then the sorted
    array as the engine computed it, each number read as text. *)

(** The largest magnitude of a valid time value. *)
Definition maxTime : Z := 8640000000000000.

(** [new Date(v) > limit] for an integer [v] and a valid date [limit]:
    false when [v] is out of the range of time values. *)
Definition dateAfter (v limit : Z) : bool :=
  (Z.abs v <=? maxTime) && (limit <? v).

(** The test that keeps an answer key in [performanceCleanup]. *)
Definition keepsAnswer (now : Z) (answerKey : string) : bool :=
  let parts := JSParse.split "_" answerKey in
  if (2 <=? List.length parts)%nat then
    match JSParse.parseInt (last parts "") with
    | Some timestamp => dateAfter timestamp (now - 6 * 60 * 60 * 1000)
    | None => false
    end
  else false.

(** The processed-answers block of [performanceCleanup]. *)
Definition cleanupProcessedAnswers (now : Z) (answers : list string)
  : list string :=
  fold_left (fun validAnswers answerKey =>
               if keepsAnswer now answerKey
               then JSColl.add answerKey validAnswers else validAnswers)
            answers [].

(** What the recent-calls block of [performanceCleanup] leaves of one
    phone's calls: [None] when the entry is deleted. *)
Definition trimmedCalls (now : Z) (calls : list Call) : option (list Call) :=
  match filter (fun call => now - 2 * 60 * 60 * 1000 <? time call) calls with
  | [] => None
  | recent => Some (JSColl.sliceLast 5 recent)
  end.

(** The recent-calls block of [performanceCleanup]: a loop over the
    entries of the map that deletes or replaces the entry it visits. *)
Definition cleanupRecentCalls (now : Z) (m : list (string * list Call))
  : list (string * list Call) :=
  fold_left (fun acc entry =>
               match trimmedCalls now (snd entry) with
               | None => JSColl.mdelete (fst entry) acc
               | Some recent => JSColl.set (fst entry) recent acc
               end)
            m m.

(** [Number(k)] for an index [k] written as a decimal integer in
    canonical form (digits only, no leading zero) that a double holds
    exactly; [None] for any other text, whose reading is the engine's. *)
Definition indexNumber (k : string) : option Z :=
  match chars k with
  | [] => None
  | c :: r =>
      if forallb is_digit (c :: r)
         && (negb (Ascii.eqb c "0") || (List.length r =? 0)%nat)
         && (digits_val 0 (c :: r) <=? 9007199254740992)
      then Some (digits_val 0 (c :: r)) else None
  end.

Fixpoint indexNumbers (indexes : list string) : option (list Z) :=
  match indexes with
  | [] => Some []
  | k :: rest =>
      match indexNumber k, indexNumbers rest with
      | Some n, Some ns => Some (n :: ns)
      | _, _ => None
      end
  end.

(** [Array.from(this.processedIndexes).map(Number).sort((a, b) => b - a)],
    each number read as text: the indexes in descending order when all
    of them are such integers, and [engineSorted] otherwise. *)
Definition sortedIndexes (engineSorted : list string)
           (indexes : list string) : list string :=
  match indexNumbers indexes with
  | Some numbers => map ofZ (sortStable (fun a b => b - a) numbers)
  | None => engineSorted
  end.

(** The processed-indexes block of [performanceCleanup]. *)
Definition cleanupProcessedIndexes (engineSorted : list string)
           (indexes : list string) : list string :=
  if (500 <? List.length indexes)%nat
  then fold_left (fun acc k => add k acc)
                 (sliceFirst 500 (sortedIndexes engineSorted indexes)) []
  else indexes.

(** The stored-records block of [performanceCleanup]. *)
Definition cleanupRecords (s : State) : list CallRecord :=
  if isRealTimeMode s && (200 <? List.length (allRecords s))%nat
  then sliceLast 200 (allRecords s) else allRecords s.

(** [performanceCleanup()] *)
Definition performanceCleanup (now : Z) (engineSorted : list string)
           (s : State) : State * list Effect :=
  let s := set_recentCalls (cleanupRecentCalls now (recentCalls s)) s in
  let s := set_processedIndexes
             (cleanupProcessedIndexes engineSorted (processedIndexes s)) s in
  let s := set_allRecords (cleanupRecords s) s in
  let s := set_processedAnswers
             (cleanupProcessedAnswers now (processedAnswers s)) s in
  (s, saveToLocalStorage s).

(** [this.allRecords.sort((a, b) => b.timestamp - a.timestamp)], in
    place: the progress display of a bulk collection and the report of
    [downloadCSV()] both sort the stored records. *)
Definition sortRecords (s : State) : State :=
  set_allRecords
    (sortStable (fun a b => timestamp b - timestamp a) (allRecords s)) s.

(** ** Sessions

    The collector runs one handler at a time; a session is the sequence
    of handler invocations since construction: the buttons, the polling
    of the top row, the completions of requests, and the periodic
    cleanup, which a timer, the performance monitor or a slow collection
    can start between any two of the others.  A bulk collection
    ([autoScrollAndCollect()]) is spread over several events, since it
    waits between its steps: it sets [isCollecting], runs passes of
    [collectRecords()], each followed by a sort of the stored records,
    clears [isCollecting], and ends with a last pass and the report. *)

Inductive Event : Type :=
| Started (now : Z)
| Stopped (skipDownload : bool)
| Checked (topRow : option Row) (now : Z) (requestIds : nat -> string)
| Collected (rows : list Row) (now : Z)
| Loaded (requestId : string) (status : Z)
| Failed (requestId : string)
| TimedOut (requestId : string)
| Destroyed
| Cleaned (now : Z) (engineSorted : list string)
| Collecting (on : bool)
| Sorted.

Definition step (e : Event) (s : State) : State * list Effect :=
  match e with
  | Started now => startRealTimeMode now s
  | Stopped skip => stopRealTimeMode skip s
  | Checked topRow now ids =>
      let '(s, es, _) := checkForNewCalls topRow now ids s in (s, es)
  | Collected rows now => (fst (collectRecords rows now s), [])
  | Loaded id status => (onload id status s, [])
  | Failed id => (onerror id s, [])
  | TimedOut id => (ontimeout id s, [])
  | Destroyed => destroy s
  | Cleaned now engineSorted => performanceCleanup now engineSorted s
  | Collecting on => (set_isCollecting on s, [])
  | Sorted => (sortRecords s, [])
  end.

Fixpoint session (events : list Event) (s : State) : State * list Effect :=
  match events with
  | [] => (s, [])
  | e :: rest =>
      let '(s, es) := step e s in
      let '(s', es') := session rest s in
      (s', es ++ es')
  end.

End Engine.

(** ** Observations on effects and records *)

(** The requests among a handler's effects, in order. *)
Fixpoint posts (es : list Effect) : list (string * Payload) :=
  match es with
  | [] => []
  | Post id body :: r => (id, body) :: posts r
  | _ :: r => posts r
  end.

(** The corrective requests among a handler's effects. *)
Definition updates (es : list Effect) : list (string * Payload) :=
  filter (fun p => isUpdate (snd p)) (posts es).

(** The update requests for [records], numbered from [i]. *)
Fixpoint updatePosts {H : Host} (records : list CallRecord) (phone : string)
         (answerTimestamp : Z) (requestIds : nat -> string) (i : nat)
  : list (string * Payload) :=
  match records with
  | [] => []
  | record :: rest =>
      (("update_" ++ requestIds i)%string,
       updateData record phone answerTimestamp)
      :: updatePosts rest phone answerTimestamp requestIds (S i)
  end.

(** The pair that identifies a missed-call row. *)
Definition identity (r : CallRecord) : string * Z := (contact r, timestamp r).

(** The limits of a stored snapshot. *)
Definition withinCaps (d : Snapshot) : Prop :=
  (List.length (snapRecords d) <= 100)%nat
  /\ (List.length (snapProcessedIndexes d) <= 300)%nat
  /\ (List.length (snapSentRecords d) <= 50)%nat
  /\ (List.length (snapProcessedAnswers d) <= 50)%nat.

(** [l] consists of the last elements of [full]. *)
Definition lastOf {A} (l full : list A) : Prop := exists p, full = p ++ l.

(** The fields a missed or answered call can change, metrics aside. *)
Definition sameEngine (s s' : State) : Prop :=
  isCollecting s' = isCollecting s
  /\ isRealTimeMode s' = isRealTimeMode s
  /\ allRecords s' = allRecords s
  /\ processedIndexes s' = processedIndexes s
  /\ realTimeMissedCount s' = realTimeMissedCount s
  /\ monitorStartTime s' = monitorStartTime s
  /\ recentCalls s' = recentCalls s
  /\ sentRecords s' = sentRecords s
  /\ processedAnswers s' = processedAnswers s
  /\ pendingRequests s' = pendingRequests s.

(** No local-storage write is among [es]. *)
Definition noWrites (es : list Effect) : Prop :=
  forall d, ~ In (Store d) es.

(** Every local-storage write of a handler stores the snapshot of the
    state that the handler leaves. *)
Definition savesResult (r : State * list Effect) : Prop :=
  forall d, In (Store d) (snd r) -> d = snapshot (fst r).

(** What holds of the collector between handlers: requests are pending
    only while monitoring, and monitoring has a start time. *)
Definition wellFormed (s : State) : Prop :=
  (isRealTimeMode s = false -> pendingRequests s = [])
  /\ (isRealTimeMode s = true -> monitorStartTime s <> None).

(** [s'] has the monitoring flag and start time of [s], and no pending
    request if [s] was idle with none. *)
Definition sameControl (s s' : State) : Prop :=
  isRealTimeMode s' = isRealTimeMode s
  /\ monitorStartTime s' = monitorStartTime s
  /\ (isRealTimeMode s = false -> pendingRequests s = [] ->
      pendingRequests s' = []).

(** What a completion handler leaves alone: everything but the set of
    pending requests and the counters. *)
Definition sameLedger (s s' : State) : Prop :=
  isCollecting s' = isCollecting s
  /\ isRealTimeMode s' = isRealTimeMode s
  /\ allRecords s' = allRecords s
  /\ processedIndexes s' = processedIndexes s
  /\ realTimeMissedCount s' = realTimeMissedCount s
  /\ monitorStartTime s' = monitorStartTime s
  /\ recentCalls s' = recentCalls s
  /\ sentRecords s' = sentRecords s
  /\ processedAnswers s' = processedAnswers s.

(** A row the bulk loop can never turn into a record: it lacks an index,
    a timestamp element or a sender element. *)
Definition neverAdds (row : Row) : Prop :=
  dataIndexAttr row = None \/ timestampText row = None
  \/ senderText row = None.

(** A row the bulk loop will not turn into a record from [s] on. *)
Definition settled (s : State) (row : Row) : Prop :=
  neverAdds row
  \/ exists idx, dataIndexAttr row = Some idx
                 /\ JSColl.has idx (processedIndexes s) = true.

(** ** Texts of the form "Yesterday H:MM [AM/PM]" *)

Definition digits : list ascii :=
  ["0"; "1"; "2"; "3"; "4"; "5"; "6"; "7"; "8"; "9"]%char.

(** one or two digits *)
Definition hourTexts : list (list ascii) :=
  map (fun a => [a]) digits
  ++ flat_map (fun a => map (fun b => [a; b]) digits) digits.

Definition minuteTexts : list (list ascii) :=
  flat_map (fun a => map (fun b => [a; b]) digits) digits.

Definition periodTexts : list string := [""; " AM"; " PM"].

Definition yesterdayText (h m : list ascii) (period : string) : string :=
  ("Yesterday " ++ JSString.text h ++ ":" ++ JSString.text m ++ period)%string.

Definition periodOf (period : string) : option string :=
  if String.eqb period "" then None else Some (JSString.trim period).

(** The patterns read [h], [m] and the period off such a text. *)
Definition readsYesterday (h m : list ascii) (period : string) : bool :=
  let txt := yesterdayText h m period in
  match Regex.matchStart Patterns.timeOnlyRe txt,
        Regex.search Patterns.yesterdayRe txt with
  | None, Some f =>
      String.eqb (JSString.text (Patterns.group 1 f)) (JSString.text h)
      && String.eqb (JSString.text (Patterns.group 2 f)) (JSString.text m)
      && match Patterns.groupUpper 3 f, periodOf period with
         | Some x, Some y => String.eqb x y
         | None, None => true
         | _, _ => false
         end
  | _, _ => false
  end.

(** ** A concrete session

    Eastern Standard Time, 15 March 2024; [Date.parse] rejecting the
    texts used. *)

Module Scenario.
Import JSString.

#[export] Instance host : Host :=
  {| tzOffset := - 5 * 3600000; Date_parse := fun _ => None |}.

(** local midnight of 2024-03-15 *)
Definition midnight : Z := 19797 * 86400000 + 5 * 3600000.
Definition at_ (h m sec : Z) : Z :=
  midnight + h * 3600000 + m * 60000 + sec * 1000.

Definition ids (i : nat) : string := ("req" ++ ofZ (Z.of_nat i))%string.

Definition card (body stamp sender idx : string) : Row :=
  {| textContent := (sender ++ body ++ stamp)%string;
     dataIndexAttr := Some idx;
     timestampText := Some stamp;
     senderText := Some sender;
     callerInfoText := None |}.

Definition missed (stamp idx : string) : Row :=
  card "Missed call" stamp "(555)123-4567" idx.

Definition answered (stamp idx : string) : Row :=
  card "Incoming call answered by X" stamp "(555)123-4567" idx.

(** monitoring started at 2:00 PM *)
Definition started : State :=
  fst (@startRealTimeMode (at_ 14 0 0) (@construct None)).

(** ... and the 2:15 PM missed call seen at 2:15:30 PM *)
Definition afterMissed : State :=
  fst (@step host (Checked (Some (missed "2:15 PM" "7")) (at_ 14 15 30) ids)
             started).

(** the record of the 2:15 PM missed call *)
Definition record215 : CallRecord :=
  newCallRecord (at_ 14 15 0) "(555)123-4567" "7".

(** the call is missed at 2:15 PM and the phone answered at 3:15 PM *)
Definition answeredAnHourLater : list Event :=
  [Started (at_ 14 0 0);
   Checked (Some (missed "2:15 PM" "7")) (at_ 14 15 30) ids;
   Checked (Some (answered "3:15 PM" "9")) (at_ 15 15 5) ids].

(** the state in which the phone is answered at 2:40 PM *)
Definition afterAnswer : State :=
  fst (@step host (Checked (Some (answered "2:40 PM" "9")) (at_ 14 40 5) ids)
             afterMissed).

(** monitoring stopped while the create request is in flight *)
Definition stoppedEarly : list Event :=
  [Started (at_ 14 0 0);
   Checked (Some (missed "2:15 PM" "7")) (at_ 14 15 30) ids;
   Stopped true].

(** two cards of the bulk view for two calls in the same minute *)
Definition twins : list Row := [missed "2:15 PM" "1"; missed "2:15 PM" "2"].


(** the bulk view just after midnight *)
Definition afterMidnight : list Row :=
  [missed "Yesterday 11:50 PM" "1"; missed "12:05 AM" "2"].

End Scenario.


(** ** Further observations on sessions *)

(** The handlers that keep the counter in step with the records: every
    handler but a pass of [collectRecords()] and [destroy]. *)
Definition isMonitoringEvent (e : Event) : bool :=
  match e with
  | Collected _ _ | Destroyed => false
  | _ => true
  end.

(** Every handler but a pass of [collectRecords()]. *)
Definition notBulk (e : Event) : bool :=
  match e with
  | Collected _ _ => false
  | _ => true
  end.

(** The counter shown to the user never falls below the number of stored
    records, and is that number as long as it has not passed 200, the
    size beyond which the periodic cleanup drops the oldest records. *)
Definition counterMatches (s : State) : Prop :=
  Z.of_nat (List.length (allRecords s)) <= realTimeMissedCount s
  /\ (realTimeMissedCount s <= 200 ->
      realTimeMissedCount s = Z.of_nat (List.length (allRecords s))).

(** The JavaScript sets hold no element twice and the sent-record map no
    key twice. *)
Definition collectionsDistinct (s : State) : Prop :=
  NoDup (processedIndexes s) /\ NoDup (map fst (sentRecords s))
  /\ NoDup (processedAnswers s) /\ NoDup (pendingRequests s).

(** The sent-record key of a stored record. *)
Definition recordKeyOf (r : CallRecord) : string :=
  keyOf (extractPhoneNumber (contact r)) (timestamp r).

(** While monitoring, every stored record has a sent-record entry. *)
Definition recordsSent (s : State) : Prop :=
  isRealTimeMode s = true ->
  forall r, In r (allRecords s) ->
            JSColl.mhas (recordKeyOf r) (sentRecords s) = true.

(** The bulk path's ledger: one record per index, every recorded index
    marked as processed. *)
Definition indexLedger (s : State) : Prop :=
  NoDup (map dataIndex (allRecords s))
  /\ forall r, In r (allRecords s) ->
               JSColl.has (dataIndex r) (processedIndexes s) = true.

(** The state right after [startRealTimeMode] at [now]: nothing stored,
    nothing pending. *)
Definition freshMonitor (now : Z) (m : Metrics) : State :=
  {| isCollecting := false; isRealTimeMode := true; allRecords := [];
     processedIndexes := []; realTimeMissedCount := 0;
     monitorStartTime := Some now; recentCalls := []; sentRecords := [];
     processedAnswers := []; pendingRequests := []; metrics := m |}.

(** What sending a create request leaves alone. *)
Definition deliveryFrame (s s' : State) : Prop :=
  isCollecting s' = isCollecting s
  /\ isRealTimeMode s' = isRealTimeMode s
  /\ allRecords s' = allRecords s
  /\ processedIndexes s' = processedIndexes s
  /\ realTimeMissedCount s' = realTimeMissedCount s
  /\ monitorStartTime s' = monitorStartTime s
  /\ recentCalls s' = recentCalls s
  /\ processedAnswers s' = processedAnswers s.

(** What a reconciliation pass leaves alone. *)
Definition reconcileFrame (s s' : State) : Prop :=
  isCollecting s' = isCollecting s
  /\ isRealTimeMode s' = isRealTimeMode s
  /\ allRecords s' = allRecords s
  /\ processedIndexes s' = processedIndexes s
  /\ realTimeMissedCount s' = realTimeMissedCount s
  /\ monitorStartTime s' = monitorStartTime s
  /\ recentCalls s' = recentCalls s
  /\ sentRecords s' = sentRecords s
  /\ metrics s' = metrics s.

(** ** Texts of the form "H:MM", with or without a period *)

(** The spellings of the period that the [i] flag admits. *)
Definition periodSpellings : list (list ascii) :=
  [["A"; "M"]; ["A"; "m"]; ["a"; "M"]; ["a"; "m"];
   ["P"; "M"]; ["P"; "m"]; ["p"; "M"]; ["p"; "m"]]%char.

(** [h], a colon, [m], then white space and a period, if any. *)
Definition timeText (h m spaces : list ascii) (period : option (list ascii))
  : string :=
  JSString.text (h ++ ":"%char :: m ++ spaces
                 ++ match period with Some p => p | None => [] end).

(** The period as the parsers compare it: [m[3]?.toUpperCase()]. *)
Definition upperPeriod (period : option (list ascii)) : option string :=
  option_map (fun p => JSString.toUpperCase (JSString.text p)) period.


(** ** The legacy report *)

(** A value of the [mergedRecords] map of [generateLegacyReport]. *)
Record MergedEntry : Type := {
  mergedTimestamp : Z;
  mergedContact : string;
  callsInHour : Z
}.

(** A row of the report. *)
Record ReportRow : Type := {
  rowDatetime : string;
  rowContact : string;
  rowCalls : Z
}.

Section Report.
Context {H : Host}.
(** [a.localeCompare(b)], the host's collation *)
Variable localeCompare : string -> string -> Z.
Import JSString JSColl JSDate LocalDate.

(** [d.setMinutes(m, s, ms)] *)
Definition setMinutes (t m s ms : Z) : Z :=
  let l := LocalTime t in
  UTC (MakeDate (Day l) (MakeTime (HourFromTime l) m s ms)).

(** [`${record.contact}_${hourTimestamp.getTime()}`] *)
Definition hourKey (record : CallRecord) : string :=
  (contact record ++ "_" ++ ofZ (setMinutes (timestamp record) 0 0 0))%string.

(** The body of the merging loop. *)
Definition mergeRecord (merged : list (string * MergedEntry))
           (record : CallRecord) : list (string * MergedEntry) :=
  let key := hourKey record in
  match get key merged with
  | Some existing =>
      set key {| mergedTimestamp := mergedTimestamp existing;
                 mergedContact := mergedContact existing;
                 callsInHour := callsInHour existing + 1 |} merged
  | None =>
      set key {| mergedTimestamp := timestamp record;
                 mergedContact := contact record;
                 callsInHour := 1 |} merged
  end.

(** The [datetime] text of a report row: [M/D/YYYY h:mm am|pm]. *)
Definition legacyDatetime (t : Z) : string :=
  let hour := getHours t in
  let ampm := if 12 <=? hour then "pm" else "am" in
  let hour12 := if hour =? 0 then 12
                else if 12 <? hour then hour - 12 else hour in
  (ofZ (getMonth t + 1) ++ "/" ++ ofZ (getDate t) ++ "/"
   ++ ofZ (getFullYear t) ++ " " ++ ofZ hour12 ++ ":"
   ++ padStart2 (ofZ (getMinutes t)) ++ " " ++ ampm)%string.

Definition reportRow (e : MergedEntry) : ReportRow :=
  {| rowDatetime := legacyDatetime (mergedTimestamp e);
     rowContact := mergedContact e;
     rowCalls := callsInHour e |}.

(** [generateLegacyReport()]; the sort of [allRecords] is in place. *)
Definition generateLegacyReport (s : State) : State * list ReportRow :=
  let sortedRecords :=
    sortStable (fun a b => timestamp b - timestamp a) (allRecords s) in
  let s := set_allRecords sortedRecords s in
  let mergedRecords := fold_left mergeRecord sortedRecords [] in
  let report := map (fun kv => reportRow (snd kv)) mergedRecords in
  (s, sortStable (fun a b => localeCompare (rowDatetime b) (rowDatetime a))
                 report).

End Report.

(** The calls held by the map of merged entries. *)
Definition mergedTotal (m : list (string * MergedEntry)) : Z :=
  fold_right (fun kv acc => callsInHour (snd kv) + acc) 0 m.

(** The sum of the calls of a report. *)
Definition totalCalls (report : list ReportRow) : Z :=
  fold_right (fun row acc => rowCalls row + acc) 0 report.

(** Newest first. *)
Definition newestFirst (l : list CallRecord) : Prop :=
  Sorted.StronglySorted (fun a b => timestamp b <= timestamp a) l.


(** ** Runs of digits *)

(** A run of decimal digits. *)
Definition isDigits (l : list ascii) : Prop :=
  Forall (fun c => JSString.is_digit c = true) l.

(** * Properties *)

(** ** Ordered sets and maps *)

Module JSCollFacts.
Import JSColl.

Lemma has_In (k : string) (s : list string) : has k s = true <-> In k s.
Proof.
  unfold has. rewrite existsb_exists. split.
  - intros [x [Hin Heq]]. apply String.eqb_eq in Heq. now subst.
  - intros Hin. exists k. split; [assumption | apply String.eqb_refl].
Qed.

Lemma has_add_same (k : string) (s : list string) : has k (add k s) = true.
Proof.
  unfold add. destruct (has k s) eqn:E; [assumption |].
  apply has_In, in_or_app. right. now left.
Qed.

Lemma has_add_mono (k k' : string) (s : list string) :
  has k s = true -> has k (add k' s) = true.
Proof.
  intros Hk. unfold add. destruct (has k' s); [assumption |].
  apply has_In, in_or_app. left. now apply has_In.
Qed.

Lemma delete_nil (k : string) : delete k [] = [].
Proof. reflexivity. Qed.

Lemma mhas_set_same {V} (k : string) (v : V) (m : list (string * V)) :
  mhas k (set k v m) = true.
Proof.
  unfold mhas. induction m as [| [k' v'] m IH]; simpl.
  - now rewrite String.eqb_refl.
  - destruct (String.eqb k k') eqn:E; simpl.
    + now rewrite String.eqb_refl.
    + now rewrite E.
Qed.

Lemma sliceLast_length {A} (n : nat) (l : list A) :
  (List.length (sliceLast n l) <= n)%nat.
Proof. unfold sliceLast. rewrite length_skipn. lia. Qed.

Lemma sliceLast_lastOf {A} (n : nat) (l : list A) : lastOf (sliceLast n l) l.
Proof.
  exists (firstn (List.length l - n) l). unfold sliceLast.
  symmetry. apply firstn_skipn.
Qed.

Lemma sliceLast_short {A} (n : nat) (l : list A) :
  (List.length l <= n)%nat -> sliceLast n l = l.
Proof.
  intros Hl. unfold sliceLast.
  replace (List.length l - n)%nat with 0%nat by lia. reflexivity.
Qed.

Lemma In_sliceFirst {A} (n : nat) (l : list A) (x : A) :
  In x (sliceFirst n l) -> In x l.
Proof.
  unfold sliceFirst. revert l. induction n as [| n IH]; intros l; simpl.
  - intros [].
  - destruct l as [| y l]; simpl; [intros [] |].
    intros [-> | Hin]; [now left | right; auto].
Qed.

End JSCollFacts.

(** ** Sorting *)

Module SortFacts.

Lemma insertSorted_perm {A} (cmp : A -> A -> Z) (x : A) (l : list A) :
  Permutation.Permutation (x :: l) (insertSorted cmp x l).
Proof.
  induction l as [| y l IH]; simpl; [apply Permutation.Permutation_refl |].
  destruct (0 <? cmp x y); [| apply Permutation.Permutation_refl].
  eapply Permutation.perm_trans; [apply Permutation.perm_swap |].
  now apply Permutation.perm_skip.
Qed.

Lemma sortStable_perm {A} (cmp : A -> A -> Z) (l : list A) :
  Permutation.Permutation l (sortStable cmp l).
Proof.
  induction l as [| x l IH]; simpl; [constructor |].
  eapply Permutation.perm_trans; [| apply insertSorted_perm].
  now apply Permutation.perm_skip.
Qed.

Lemma totalCalls_perm (l l' : list ReportRow) :
  Permutation.Permutation l l' -> totalCalls l = totalCalls l'.
Proof.
  induction 1; simpl; lia.
Qed.

Lemma insert_newestFirst (x : CallRecord) (l : list CallRecord) :
  newestFirst l ->
  newestFirst (insertSorted (fun a b => timestamp b - timestamp a) x l).
Proof.
  unfold newestFirst. induction 1 as [| y l Hs IH Hall]; simpl.
  - repeat constructor.
  - destruct (Z.ltb_spec 0 (timestamp y - timestamp x)) as [Hlt | Hge].
    + constructor; [exact IH |].
      apply (Permutation.Permutation_Forall (insertSorted_perm _ x l)).
      constructor; [lia | exact Hall].
    + constructor; [now constructor |].
      constructor; [lia |].
      eapply Forall_impl; [| exact Hall]. simpl. intros a Ha. lia.
Qed.

Lemma sort_newestFirst (l : list CallRecord) :
  newestFirst (sortStable (fun a b => timestamp b - timestamp a) l).
Proof.
  induction l as [| x l IH]; simpl; [constructor |].
  now apply insert_newestFirst.
Qed.

End SortFacts.

(** ** Persistence *)

Section Persistence.
Context {H : Host}.
Import JSColl JSCollFacts.

Lemma snapshot_withinCaps (s : State) : withinCaps (snapshot s).
Proof. repeat split; apply sliceLast_length. Qed.

Lemma snapshot_keeps_last (s : State) :
  lastOf (snapRecords (snapshot s)) (allRecords s)
  /\ lastOf (snapProcessedIndexes (snapshot s)) (processedIndexes s)
  /\ lastOf (snapSentRecords (snapshot s)) (sentRecords s)
  /\ lastOf (snapProcessedAnswers (snapshot s)) (processedAnswers s).
Proof. repeat split; apply sliceLast_lastOf. Qed.

Lemma sliceLast_length_min {A} (n : nat) (l : list A) :
  List.length (sliceLast n l) = Nat.min n (List.length l).
Proof. unfold sliceLast. rewrite length_skipn. lia. Qed.

Lemma noWrites_nil : noWrites [].
Proof. intros d []. Qed.

Lemma saves_none (s : State) (es : list Effect) :
  noWrites es -> savesResult (s, es).
Proof. intros Hn d Hin. destruct (Hn d Hin). Qed.

Lemma saves_then_save (s : State) (es : list Effect) :
  noWrites es -> savesResult (s, es ++ saveToLocalStorage s).
Proof.
  intros Hn d Hin. cbn [fst snd] in *.
  apply in_app_or in Hin as [Hin | [Hd | []]]; [destruct (Hn d Hin) |].
  now injection Hd as <-.
Qed.

Lemma sendUpdates_noWrites records phone t ids i s :
  noWrites (snd (sendUpdates records phone t ids i s)).
Proof.
  revert i s. induction records as [| r rest IH]; intros i s; simpl.
  - apply noWrites_nil.
  - destruct (negb (isRealTimeMode s)); [apply noWrites_nil |].
    match goal with
    | |- context [sendUpdates rest phone t ids (S i) ?s'] =>
        specialize (IH (S i) s');
        destruct (sendUpdates rest phone t ids (S i) s') as [s1 es1]
    end.
    simpl in *. intros d [Hd | Hin]; [discriminate | exact (IH d Hin)].
Qed.

Lemma updateMissed_saves phone t ids s :
  savesResult (fst (updateMissedCallsAfterAnswer phone t ids s)).
Proof.
  unfold updateMissedCallsAfterAnswer.
  destruct (negb (isRealTimeMode s));
    [apply saves_none, noWrites_nil |].
  destruct (has _ _); [apply saves_none, noWrites_nil |].
  match goal with
  | |- context [sendUpdates ?l phone t ids 0 s] =>
      pose proof (sendUpdates_noWrites l phone t ids 0%nat s) as Hw;
      destruct (sendUpdates l phone t ids 0 s) as [s1 es1]
  end.
  cbn [snd] in Hw.
  destruct (filter _ _); cbn [fst];
    [apply saves_none | apply saves_then_save]; exact Hw.
Qed.

Lemma sendToGoogleSheets_noWrites record upd id s :
  noWrites (snd (sendToGoogleSheets record upd id s)).
Proof.
  unfold sendToGoogleSheets.
  destruct (negb (isRealTimeMode s)); [apply noWrites_nil |].
  simpl. intros d [Hd | []]. discriminate.
Qed.

Lemma stop_noWrites skip s : noWrites (snd (stopRealTimeMode skip s)).
Proof.
  unfold stopRealTimeMode, clearLocalStorage.
  destruct (negb (isRealTimeMode s)); [apply noWrites_nil |].
  destruct skip; simpl; [apply noWrites_nil |].
  intros d [Hd | []]. discriminate.
Qed.

Lemma check_saves topRow now ids s :
  savesResult (fst (checkForNewCalls topRow now ids s)).
Proof.
  unfold checkForNewCalls.
  destruct topRow as [row |]; [| apply saves_none, noWrites_nil].
  destruct (dataIndexAttr row) as [idx |]; [| apply saves_none, noWrites_nil].
  destruct (timestampText row) as [tsText |];
    [| apply saves_none, noWrites_nil].
  destruct (senderText row) as [sender |];
    [| apply saves_none, noWrites_nil].
  destruct (parseDateTime tsText [] now) as [ts |];
    [| apply saves_none, noWrites_nil].
  match goal with |- context [if ?c then _ else _] => destruct c end;
    [apply saves_none, noWrites_nil |].
  destruct (isAnsweredRow row).
  - match goal with
    | |- context [updateMissedCallsAfterAnswer ?p ?t ids ?s'] =>
        pose proof (updateMissed_saves p t ids s') as Hw;
        destruct (updateMissedCallsAfterAnswer p t ids s') as [[s1 es1] n]
    end.
    exact Hw.
  - match goal with |- context [if ?c then _ else _] => destruct c end;
      [| apply saves_none, noWrites_nil].
    match goal with
    | |- context [sendToGoogleSheets ?r false ?i ?s'] =>
        pose proof (sendToGoogleSheets_noWrites r false i s') as Hw;
        destruct (sendToGoogleSheets r false i s') as [s1 es1]
    end.
    cbn [fst snd] in *. apply saves_then_save. exact Hw.
Qed.

Lemma step_saves (e : Event) (s : State) : savesResult (step e s).
Proof.
  destruct e as [now | skip | topRow now ids | rows now | id status | id | id
                | | now sorted | on |];
    cbn [step]; try (apply saves_none, noWrites_nil).
  - unfold startRealTimeMode.
    pose proof (stop_noWrites true s) as Hw.
    destruct (isRealTimeMode s); cbn [fst snd].
    + destruct (stopRealTimeMode true s) as [s1 es1].
      apply saves_none. exact Hw.
    + apply saves_none, noWrites_nil.
  - pose proof (stop_noWrites skip s) as Hw.
    destruct (stopRealTimeMode skip s) as [s1 es1].
    apply saves_none. exact Hw.
  - pose proof (check_saves topRow now ids s) as Hw.
    destruct (checkForNewCalls topRow now ids s) as [[s1 es1] f]. exact Hw.
  - unfold destroy. pose proof (stop_noWrites false s) as Hw.
    destruct (stopRealTimeMode false s) as [s1 es1].
    apply saves_none. exact Hw.
  - unfold performanceCleanup.
    apply (saves_then_save _ []), noWrites_nil.
Qed.

(** C9. Every persistence write of any handler, from any engine state,
    stores a bounded snapshot of the state that is saved, which is the
    state the handler leaves: exactly the last 100 call records, the last
    300 processed indexes, the last 50 sent-record entries and the last
    50 processed-answer keys of that state, or all of them where it has
    fewer. *)
Theorem persisted_snapshot_bounded (e : Event) (s : State) (d : Snapshot) :
  In (Store d) (snd (step e s)) ->
  let saved := fst (step e s) in
  d = snapshot saved
  /\ withinCaps d
  /\ (lastOf (snapRecords d) (allRecords saved)
      /\ List.length (snapRecords d)
         = Nat.min 100 (List.length (allRecords saved)))
  /\ (lastOf (snapProcessedIndexes d) (processedIndexes saved)
      /\ List.length (snapProcessedIndexes d)
         = Nat.min 300 (List.length (processedIndexes saved)))
  /\ (lastOf (snapSentRecords d) (sentRecords saved)
      /\ List.length (snapSentRecords d)
         = Nat.min 50 (List.length (sentRecords saved)))
  /\ (lastOf (snapProcessedAnswers d) (processedAnswers saved)
      /\ List.length (snapProcessedAnswers d)
         = Nat.min 50 (List.length (processedAnswers saved))).
Proof.
  intros Hin saved. rewrite (step_saves e s d Hin). fold saved.
  split; [reflexivity |]. split; [apply snapshot_withinCaps |].
  unfold snapshot; cbn [snapRecords snapProcessedIndexes snapSentRecords
                         snapProcessedAnswers].
  repeat split; try apply sliceLast_lastOf; apply sliceLast_length_min.
Qed.

End Persistence.

(** ** Monitoring flag, start time and pending requests *)

Section Control.
Context {H : Host}.
Import JSColl JSCollFacts.

Lemma sameControl_refl (s : State) : sameControl s s.
Proof. repeat split; auto. Qed.

Lemma sameControl_trans (s1 s2 s3 : State) :
  sameControl s1 s2 -> sameControl s2 s3 -> sameControl s1 s3.
Proof.
  intros (M1 & T1 & P1) (M2 & T2 & P2). repeat split; try congruence.
  intros Hm Hp. apply P2; [congruence | auto].
Qed.

Lemma sendToGoogleSheets_control record upd id s :
  sameControl s (fst (sendToGoogleSheets record upd id s)).
Proof.
  unfold sendToGoogleSheets.
  destruct (isRealTimeMode s) eqn:E; simpl.
  - repeat split; simpl; auto; congruence.
  - apply sameControl_refl.
Qed.

Lemma sendUpdates_control records phone t ids i s :
  sameControl s (fst (sendUpdates records phone t ids i s)).
Proof.
  revert i s. induction records as [| r rest IH]; intros i s; simpl.
  - apply sameControl_refl.
  - destruct (isRealTimeMode s) eqn:E; simpl; [| apply sameControl_refl].
    match goal with
    | |- context [sendUpdates rest phone t ids (S i) ?s'] =>
        specialize (IH (S i) s');
        destruct (sendUpdates rest phone t ids (S i) s') as [s1 es1]
    end.
    simpl in *. destruct IH as (M & T & P).
    repeat split; auto; congruence.
Qed.

Lemma updateMissed_control phone t ids s :
  sameControl s (fst (fst (updateMissedCallsAfterAnswer phone t ids s))).
Proof.
  unfold updateMissedCallsAfterAnswer.
  destruct (negb (isRealTimeMode s)); [apply sameControl_refl |].
  destruct (has _ _); [apply sameControl_refl |].
  match goal with
  | |- context [sendUpdates ?l phone t ids 0 s] =>
      pose proof (sendUpdates_control l phone t ids 0%nat s) as Hc;
      destruct (sendUpdates l phone t ids 0 s) as [s1 es1]
  end.
  simpl in Hc. destruct (filter _ _); simpl; exact Hc.
Qed.

Lemma check_control topRow now ids s :
  sameControl s (fst (fst (checkForNewCalls topRow now ids s))).
Proof.
  unfold checkForNewCalls.
  assert (H0 : sameControl s (countDomQuery s)) by (repeat split; auto).
  destruct topRow as [row |]; [| exact H0].
  destruct (dataIndexAttr row) as [idx |]; [| exact H0].
  destruct (timestampText row) as [tsText |]; [| exact H0].
  destruct (senderText row) as [sender |]; [| exact H0].
  destruct (parseDateTime tsText [] now) as [ts |]; [| exact H0].
  match goal with |- context [if ?c then _ else _] => destruct c end;
    [exact H0 |].
  match goal with
  | |- context [updateRecentCalls ?p ?t ?m ?a now (countDomQuery s)] =>
      assert (H1 : sameControl s
                     (updateRecentCalls p t m a now (countDomQuery s)))
        by (repeat split; auto)
  end.
  destruct (isAnsweredRow row).
  - match goal with
    | |- context [updateMissedCallsAfterAnswer ?p ?t ids ?s'] =>
        pose proof (updateMissed_control p t ids s') as Hc;
        destruct (updateMissedCallsAfterAnswer p t ids s') as [[s1 es1] n]
    end.
    simpl in Hc |- *. eapply sameControl_trans; [exact H1 | exact Hc].
  - match goal with |- context [if ?c then _ else _] => destruct c end;
      [| exact H1].
    match goal with
    | |- context [sendToGoogleSheets ?r false ?i ?s'] =>
        pose proof (sendToGoogleSheets_control r false i s') as Hc;
        destruct (sendToGoogleSheets r false i s') as [s1 es1]
    end.
    eapply sameControl_trans; [| exact Hc]. repeat split; auto.
Qed.

Lemma collectRow_control lower now row s :
  sameControl s (fst (collectRow lower now row s)).
Proof.
  unfold collectRow.
  destruct (dataIndexAttr row) as [idx |]; [| apply sameControl_refl].
  destruct (has idx (processedIndexes s)); [apply sameControl_refl |].
  destruct (negb (isMissedRow row) && negb (isAnsweredRow row));
    [repeat split; auto |].
  destruct (timestampText row) as [tsText |]; [| apply sameControl_refl].
  destruct (senderText row) as [sender |]; [| apply sameControl_refl].
  destruct (match parseDateTime tsText lower now with
            | Some ts => Some ts
            | None => parseAnyDateTime tsText now
            end) as [ts |]; [| repeat split; auto].
  destruct (isMissedRow row); repeat split; auto.
Qed.

Lemma collectRows_control lower now rows s :
  sameControl s (fst (collectRows lower now rows s)).
Proof.
  revert s. induction rows as [| row rest IH]; intros s; simpl.
  - apply sameControl_refl.
  - pose proof (collectRow_control lower now row s) as Hc.
    destruct (collectRow lower now row s) as [s1 added].
    specialize (IH s1).
    destruct (collectRows lower now rest s1) as [s2 n].
    simpl in *. eapply sameControl_trans; eassumption.
Qed.

Lemma sameControl_wellFormed (s s' : State) :
  wellFormed s -> sameControl s s' -> wellFormed s'.
Proof.
  intros [Hp Ht] (M & T & P). split.
  - intros Hm. rewrite M in Hm. auto.
  - intros Hm. rewrite M in Hm. rewrite T. auto.
Qed.

Lemma stop_sets skip s :
  isRealTimeMode (fst (stopRealTimeMode skip s)) = false
  /\ (wellFormed s -> pendingRequests (fst (stopRealTimeMode skip s)) = []).
Proof.
  unfold stopRealTimeMode, clearLocalStorage.
  destruct (isRealTimeMode s) eqn:E; simpl.
  - destruct skip; simpl; auto.
  - split; [assumption | intros [Hp _]; auto].
Qed.

Lemma cleanup_control now sorted s :
  sameControl s (fst (performanceCleanup now sorted s)).
Proof. unfold performanceCleanup. repeat split; auto. Qed.

Lemma step_wellFormed (e : Event) (s : State) :
  wellFormed s -> wellFormed (fst (step e s)).
Proof.
  intros Hw.
  destruct e as [now | skip | topRow now ids | rows now | id status | id | id
                | | now sorted | on |];
    cbn [step].
  - unfold startRealTimeMode.
    destruct (if isRealTimeMode s then stopRealTimeMode true s else (s, []))
      as [s1 es1].
    split; simpl; [discriminate | discriminate].
  - destruct (stop_sets skip s) as [Hm Hp]. split; [auto | congruence].
  - pose proof (check_control topRow now ids s) as Hc.
    destruct (checkForNewCalls topRow now ids s) as [[s1 es1] f].
    eapply sameControl_wellFormed; eassumption.
  - eapply sameControl_wellFormed; [eassumption |].
    apply collectRows_control.
  - destruct Hw as [Hp Ht]. unfold onload. simpl.
    destruct (isRealTimeMode s) eqn:E; simpl.
    + destruct (status =? 200); split; simpl; auto; congruence.
    + split; simpl; [| congruence]. intros _. now rewrite Hp.
  - destruct Hw as [Hp Ht]. split; simpl; auto.
    intros Hm. now rewrite Hp.
  - destruct Hw as [Hp Ht]. split; simpl; auto.
    intros Hm. now rewrite Hp.
  - unfold destroy. destruct (stop_sets false s) as [Hm Hp].
    destruct (stopRealTimeMode false s) as [s1 es1]. simpl in *.
    split; simpl; [auto | congruence].
  - eapply sameControl_wellFormed; [eassumption |].
    apply cleanup_control.
  - eapply sameControl_wellFormed; [eassumption |]. repeat split; auto.
  - eapply sameControl_wellFormed; [eassumption |]. repeat split; auto.
Qed.

Lemma construct_wellFormed (stored : option Snapshot) :
  wellFormed (construct stored).
Proof.
  unfold construct, loadFromLocalStorage.
  destruct stored; split; simpl; auto; discriminate.
Qed.

Lemma session_wellFormed (events : list Event) (s : State) :
  wellFormed s -> wellFormed (fst (session events s)).
Proof.
  revert s. induction events as [| e rest IH]; intros s Hw; simpl.
  - assumption.
  - pose proof (step_wellFormed e s Hw) as Hs.
    destruct (step e s) as [s1 es1]. specialize (IH s1 Hs).
    destruct (session rest s1) as [s2 es2]. exact IH.
Qed.

End Control.

(** ** Rows that are dropped and completions that arrive late *)

Section Frames.
Context {H : Host}.
Import JSColl JSCollFacts.

Lemma countDomQuery_sameEngine (s : State) : sameEngine s (countDomQuery s).
Proof. repeat split. Qed.

(** C10. While monitoring is on the collector has a start time, and a top
    row whose parsed time is not later than it is ignored: the handler
    returns the state with only the DOM-query counter advanced, no call
    record, no recent-call entry, no reconciliation and no request. *)
Theorem calls_before_monitor_start_ignored
        (stored : option Snapshot) (events : list Event) (s : State) :
  fst (session events (construct stored)) = s ->
  isRealTimeMode s = true ->
  exists start : Z,
    monitorStartTime s = Some start
    /\ forall (row : Row) (now : Z) (ids : nat -> string)
              (tsText : string) (ts : Z),
        timestampText row = Some tsText ->
        parseDateTime tsText [] now = Some ts ->
        ts <= start ->
        checkForNewCalls (Some row) now ids s = (countDomQuery s, [], (0, 0))
        /\ sameEngine s (countDomQuery s).
Proof.
  intros Hs Hm.
  assert (Hw : wellFormed s).
  { rewrite <- Hs. apply session_wellFormed, construct_wellFormed. }
  destruct Hw as [_ Ht]. specialize (Ht Hm).
  destruct (monitorStartTime s) as [start |] eqn:Est; [| congruence].
  exists start. split; [reflexivity |].
  intros row now ids tsText ts Hrow Hparse Hle.
  split; [| apply countDomQuery_sameEngine].
  unfold checkForNewCalls.
  destruct (dataIndexAttr row) as [idx |]; [| reflexivity].
  rewrite Hrow.
  destruct (senderText row) as [sender |]; [| reflexivity].
  rewrite Hparse. simpl. rewrite Est.
  apply Z.leb_le in Hle. now rewrite Hle.
Qed.


(** C7. Stopping monitoring turns the flag off and empties the set of
    pending requests; and in every state a session can reach with
    monitoring off, a completion that arrives then changes nothing: the
    response handler returns the state as it was (so does the timeout
    handler, and the error handler only counts the error). *)
Theorem stale_completion_ignored :
  (forall (skipDownload : bool) (s : State),
      isRealTimeMode s = true ->
      isRealTimeMode (fst (stopRealTimeMode skipDownload s)) = false
      /\ pendingRequests (fst (stopRealTimeMode skipDownload s)) = [])
  /\ (forall (stored : option Snapshot) (events : list Event) (s : State),
         fst (session events (construct stored)) = s ->
         isRealTimeMode s = false ->
         pendingRequests s = []
         /\ forall (requestId : string) (status : Z),
             onload requestId status s = s
             /\ ontimeout requestId s = s
             /\ onerror requestId s = logError s).
Proof.
  split.
  - intros skip s Hm. unfold stopRealTimeMode, clearLocalStorage.
    rewrite Hm. simpl. destruct skip; simpl; auto.
  - intros stored events s Hs Hm.
    assert (Hw : wellFormed s).
    { rewrite <- Hs. apply session_wellFormed, construct_wellFormed. }
    destruct Hw as [Hp _]. specialize (Hp Hm). split; [assumption |].
    intros id status. unfold onload, ontimeout, onerror.
    rewrite Hp. simpl. rewrite Hm. simpl.
    destruct s; simpl in *; subst; auto.
Qed.

End Frames.

(** ** Reconciliation after an answered call *)

Section Reconciliation.
Context {H : Host}.
Import JSColl JSCollFacts JSDate LocalDate.

Lemma posts_app (es es' : list Effect) : posts (es ++ es') = posts es ++ posts es'.
Proof.
  induction es as [| e es IH]; simpl; [reflexivity |].
  destruct e; simpl; now rewrite IH.
Qed.

Lemma posts_save (s : State) : posts (saveToLocalStorage s) = [].
Proof. reflexivity. Qed.

Lemma updatePosts_length records phone t ids i :
  List.length (updatePosts records phone t ids i) = List.length records.
Proof.
  revert i. induction records as [| r rest IH]; intros i; simpl; auto.
Qed.

Lemma updatePosts_In records phone t ids i id body :
  In (id, body) (updatePosts records phone t ids i) ->
  exists record, In record records /\ body = updateData record phone t.
Proof.
  revert i. induction records as [| r rest IH]; intros i; simpl.
  - intros [].
  - intros [Heq | Hin].
    + injection Heq as _ <-. exists r. auto.
    + destruct (IH _ Hin) as [x [Hx Hb]]. exists x. auto.
Qed.

Lemma updatePosts_complete records phone t ids i record :
  In record records ->
  exists id, In (id, updateData record phone t)
                (updatePosts records phone t ids i).
Proof.
  revert i. induction records as [| r rest IH]; intros i; simpl.
  - intros [].
  - intros [-> | Hin].
    + eexists. left. reflexivity.
    + destruct (IH (S i) Hin) as [id Hid]. exists id. now right.
Qed.

(** With monitoring on, the loop posts one update per record and touches
    only the set of pending requests. *)
Lemma sendUpdates_on records phone t ids i s :
  isRealTimeMode s = true ->
  posts (snd (sendUpdates records phone t ids i s))
  = updatePosts records phone t ids i
  /\ snd (sendUpdates records phone t ids i s)
     = map (fun p => Post (fst p) (snd p)) (updatePosts records phone t ids i)
  /\ processedAnswers (fst (sendUpdates records phone t ids i s))
     = processedAnswers s.
Proof.
  revert i s. induction records as [| r rest IH]; intros i s Hm; simpl.
  - auto.
  - rewrite Hm. simpl.
    match goal with
    | |- context [sendUpdates rest phone t ids (S i) ?s'] =>
        destruct (IH (S i) s' Hm) as (IH1 & IH2 & IH3);
        destruct (sendUpdates rest phone t ids (S i) s') as [s1 es1]
    end.
    simpl in *. rewrite IH1, IH2, IH3. auto.
Qed.

Lemma isAffected_spec phone t s record :
  isAffected phone t s record = true <->
  extractPhoneNumber (contact record) = phone
  /\ t - hourMs < timestamp record < t
  /\ mhas (keyOf phone (timestamp record)) (sentRecords s) = true.
Proof.
  unfold isAffected. rewrite !andb_true_iff, String.eqb_eq, !Z.ltb_lt.
  tauto.
Qed.

(** What a reconciliation pass does when it is not skipped. *)
Lemma updateMissed_on phone t ids s :
  isRealTimeMode s = true ->
  has (answerKeyOf phone t) (processedAnswers s) = false ->
  let affected := filter (isAffected phone t s) (allRecords s) in
  let r := updateMissedCallsAfterAnswer phone t ids s in
  posts (snd (fst r)) = updatePosts (firstn 3 affected) phone t ids 0
  /\ processedAnswers (fst (fst r))
     = add (answerKeyOf phone t) (processedAnswers s)
  /\ snd r = Z.of_nat (List.length affected).
Proof.
  intros Hm Hk. cbv zeta. unfold updateMissedCallsAfterAnswer.
  rewrite Hm, Hk. simpl. unfold sliceFirst.
  destruct (sendUpdates_on
              (firstn 3 (filter (isAffected phone t s) (allRecords s)))
              phone t ids 0 s Hm) as (P1 & _ & P3).
  destruct (sendUpdates _ phone t ids 0 s) as [s1 es1]. simpl in *.
  destruct (filter (isAffected phone t s) (allRecords s)) eqn:Ef; simpl.
  - rewrite P3. auto.
  - rewrite posts_app, posts_save, app_nil_r, P3. auto.
Qed.

(** A pass that is skipped: monitoring off, or the answer already seen. *)
Lemma updateMissed_skipped phone t ids s :
  isRealTimeMode s = false
  \/ has (answerKeyOf phone t) (processedAnswers s) = true ->
  updateMissedCallsAfterAnswer phone t ids s = (s, [], 0).
Proof.
  unfold updateMissedCallsAfterAnswer. intros [Hm | Hk].
  - now rewrite Hm.
  - rewrite Hk. now destruct (negb (isRealTimeMode s)).
Qed.

(** [setSeconds(0, 0)] rounds a time down to its local minute. *)
Lemma setSeconds_minute (t : Z) :
  setSeconds t 0 0 = (t + tzOffset) / 60000 * 60000 - tzOffset.
Proof.
  unfold setSeconds, UTC, LocalTime, MakeDate, MakeTime, Day, HourFromTime,
    MinFromTime, TimeWithinDay, msPerDay, msPerHour, msPerMinute.
  generalize (t + tzOffset) as l. intros l.
  Z.div_mod_to_equations. lia.
Qed.

(** C3. Reconciliation is idempotent per minute bucket.  If the key of
    the answer (phone, minute of the answer time) is already among the
    processed answers, the step changes nothing and sends nothing; a pass
    made while monitoring leaves the key among the processed answers,
    whether or not a record matched; hence the same answer observed again
    within the same minute is a no-op. *)
Theorem answer_reconciled_once_per_minute
        (phone : string) (t : Z) (ids : nat -> string) (s : State) :
  (has (answerKeyOf phone t) (processedAnswers s) = true ->
   updateMissedCallsAfterAnswer phone t ids s = (s, [], 0))
  /\ (isRealTimeMode s = true ->
      let s1 := fst (fst (updateMissedCallsAfterAnswer phone t ids s)) in
      has (answerKeyOf phone t) (processedAnswers s1) = true
      /\ forall (t' : Z) (ids' : nat -> string),
          (t' + tzOffset) / 60000 = (t + tzOffset) / 60000 ->
          updateMissedCallsAfterAnswer phone t' ids' s1 = (s1, [], 0)).
Proof.
  split.
  - intros Hk. apply updateMissed_skipped. now right.
  - intros Hm. cbv zeta.
    assert (Hin : has (answerKeyOf phone t)
                      (processedAnswers
                         (fst (fst (updateMissedCallsAfterAnswer
                                      phone t ids s)))) = true).
    { destruct (has (answerKeyOf phone t) (processedAnswers s)) eqn:Ek.
      - rewrite updateMissed_skipped by now right. exact Ek.
      - destruct (updateMissed_on phone t ids s Hm Ek) as (_ & P & _).
        rewrite P. apply has_add_same. }
    split; [exact Hin |].
    intros t' ids' Hsame. apply updateMissed_skipped. right.
    unfold answerKeyOf in *.
    rewrite (setSeconds_minute t'), Hsame, <- (setSeconds_minute t).
    exact Hin.
Qed.

(** C6. The matching window is one-sided.  Every update a reconciliation
    pass sends is for a stored record of the answered phone whose time is
    strictly before the answer and less than an hour before it, and that
    has a sent-ledger entry: a call at or after the answer time is never
    linked.  At most 3 updates are sent per answer; all qualifying records
    are updated when there are at most 3, and the first 3 otherwise. *)
Theorem reconciliation_window
        (phone : string) (t : Z) (ids : nat -> string) (s : State) :
  let es := snd (fst (updateMissedCallsAfterAnswer phone t ids s)) in
  (List.length (posts es) <= 3)%nat
  /\ (forall (id : string) (body : Payload),
         In (id, body) (posts es) ->
         exists record : CallRecord,
           In record (allRecords s)
           /\ body = updateData record phone t
           /\ extractPhoneNumber (contact record) = phone
           /\ timestamp record < t
           /\ t - timestamp record < hourMs
           /\ mhas (keyOf phone (timestamp record)) (sentRecords s) = true)
  /\ (isRealTimeMode s = true ->
      has (answerKeyOf phone t) (processedAnswers s) = false ->
      posts es
      = updatePosts (firstn 3 (filter (isAffected phone t s) (allRecords s)))
                    phone t ids 0
      /\ forall record : CallRecord,
          In record (allRecords s) ->
          extractPhoneNumber (contact record) = phone ->
          timestamp record < t ->
          t - timestamp record < hourMs ->
          mhas (keyOf phone (timestamp record)) (sentRecords s) = true ->
          (List.length (filter (isAffected phone t s) (allRecords s)) <= 3)%nat ->
          exists id : string, In (id, updateData record phone t) (posts es)).
Proof.
  cbv zeta.
  destruct (isRealTimeMode s) eqn:Hm;
    [destruct (has (answerKeyOf phone t) (processedAnswers s)) eqn:Hk |].
  - rewrite updateMissed_skipped by now right. simpl.
    split; [lia | split; [intros ? ? [] | intros; discriminate]].
  - destruct (updateMissed_on phone t ids s Hm Hk) as (P & _ & _).
    rewrite P. split; [| split].
    + rewrite updatePosts_length, length_firstn. lia.
    + intros id body Hin.
      destruct (updatePosts_In _ _ _ _ _ _ _ Hin) as [record [Hr Hb]].
      apply (In_sliceFirst 3), filter_In in Hr. destruct Hr as [Hr Ha].
      apply isAffected_spec in Ha. exists record.
      repeat split; try tauto; lia.
    + intros _ _. split; [reflexivity |].
      intros record Hr Hp Hlt Hwin Hsent Hlen.
      apply updatePosts_complete. rewrite firstn_all2 by exact Hlen.
      apply filter_In. split; [exact Hr |].
      apply isAffected_spec. repeat split; auto; lia.
  - rewrite updateMissed_skipped by now left. simpl.
    split; [lia | split; [intros ? ? [] | intros; discriminate]].
Qed.

(** C1 (as the code has it).  Let [r] be a stored record of phone [P]
    missed at [T1], with a sent-ledger entry, and the only stored record
    of [P] inside the window of an answer at [T2 > T1], received while
    monitoring and not yet processed for its minute.  If [T2 - T1] is
    less than one hour, exactly one request is sent: an update that
    carries the original missed time as its key and marks the call as
    answered.  If [T2 - T1] is one hour or more, no request is sent. *)
Theorem answer_within_hour_updates
        (phone : string) (T1 T2 : Z) (ids : nat -> string) (s : State)
        (pre post : list CallRecord) (r : CallRecord) :
  isRealTimeMode s = true ->
  has (answerKeyOf phone T2) (processedAnswers s) = false ->
  allRecords s = pre ++ r :: post ->
  timestamp r = T1 ->
  extractPhoneNumber (contact r) = phone ->
  mhas (keyOf phone T1) (sentRecords s) = true ->
  (forall x : CallRecord,
      In x (pre ++ post) ->
      extractPhoneNumber (contact x) = phone ->
      ~ (T2 - hourMs < timestamp x < T2)) ->
  T1 < T2 ->
  let es := snd (fst (updateMissedCallsAfterAnswer phone T2 ids s)) in
  (T2 - T1 < hourMs ->
   posts es = [(("update_" ++ ids 0%nat)%string, updateData r phone T2)]
   /\ dateTime (updateData r phone T2) = formatDateTimeForSheet T1
   /\ actualMissedCall (updateData r phone T2) = "No"
   /\ isUpdate (updateData r phone T2) = true)
  /\ (hourMs <= T2 - T1 -> posts es = []).
Proof.
  intros Hm Hk Hall HT1 Hp Hsent Hothers Hlt. cbv zeta.
  destruct (updateMissed_on phone T2 ids s Hm Hk) as (P & _ & _).
  rewrite P, Hall.
  assert (Hno : forall l, (forall x, In x l -> In x (pre ++ post)) ->
                          filter (isAffected phone T2 s) l = []).
  { induction l as [| x l IH]; intros Hsub; simpl; [reflexivity |].
    destruct (isAffected phone T2 s x) eqn:Ea.
    - apply isAffected_spec in Ea. exfalso.
      apply (Hothers x); [apply Hsub; now left | tauto | tauto].
    - apply IH. intros y Hy. apply Hsub. now right. }
  rewrite filter_app. simpl.
  rewrite (Hno pre) by (intros x Hx; apply in_or_app; now left).
  rewrite (Hno post) by (intros x Hx; apply in_or_app; now right).
  split.
  - intros Hwin.
    assert (Ea : isAffected phone T2 s r = true).
    { apply isAffected_spec. rewrite HT1. repeat split; auto; lia. }
    rewrite Ea. simpl. rewrite <- HT1. auto.
  - intros Hout.
    assert (Ea : isAffected phone T2 s r = false).
    { destruct (isAffected phone T2 s r) eqn:Ea; [| reflexivity].
      apply isAffected_spec in Ea. rewrite HT1 in Ea. lia. }
    rewrite Ea. reflexivity.
Qed.

End Reconciliation.

(** ** Delivery failures *)

Section Delivery.
Context {H : Host}.
Import JSColl JSCollFacts.

(** C2 (as the code has it).  The sent-ledger entry of a missed call is
    written when its create request is dispatched, before any response.
    A failure of that request (error or time-out) changes no record, no
    recent-call entry and no ledger: it only removes the request from the
    pending set and, for an error, counts it.  So after a failed create
    the record still has its sent entry. *)
Theorem failed_create_keeps_sent_entry
        (record : CallRecord) (requestId : string) (s : State) :
  isRealTimeMode s = true ->
  let key := keyOf (extractPhoneNumber (contact record)) (timestamp record) in
  let s1 := fst (sendToGoogleSheets record false requestId s) in
  mhas key (sentRecords s1) = true
  /\ (forall (id : string) (s2 : State),
         sameLedger s2 (onerror id s2)
         /\ sameLedger s2 (ontimeout id s2)
         /\ pendingRequests (onerror id s2) = delete id (pendingRequests s2)
         /\ pendingRequests (ontimeout id s2) = delete id (pendingRequests s2)
         /\ metrics (ontimeout id s2) = metrics s2
         /\ errors (metrics (onerror id s2)) = errors (metrics s2) + 1)
  /\ mhas key (sentRecords (onerror requestId s1)) = true
  /\ mhas key (sentRecords (ontimeout requestId s1)) = true.
Proof.
  intros Hm. cbv zeta.
  assert (Hs : mhas (keyOf (extractPhoneNumber (contact record))
                           (timestamp record))
                    (sentRecords
                       (fst (sendToGoogleSheets record false requestId s)))
               = true).
  { unfold sendToGoogleSheets. rewrite Hm. simpl. apply mhas_set_same. }
  split; [exact Hs |]. split.
  - intros id s2. repeat split.
  - split; exact Hs.
Qed.

End Delivery.

(** ** Duplicate rows *)

Section Dedup.
Context {H : Host}.
Import JSString JSColl JSCollFacts.

Lemma recordExists_In (c : string) (ts : Z) (l : list CallRecord) :
  recordExists c ts l = true <-> In (c, ts) (map identity l).
Proof.
  unfold recordExists. rewrite existsb_exists, in_map_iff. split.
  - intros [x [Hin Hx]]. apply andb_true_iff in Hx as [Hc Ht].
    apply String.eqb_eq in Hc. apply Z.eqb_eq in Ht.
    exists x. unfold identity. split; [congruence | exact Hin].
  - intros [x [Hx Hin]]. unfold identity in Hx. injection Hx as Hc Ht.
    exists x. split; [exact Hin |].
    rewrite Hc, Ht, String.eqb_refl, Z.eqb_refl. reflexivity.
Qed.

Lemma sendToGoogleSheets_records record upd id s :
  allRecords (fst (sendToGoogleSheets record upd id s)) = allRecords s.
Proof.
  unfold sendToGoogleSheets. now destruct (negb (isRealTimeMode s)).
Qed.

Lemma sendUpdates_records records phone t ids i s :
  allRecords (fst (sendUpdates records phone t ids i s)) = allRecords s.
Proof.
  revert i s. induction records as [| r rest IH]; intros i s; simpl.
  - reflexivity.
  - destruct (negb (isRealTimeMode s)); [reflexivity |].
    match goal with
    | |- context [sendUpdates rest phone t ids (S i) ?s'] =>
        specialize (IH (S i) s');
        destruct (sendUpdates rest phone t ids (S i) s') as [s1 es1]
    end.
    simpl in *. exact IH.
Qed.

Lemma updateMissed_records phone t ids s :
  allRecords (fst (fst (updateMissedCallsAfterAnswer phone t ids s)))
  = allRecords s.
Proof.
  unfold updateMissedCallsAfterAnswer.
  destruct (negb (isRealTimeMode s)); [reflexivity |].
  destruct (has _ _); [reflexivity |].
  match goal with
  | |- context [sendUpdates ?l phone t ids 0 s] =>
      pose proof (sendUpdates_records l phone t ids 0%nat s) as Hr;
      destruct (sendUpdates l phone t ids 0 s) as [s1 es1]
  end.
  simpl in Hr. destruct (filter _ _); simpl; exact Hr.
Qed.

(** The records after the real-time handler, case by case. *)
Lemma check_records (row : Row) (now : Z) (ids : nat -> string) (s : State) :
  let s' := fst (fst (checkForNewCalls (Some row) now ids s)) in
  match dataIndexAttr row, timestampText row, senderText row with
  | Some idx, Some tsText, Some sender =>
      let c := displayNumber (separateContactInfo (trim sender) (Some row)) in
      match parseDateTime tsText [] now with
      | Some ts =>
          if match monitorStartTime s with
             | Some start => ts <=? start
             | None => false
             end
          then allRecords s' = allRecords s
          else if isAnsweredRow row then allRecords s' = allRecords s
          else if isMissedRow row && negb (recordExists c ts (allRecords s))
          then allRecords s' = allRecords s ++ [newCallRecord ts c idx]
          else allRecords s' = allRecords s
      | None => allRecords s' = allRecords s
      end
  | _, _, _ => allRecords s' = allRecords s
  end.
Proof.
  cbv zeta. unfold checkForNewCalls.
  destruct (dataIndexAttr row) as [idx |]; [| reflexivity].
  destruct (timestampText row) as [tsText |]; [| reflexivity].
  destruct (senderText row) as [sender |]; [| reflexivity].
  destruct (parseDateTime tsText [] now) as [ts |]; [| reflexivity].
  simpl monitorStartTime.
  destruct (match monitorStartTime s with
            | Some start => ts <=? start
            | None => false
            end); [reflexivity |].
  destruct (isAnsweredRow row).
  - match goal with
    | |- context [updateMissedCallsAfterAnswer ?p ?t ids ?s'] =>
        pose proof (updateMissed_records p t ids s') as Hr;
        destruct (updateMissedCallsAfterAnswer p t ids s') as [[s1 es1] n]
    end.
    exact Hr.
  - simpl allRecords.
    destruct (isMissedRow row && negb (recordExists _ ts (allRecords s)));
      [| reflexivity].
    match goal with
    | |- context [sendToGoogleSheets ?r false ?i ?s'] =>
        pose proof (sendToGoogleSheets_records r false i s') as Hr;
        destruct (sendToGoogleSheets r false i s') as [s1 es1]
    end.
    exact Hr.
Qed.

Lemma check_none_records (now : Z) (ids : nat -> string) (s : State) :
  allRecords (fst (fst (checkForNewCalls None now ids s))) = allRecords s.
Proof. reflexivity. Qed.

Lemma check_keeps_unique topRow now ids s :
  NoDup (map identity (allRecords s)) ->
  NoDup (map identity
             (allRecords (fst (fst (checkForNewCalls topRow now ids s))))).
Proof.
  intros Hnd. destruct topRow as [row |]; [| exact Hnd].
  pose proof (check_records row now ids s) as Hc. cbv zeta in Hc.
  destruct (dataIndexAttr row) as [idx |]; [| now rewrite Hc].
  destruct (timestampText row) as [tsText |]; [| now rewrite Hc].
  destruct (senderText row) as [sender |]; [| now rewrite Hc].
  destruct (parseDateTime tsText [] now) as [ts |]; [| now rewrite Hc].
  destruct (match monitorStartTime s with
            | Some start => ts <=? start
            | None => false
            end); [now rewrite Hc |].
  destruct (isAnsweredRow row); [now rewrite Hc |].
  destruct (isMissedRow row); cbn [andb negb] in Hc; [| now rewrite Hc].
  destruct (recordExists _ ts (allRecords s)) eqn:Ex; cbn [andb negb] in Hc;
    [now rewrite Hc |].
  rewrite Hc, map_app. simpl.
  apply NoDup_app; [exact Hnd | repeat constructor; intros [] | ].
  intros x Hx [<- | []].
  apply recordExists_In in Hx. unfold identity in Hx. simpl in Hx.
  congruence.
Qed.

Lemma check_twice_records topRow now ids ids' s :
  let s1 := fst (fst (checkForNewCalls topRow now ids s)) in
  allRecords (fst (fst (checkForNewCalls topRow now ids' s1)))
  = allRecords s1.
Proof.
  cbv zeta. destruct topRow as [row |]; [| reflexivity].
  pose proof (check_records row now ids s) as H1.
  pose proof (check_records row now ids'
                (fst (fst (checkForNewCalls (Some row) now ids s)))) as H2.
  pose proof (check_control (Some row) now ids s) as (_ & Ht & _).
  cbv zeta in H1, H2. rewrite Ht in H2.
  destruct (dataIndexAttr row) as [idx |]; [| exact H2].
  destruct (timestampText row) as [tsText |]; [| exact H2].
  destruct (senderText row) as [sender |]; [| exact H2].
  destruct (parseDateTime tsText [] now) as [ts |]; [| exact H2].
  destruct (match monitorStartTime s with
            | Some start => ts <=? start
            | None => false
            end); [exact H2 |].
  destruct (isAnsweredRow row); [exact H2 |].
  destruct (isMissedRow row); cbn [andb negb] in H1, H2; [| exact H2].
  destruct (recordExists _ ts (allRecords s)) eqn:Ex; cbn [andb negb] in H1.
  - match type of H2 with
    | context [recordExists ?c ts ?l] =>
        assert (Ex2 : recordExists c ts l = true) by (rewrite H1; exact Ex)
    end.
    rewrite Ex2 in H2. exact H2.
  - match type of H2 with
    | context [recordExists ?c ts ?l] =>
        assert (Ex2 : recordExists c ts l = true)
    end.
    { apply recordExists_In. rewrite H1, map_app. apply in_or_app.
      right. now left. }
    rewrite Ex2 in H2. exact H2.
Qed.

End Dedup.

Section BulkDedup.
Context {H : Host}.
Import JSString JSColl JSCollFacts.

Lemma collectRow_skip lower now row s idx :
  dataIndexAttr row = Some idx ->
  has idx (processedIndexes s) = true ->
  collectRow lower now row s = (s, false).
Proof. intros Hi Hh. unfold collectRow. now rewrite Hi, Hh. Qed.

Lemma collectRow_neverAdds lower now row s :
  neverAdds row ->
  allRecords (fst (collectRow lower now row s)) = allRecords s
  /\ snd (collectRow lower now row s) = false.
Proof.
  intros Hn. unfold collectRow.
  destruct (dataIndexAttr row) as [idx |] eqn:Ei; [| auto].
  destruct (has idx (processedIndexes s)); [auto |].
  destruct (negb (isMissedRow row) && negb (isAnsweredRow row)); [auto |].
  destruct Hn as [Hn | [Hn | Hn]]; [congruence | |].
  - rewrite Hn. auto.
  - rewrite Hn. destruct (timestampText row); auto.
Qed.

Lemma collectRow_mono lower now row s k :
  has k (processedIndexes s) = true ->
  has k (processedIndexes (fst (collectRow lower now row s))) = true.
Proof.
  intros Hk. unfold collectRow.
  destruct (dataIndexAttr row) as [idx |]; [| exact Hk].
  destruct (has idx (processedIndexes s)); [exact Hk |].
  destruct (negb (isMissedRow row) && negb (isAnsweredRow row));
    [now apply has_add_mono |].
  destruct (timestampText row) as [tsText |]; [| exact Hk].
  destruct (senderText row) as [sender |]; [| exact Hk].
  destruct (match parseDateTime tsText lower now with
            | Some ts => Some ts
            | None => parseAnyDateTime tsText now
            end) as [ts |]; [| now apply has_add_mono].
  destruct (isMissedRow row); simpl; now apply has_add_mono.
Qed.

Lemma collectRow_settles lower now row s :
  settled (fst (collectRow lower now row s)) row.
Proof.
  unfold settled, neverAdds, collectRow.
  destruct (dataIndexAttr row) as [idx |]; [| auto].
  destruct (has idx (processedIndexes s)) eqn:Eh; [right; eauto |].
  assert (Ha : forall s', has idx (add idx (processedIndexes s')) = true)
    by (intros; apply has_add_same).
  destruct (negb (isMissedRow row) && negb (isAnsweredRow row));
    [right; exists idx; simpl; auto |].
  destruct (timestampText row) as [tsText |]; [| auto].
  destruct (senderText row) as [sender |]; [| auto].
  right. exists idx. split; [reflexivity |].
  destruct (match parseDateTime tsText lower now with
            | Some ts => Some ts
            | None => parseAnyDateTime tsText now
            end) as [ts |]; [| simpl; auto].
  destruct (isMissedRow row); simpl; apply has_add_same.
Qed.

Lemma settled_mono (s s' : State) (row : Row) :
  (forall k, has k (processedIndexes s) = true ->
             has k (processedIndexes s') = true) ->
  settled s row -> settled s' row.
Proof.
  intros Hmono [Hn | [idx [Hi Hh]]]; [now left |].
  right. exists idx. auto.
Qed.

Lemma collectRows_mono lower now rows s k :
  has k (processedIndexes s) = true ->
  has k (processedIndexes (fst (collectRows lower now rows s))) = true.
Proof.
  revert s. induction rows as [| row rest IH]; intros s Hk; simpl.
  - exact Hk.
  - pose proof (collectRow_mono lower now row s k Hk) as Hk1.
    destruct (collectRow lower now row s) as [s1 added].
    specialize (IH s1 Hk1).
    destruct (collectRows lower now rest s1) as [s2 n]. exact IH.
Qed.

Lemma collectRows_settles lower now rows s :
  forall row, In row rows ->
              settled (fst (collectRows lower now rows s)) row.
Proof.
  revert s. induction rows as [| r rest IH]; intros s row Hin; simpl.
  - destruct Hin.
  - pose proof (collectRow_settles lower now r s) as Hs.
    pose proof (fun k => collectRows_mono
                           lower now rest (fst (collectRow lower now r s)) k)
      as Hmono.
    specialize (IH (fst (collectRow lower now r s))).
    destruct (collectRow lower now r s) as [s1 added]. simpl in *.
    destruct (collectRows lower now rest s1) as [s2 n] eqn:E2.
    rewrite ?E2 in *. simpl in *.
    destruct Hin as [<- | Hin].
    + eapply settled_mono; [exact Hmono | exact Hs].
    + apply IH. exact Hin.
Qed.

Lemma collectRow_settled lower now row s :
  settled s row ->
  allRecords (fst (collectRow lower now row s)) = allRecords s
  /\ snd (collectRow lower now row s) = false.
Proof.
  intros [Hn | [idx [Hi Hh]]].
  - now apply collectRow_neverAdds.
  - rewrite (collectRow_skip lower now row s idx Hi Hh). auto.
Qed.

Lemma collectRows_settled lower now rows s :
  (forall row, In row rows -> settled s row) ->
  allRecords (fst (collectRows lower now rows s)) = allRecords s
  /\ snd (collectRows lower now rows s) = 0.
Proof.
  revert s. induction rows as [| r rest IH]; intros s Hall; simpl.
  - auto.
  - destruct (collectRow_settled lower now r s (Hall r (or_introl eq_refl)))
      as [Hr Ha].
    pose proof (fun k => collectRow_mono lower now r s k) as Hmono.
    specialize (IH (fst (collectRow lower now r s))).
    destruct (collectRow lower now r s) as [s1 added]. simpl in *.
    destruct IH as [IH1 IH2].
    { intros row Hin. eapply settled_mono; [exact Hmono |].
      apply Hall. now right. }
    destruct (collectRows lower now rest s1) as [s2 n] eqn:E2.
    rewrite ?E2 in *. simpl in *.
    subst added. split; congruence.
Qed.

(** C4 (as the code has it).  Showing the same row again creates no
    second call record, on either path: a repeated real-time check leaves
    the records as the first check left them, and a repeated bulk pass
    over the same rows adds none.  The real-time handler also keeps the
    (contact, timestamp) pairs of the stored records distinct.  (The bulk
    loop tells rows apart by their index only.) *)
Theorem repeated_row_recorded_once :
  (forall (topRow : option Row) (now : Z) (ids ids' : nat -> string)
          (s : State),
      let s1 := fst (fst (checkForNewCalls topRow now ids s)) in
      allRecords (fst (fst (checkForNewCalls topRow now ids' s1)))
      = allRecords s1
      /\ (NoDup (map identity (allRecords s)) ->
          NoDup (map identity (allRecords s1))))
  /\ (forall (rows : list Row) (now : Z) (s : State),
         let s1 := fst (collectRecords rows now s) in
         allRecords (fst (collectRecords rows now s1)) = allRecords s1
         /\ snd (collectRecords rows now s1) = 0).
Proof.
  split.
  - intros topRow now ids ids' s. cbv zeta. split.
    + apply check_twice_records.
    + apply check_keeps_unique.
  - intros rows now s. cbv zeta. unfold collectRecords.
    apply collectRows_settled. apply collectRows_settles.
Qed.

End BulkDedup.

(** ** Calendar arithmetic *)

Module JSDateFacts.
Import JSDate.

(** [daysFromCivil] inverts [civilFromDays], whose month is in 1..12. *)
Lemma civil_roundtrip (z : Z) :
  let '(y, m, d) := civilFromDays z in
  daysFromCivil y m d = z /\ 1 <= m <= 12.
Proof.
  unfold civilFromDays.
  set (z' := z + 719468).
  set (era := z' / 146097).
  set (doe := z' - era * 146097).
  assert (Hdoe : 0 <= doe < 146097)
    by (subst doe era; Z.div_mod_to_equations; lia).
  assert (Hz : z = era * 146097 + doe - 719468) by (subst doe z'; lia).
  clearbody doe.
  set (yoe := (doe - doe / 1460 + doe / 36524 - doe / 146096) / 365).
  set (doy := doe - (365 * yoe + yoe / 4 - yoe / 100)).
  assert (Hyoe : 0 <= yoe <= 399)
    by (subst yoe; Z.div_mod_to_equations; lia).
  assert (Hdoy : 0 <= doy <= 365)
    by (subst doy yoe; Z.div_mod_to_equations; lia).
  assert (Hd : doe = yoe * 365 + yoe / 4 - yoe / 100 + doy)
    by (subst doy; lia).
  clearbody doy. clearbody yoe.
  set (mp := (5 * doy + 2) / 153).
  assert (Hmp : 0 <= mp <= 11) by (subst mp; Z.div_mod_to_equations; lia).
  set (d := doy - (153 * mp + 2) / 5 + 1).
  assert (Hdd : doy = (153 * mp + 2) / 5 + d - 1) by (subst d; lia).
  clearbody d. clearbody mp.
  cbv zeta. unfold daysFromCivil.
  assert (Ee : (yoe + era * 400) / 400 = era)
    by (Z.div_mod_to_equations; lia).
  destruct (Z.ltb_spec mp 10) as [Hlt | Hge].
  - assert (E1 : (mp + 3 <=? 2) = false) by (apply Z.leb_gt; lia).
    assert (E2 : (2 <? mp + 3) = true) by (apply Z.ltb_lt; lia).
    rewrite E1, E2. cbv zeta.
    replace (mp + 3 - 3) with mp by lia.
    rewrite Ee.
    replace (yoe + era * 400 - era * 400) with yoe by lia.
    split; lia.
  - assert (E1 : (mp - 9 <=? 2) = true) by (apply Z.leb_le; lia).
    assert (E2 : (2 <? mp - 9) = false) by (apply Z.ltb_ge; lia).
    rewrite E1, E2. cbv zeta.
    replace (mp - 9 + 9) with mp by lia.
    replace (yoe + era * 400 + 1 - 1) with (yoe + era * 400) by lia.
    rewrite Ee.
    replace (yoe + era * 400 - era * 400) with yoe by lia.
    split; lia.
Qed.

Lemma civilFromDays_inj (z1 z2 : Z) :
  civilFromDays z1 = civilFromDays z2 -> z1 = z2.
Proof.
  intros Heq.
  pose proof (civil_roundtrip z1) as H1.
  pose proof (civil_roundtrip z2) as H2.
  rewrite Heq in H1. destruct (civilFromDays z2) as [[y m] d].
  destruct H1 as [H1 _]. destruct H2 as [H2 _]. congruence.
Qed.

Lemma daysFromCivil_day (y m d : Z) :
  daysFromCivil y m d = daysFromCivil y m 1 + d - 1.
Proof. unfold daysFromCivil. lia. Qed.

(** [MakeDay] on the year and month of a time, with another day of the
    month, moves by the difference of the days. *)
Lemma MakeDay_same_month (t date : Z) :
  MakeDay (YearFromTime t) (MonthFromTime t) date
  = Day t + date - DateFromTime t.
Proof.
  unfold MakeDay, YearFromTime, MonthFromTime, DateFromTime.
  pose proof (civil_roundtrip (Day t)) as Hr.
  destruct (civilFromDays (Day t)) as [[y m] d]. simpl.
  destruct Hr as [Hr Hm].
  assert (E1 : (m - 1) / 12 = 0) by (Z.div_mod_to_equations; lia).
  assert (E2 : (m - 1) mod 12 + 1 = m) by (Z.div_mod_to_equations; lia).
  rewrite E1, E2, Z.add_0_r.
  rewrite (daysFromCivil_day y m d) in Hr. lia.
Qed.

Lemma Day_MakeDate (day time : Z) :
  0 <= time < msPerDay -> Day (MakeDate day time) = day.
Proof.
  unfold Day, MakeDate, msPerDay. intros Ht.
  Z.div_mod_to_equations. lia.
Qed.

(** A clock time within the day is read back from the date it makes. *)
Lemma MakeDate_clock (day h m : Z) :
  0 <= h < 24 -> 0 <= m < 60 ->
  Day (MakeDate day (MakeTime h m 0 0)) = day
  /\ HourFromTime (MakeDate day (MakeTime h m 0 0)) = h
  /\ MinFromTime (MakeDate day (MakeTime h m 0 0)) = m.
Proof.
  intros Hh Hm.
  unfold Day, HourFromTime, MinFromTime, TimeWithinDay, MakeDate, MakeTime,
    msPerDay, msPerHour, msPerMinute.
  repeat split; Z.div_mod_to_equations; lia.
Qed.

End JSDateFacts.

(** ** Every "Yesterday H:MM [AM/PM]" text is read as such *)

Lemma is_digit_digits (c : ascii) : JSString.is_digit c = true -> In c digits.
Proof.
  destruct c as [[] [] [] [] [] [] [] []]; vm_compute; intros Hd;
    try discriminate; tauto.
Qed.

Lemma yesterday_texts_read :
  forallb (fun h =>
             forallb (fun m =>
                        forallb (fun p => readsYesterday h m p) periodTexts)
                     minuteTexts)
          hourTexts = true.
Proof. vm_compute. reflexivity. Qed.

Lemma text_inj (a b : list ascii) :
  JSString.text a = JSString.text b -> a = b.
Proof.
  unfold JSString.text. intros Heq.
  rewrite <- (list_ascii_of_string_of_list_ascii a),
          <- (list_ascii_of_string_of_list_ascii b).
  now rewrite Heq.
Qed.

(** On a text "Yesterday H:MM", "Yesterday H:MM AM" or "Yesterday H:MM PM"
    the time-only pattern fails and the yesterday pattern captures the
    hour, the minute and the period. *)
Lemma yesterday_text_matches (h m : list ascii) (period : string) :
  In h hourTexts -> In m minuteTexts -> In period periodTexts ->
  Regex.matchStart Patterns.timeOnlyRe (yesterdayText h m period) = None
  /\ exists f : Regex.found,
      Regex.search Patterns.yesterdayRe (yesterdayText h m period) = Some f
      /\ Patterns.group 1 f = h
      /\ Patterns.group 2 f = m
      /\ Patterns.groupUpper 3 f = periodOf period.
Proof.
  intros Hh Hm Hp.
  pose proof yesterday_texts_read as Hall.
  rewrite forallb_forall in Hall. specialize (Hall h Hh).
  rewrite forallb_forall in Hall. specialize (Hall m Hm).
  rewrite forallb_forall in Hall. specialize (Hall period Hp).
  unfold readsYesterday in Hall.
  destruct (Regex.matchStart Patterns.timeOnlyRe (yesterdayText h m period));
    [discriminate |].
  destruct (Regex.search Patterns.yesterdayRe (yesterdayText h m period))
    as [f |]; [| discriminate].
  split; [reflexivity |]. exists f. split; [reflexivity |].
  apply andb_true_iff in Hall as [Hall H3].
  apply andb_true_iff in Hall as [H1 H2].
  apply String.eqb_eq in H1, H2.
  repeat split; try (now apply text_inj).
  destruct (Patterns.groupUpper 3 f), (periodOf period);
    try discriminate; [| reflexivity].
  apply String.eqb_eq in H3. now subst.
Qed.

Lemma hourTexts_spec (h : list ascii) :
  (List.length h = 1 \/ List.length h = 2)%nat ->
  Forall (fun c => JSString.is_digit c = true) h ->
  In h hourTexts.
Proof.
  intros Hl Hd. unfold hourTexts. apply in_or_app.
  destruct h as [| a [| b [| c r]]]; simpl in Hl; try lia.
  - left. apply (in_map (fun x => [x])). inversion Hd.
    now apply is_digit_digits.
  - right. inversion Hd as [| ? ? Ha Hd']. inversion Hd' as [| ? ? Hb _].
    apply in_flat_map. exists a. split; [now apply is_digit_digits |].
    apply (in_map (fun x => [a; x])). now apply is_digit_digits.
Qed.

Lemma minuteTexts_spec (m : list ascii) :
  List.length m = 2%nat ->
  Forall (fun c => JSString.is_digit c = true) m ->
  In m minuteTexts.
Proof.
  intros Hl Hd. unfold minuteTexts.
  destruct m as [| a [| b [| c r]]]; simpl in Hl; try lia.
  inversion Hd as [| ? ? Ha Hd']. inversion Hd' as [| ? ? Hb _].
  apply in_flat_map. exists a. split; [now apply is_digit_digits |].
  apply (in_map (fun x => [a; x])). now apply is_digit_digits.
Qed.

(** The hour of a 12-hour clock reading, as [to24] computes it. *)
Lemma to24_clock (h : Z) :
  to24 h None = h
  /\ to24 12 (Some "AM") = 0
  /\ to24 12 (Some "PM") = 12
  /\ (h <> 12 -> to24 h (Some "AM") = h)
  /\ (h <> 12 -> to24 h (Some "PM") = h + 12).
Proof.
  unfold to24. simpl. repeat split.
  - intros Hh. apply Z.eqb_neq in Hh. now rewrite Hh.
  - intros Hh. apply Z.eqb_neq in Hh. rewrite Hh. simpl.
    destruct (h + 12 =? 12); reflexivity.
Qed.

(** ** Resolving relative timestamps *)

Section Timestamps.
Context {H : Host}.
Import JSString Regex Patterns JSDate JSDateFacts LocalDate.

Lemma sameCalendarDate_Day (now d : Z) :
  sameCalendarDate now d = true <->
  Day (LocalTime d) = Day (LocalTime now).
Proof.
  unfold sameCalendarDate, getDate, getMonth, getFullYear, DateFromTime,
    MonthFromTime, YearFromTime.
  split.
  - intros Hs. apply andb_true_iff in Hs as [Hs Hy].
    apply andb_true_iff in Hs as [Hd Hm].
    apply Z.eqb_eq in Hd, Hm, Hy.
    apply civilFromDays_inj.
    destruct (civilFromDays (Day (LocalTime d))) as [[y1 m1] d1].
    destruct (civilFromDays (Day (LocalTime now))) as [[y2 m2] d2].
    simpl in *. f_equal; [f_equal |]; lia.
  - intros ->. now rewrite !Z.eqb_refl.
Qed.

Lemma existsb_sameCalendarDate (now : Z) (lower : list Z) :
  existsb (sameCalendarDate now) lower = true <->
  exists d, In d lower /\ Day (LocalTime d) = Day (LocalTime now).
Proof.
  rewrite existsb_exists. split; intros [d [Hin Hd]]; exists d;
    (split; [exact Hin | now apply sameCalendarDate_Day]).
Qed.

(** [date.setDate(date.getDate() - 1)] goes back one day. *)
Lemma setDate_previous (t : Z) : setDate t (getDate t - 1) = t - msPerDay.
Proof.
  unfold setDate, getDate, UTC. rewrite MakeDay_same_month.
  unfold MakeDate, Day, TimeWithinDay, LocalTime, msPerDay.
  remember (t + tzOffset) as l eqn:El.
  generalize (DateFromTime l) as d. intros d.
  Z.div_mod_to_equations. lia.
Qed.

Lemma setHours_local (t h m : Z) :
  LocalTime (setHours t h m 0 0)
  = MakeDate (Day (LocalTime t)) (MakeTime h m 0 0).
Proof. unfold setHours, UTC, LocalTime. lia. Qed.

Lemma newDate_today (now h m : Z) :
  ~ (0 <= getFullYear now <= 99) ->
  LocalTime (newDate (getFullYear now) (getMonth now) (getDate now) h m 0 0)
  = MakeDate (Day (LocalTime now)) (MakeTime h m 0 0).
Proof.
  intros Hy. unfold newDate.
  assert (E : (0 <=? getFullYear now) && (getFullYear now <=? 99) = false).
  { apply andb_false_iff.
    destruct (Z.leb_spec 0 (getFullYear now)); [| now left].
    destruct (Z.leb_spec (getFullYear now) 99); [lia | now right]. }
  rewrite E. unfold getFullYear, getMonth, getDate.
  rewrite MakeDay_same_month. unfold UTC, LocalTime.
  replace (Day (now + tzOffset) + DateFromTime (now + tzOffset)
           - DateFromTime (now + tzOffset)) with (Day (now + tzOffset)) by lia.
  lia.
Qed.

(** A timestamp text that only the yesterday pattern matches resolves to
    the previous calendar day at the captured clock time, unless one of
    the dates of the rows of the same batch falls on today's date: then
    it resolves to today's date at that clock time. *)
Lemma parseDateTime_yesterday
      (txt : string) (lower : list Z) (now : Z) (m : found) :
  matchStart timeOnlyRe txt = None ->
  search yesterdayRe txt = Some m ->
  let hours := to24 (parseDigits (group 1 m)) (groupUpper 3 m) in
  let minutes := parseDigits (group 2 m) in
  let today := Day (LocalTime now) in
  exists r : Z,
    parseDateTime txt lower now = Some r
    /\ ((forall d, In d lower -> Day (LocalTime d) <> today) ->
        LocalTime r = MakeDate (today - 1) (MakeTime hours minutes 0 0))
    /\ ((exists d, In d lower /\ Day (LocalTime d) = today) ->
        ~ (0 <= getFullYear now <= 99) ->
        LocalTime r = MakeDate today (MakeTime hours minutes 0 0)).
Proof.
  intros Htime Hyes. cbv zeta. unfold parseDateTime.
  rewrite Htime, Hyes.
  destruct (existsb (sameCalendarDate now) lower) eqn:Ex.
  - eexists. split; [reflexivity |]. split.
    + intros Hnone. apply existsb_sameCalendarDate in Ex.
      destruct Ex as [d [Hin Hd]]. exfalso. exact (Hnone d Hin Hd).
    + intros _ Hy. now apply newDate_today.
  - eexists. split; [reflexivity |]. split.
    + intros _. rewrite setHours_local, setDate_previous.
      f_equal. unfold Day, LocalTime, msPerDay.
      Z.div_mod_to_equations. lia.
    + intros Hsome. apply existsb_sameCalendarDate in Hsome. congruence.
Qed.

(** C5. A timestamp text "Yesterday H:MM", "Yesterday H:MM AM" or
    "Yesterday H:MM PM" resolves to the previous calendar day at that
    clock time, unless the date of a row of the same batch falls on
    today's date: then it resolves to today's date at that clock time. *)
Theorem yesterday_resolution
        (h m : list ascii) (period : string) (lower : list Z) (now : Z) :
  (List.length h = 1 \/ List.length h = 2)%nat ->
  Forall (fun c => is_digit c = true) h ->
  List.length m = 2%nat ->
  Forall (fun c => is_digit c = true) m ->
  In period periodTexts ->
  let hours := to24 (parseDigits h) (periodOf period) in
  let minutes := parseDigits m in
  let today := Day (LocalTime now) in
  exists r : Z,
    parseDateTime (yesterdayText h m period) lower now = Some r
    /\ ((forall d, In d lower -> Day (LocalTime d) <> today) ->
        LocalTime r = MakeDate (today - 1) (MakeTime hours minutes 0 0))
    /\ ((exists d, In d lower /\ Day (LocalTime d) = today) ->
        ~ (0 <= getFullYear now <= 99) ->
        LocalTime r = MakeDate today (MakeTime hours minutes 0 0)).
Proof.
  intros Hlh Hdh Hlm Hdm Hp.
  destruct (yesterday_text_matches
              h m period (hourTexts_spec h Hlh Hdh)
              (minuteTexts_spec m Hlm Hdm) Hp)
    as [Htime [f [Hyes [G1 [G2 G3]]]]].
  pose proof (parseDateTime_yesterday _ lower now f Htime Hyes) as Hres.
  cbv zeta in Hres. rewrite G1, G2, G3 in Hres. exact Hres.
Qed.

End Timestamps.


(** ** The recent-call window *)

Module WindowFacts.
Import JSColl.

Lemma get_set_same {V} (k : string) (v : V) (m : list (string * V)) :
  get k (set k v m) = Some v.
Proof.
  induction m as [| [k' v'] m IH]; simpl.
  - now rewrite String.eqb_refl.
  - destruct (String.eqb k k') eqn:E; simpl.
    + now rewrite String.eqb_refl.
    + now rewrite E.
Qed.

Lemma get_set_other {V} (k k' : string) (v : V) (m : list (string * V)) :
  k' <> k -> get k' (set k v m) = get k' m.
Proof.
  intros Hne. induction m as [| [k0 v0] m IH]; simpl.
  - destruct (String.eqb k' k) eqn:E; [| reflexivity].
    apply String.eqb_eq in E. contradiction.
  - destruct (String.eqb k k0) eqn:E; simpl.
    + apply String.eqb_eq in E. subst k0.
      destruct (String.eqb k' k) eqn:E'; [| reflexivity].
      apply String.eqb_eq in E'. contradiction.
    + now rewrite IH.
Qed.

Lemma In_sliceLast {A} (n : nat) (l : list A) (x : A) :
  In x (sliceLast n l) -> In x l.
Proof.
  unfold sliceLast. intros Hin.
  rewrite <- (firstn_skipn (List.length l - n) l).
  apply in_or_app. now right.
Qed.

(** The newest element survives [slice(-n)] for a positive [n]. *)
Lemma sliceLast_keeps_last {A} (n : nat) (l : list A) (x : A) :
  (0 < n)%nat -> In x (sliceLast n (l ++ [x])).
Proof.
  intros Hn. unfold sliceLast. rewrite length_app. simpl.
  rewrite skipn_app. apply in_or_app. right.
  replace (List.length l + 1 - n - List.length l)%nat with 0%nat by lia.
  now left.
Qed.

End WindowFacts.

Section Window.
Context {H : Host}.
Import JSColl JSCollFacts WindowFacts.

(** X1. After [updateRecentCalls] the phone's window exists, holds at most
    10 calls, all later than two hours before [now], each of them the new
    call or one that was there; the windows of other phones are as they
    were. *)
Theorem recent_calls_window_bounded
        (phone : string) (ts : Z) (missed answered : bool) (now : Z)
        (s : State) :
  let s' := updateRecentCalls phone ts missed answered now s in
  let old := match get phone (recentCalls s) with
             | Some c => c | None => [] end in
  (exists calls : list Call,
      get phone (recentCalls s') = Some calls
      /\ (List.length calls <= 10)%nat
      /\ forall call : Call,
          In call calls ->
          now - 2 * hourMs < time call
          /\ (In call old
              \/ call = {| time := ts; isMissed := missed;
                           wasAnswered := answered |}))
  /\ (forall other : string,
         other <> phone ->
         get other (recentCalls s') = get other (recentCalls s)).
Proof.
  cbv zeta. unfold updateRecentCalls. simpl. split.
  - eexists. split; [apply get_set_same |].
    split; [apply sliceLast_length |].
    intros call Hin. apply In_sliceLast, filter_In in Hin.
    destruct Hin as [Hin Hnew]. apply Z.ltb_lt in Hnew.
    split; [exact Hnew |].
    apply in_app_or in Hin as [Hin | [<- | []]]; auto.
  - intros other Hne. now apply get_set_other.
Qed.

(** X2. Once an answered call of a phone is recorded (and is less than two
    hours old), every call of that phone less than an hour away from it is
    reported as not an actual missed call. *)
Theorem answered_call_marks_not_missed
        (phone : string) (t : Z) (missed : bool) (now : Z) (s : State)
        (ts : Z) :
  now - 2 * hourMs < t ->
  ts - hourMs < t < ts + hourMs ->
  isActualMissedCall phone ts (updateRecentCalls phone t missed true now s)
  = "No".
Proof.
  intros Hrecent Hnear. unfold isActualMissedCall, updateRecentCalls.
  cbn [recentCalls set_recentCalls]. rewrite get_set_same.
  match goal with
  | |- (if existsb ?p ?l then _ else _) = _ =>
      assert (Hex : existsb p l = true)
  end.
  { apply existsb_exists.
    exists {| time := t; isMissed := missed; wasAnswered := true |}.
    split.
    - rewrite filter_app. cbn [filter time].
      assert (E : (now - 2 * hourMs <? t) = true) by (apply Z.ltb_lt; lia).
      rewrite E. apply sliceLast_keeps_last. lia.
    - cbn [time wasAnswered].
      rewrite !andb_true_iff, !Z.ltb_lt. repeat split; lia. }
  now rewrite Hex.
Qed.

End Window.

(** ** Requests and monitoring *)

Section Idle.
Context {H : Host}.
Import JSColl JSCollFacts.

Lemma posts_stop skip s : posts (snd (stopRealTimeMode skip s)) = [].
Proof.
  unfold stopRealTimeMode, clearLocalStorage.
  destruct (negb (isRealTimeMode s)); [reflexivity |].
  now destruct skip.
Qed.

Lemma posts_concat (es es' : list Effect) :
  posts (es ++ es') = posts es ++ posts es'.
Proof.
  induction es as [| e es IH]; simpl; [reflexivity |].
  destruct e; simpl; now rewrite IH.
Qed.

(** X3. No handler sends a request while monitoring is off: whatever the
    event, a state with the monitoring flag off answers it without a
    single call to the sheet endpoint. *)
Theorem no_request_while_idle (e : Event) (s : State) :
  isRealTimeMode s = false -> posts (snd (step e s)) = [].
Proof.
  intros Hm.
  destruct e as [now | skip | topRow now ids | rows now | id status | id | id
                | | now' sorted | on |];
    simpl; try reflexivity.
  - unfold startRealTimeMode. now rewrite Hm.
  - apply posts_stop.
  - unfold checkForNewCalls.
    destruct topRow as [row |]; [| reflexivity].
    destruct (dataIndexAttr row) as [idx |]; [| reflexivity].
    destruct (timestampText row) as [tsText |]; [| reflexivity].
    destruct (senderText row) as [sender |]; [| reflexivity].
    destruct (parseDateTime tsText [] now) as [ts |]; [| reflexivity].
    match goal with |- context [if ?c then _ else _] => destruct c end;
      [reflexivity |].
    destruct (isAnsweredRow row).
    + unfold updateMissedCallsAfterAnswer. simpl. rewrite Hm. reflexivity.
    + match goal with |- context [if ?c then _ else _] => destruct c end;
        [| reflexivity].
      unfold sendToGoogleSheets. simpl. rewrite Hm. reflexivity.
  - unfold destroy. pose proof (posts_stop false s) as Hp.
    destruct (stopRealTimeMode false s) as [s1 es1]. exact Hp.
Qed.

(** X4. Starting the monitor from a state a session can reach always
    gives the same clean slate: no record, no ledger entry, no window, no
    processed answer and no pending request survive; only the counters of
    the performance monitor are kept. *)
Theorem start_gives_clean_slate
        (stored : option Snapshot) (events : list Event) (now : Z) :
  let s := fst (session events (construct stored)) in
  fst (startRealTimeMode now s) = freshMonitor now (metrics s).
Proof.
  cbv zeta.
  pose proof (session_wellFormed events (construct stored)
                (construct_wellFormed stored)) as [Hp _].
  remember (fst (session events (construct stored))) as s eqn:Es.
  clear Es. unfold startRealTimeMode, stopRealTimeMode.
  destruct (isRealTimeMode s) eqn:Hm; simpl.
  - reflexivity.
  - specialize (Hp eq_refl). destruct s; simpl in *. subst. reflexivity.
Qed.

End Idle.


(** ** What the delivery code leaves alone *)

Section DeliveryFrames.
Context {H : Host}.
Import JSColl JSCollFacts.

Lemma sendToGoogleSheets_frame record upd id s :
  deliveryFrame s (fst (sendToGoogleSheets record upd id s)).
Proof.
  unfold sendToGoogleSheets.
  destruct (negb (isRealTimeMode s)); repeat split.
Qed.

Lemma sendToGoogleSheets_sent record upd id s :
  isRealTimeMode s = true ->
  exists v : SentInfo,
    sentRecords (fst (sendToGoogleSheets record upd id s))
    = set (recordKeyOf record) v (sentRecords s).
Proof.
  intros Hm. unfold sendToGoogleSheets. rewrite Hm. simpl.
  eexists. reflexivity.
Qed.

Lemma sendUpdates_frame records phone t ids i s :
  reconcileFrame s (fst (sendUpdates records phone t ids i s))
  /\ processedAnswers (fst (sendUpdates records phone t ids i s))
     = processedAnswers s.
Proof.
  revert i s. induction records as [| r rest IH]; intros i s; simpl.
  - repeat split.
  - destruct (negb (isRealTimeMode s)); [repeat split |].
    match goal with
    | |- context [sendUpdates rest phone t ids (S i) ?s'] =>
        specialize (IH (S i) s');
        destruct (sendUpdates rest phone t ids (S i) s') as [s1 es1]
    end.
    simpl in *. exact IH.
Qed.

Lemma updateMissed_frame phone t ids s :
  reconcileFrame s (fst (fst (updateMissedCallsAfterAnswer phone t ids s))).
Proof.
  unfold updateMissedCallsAfterAnswer.
  destruct (negb (isRealTimeMode s)); [repeat split |].
  destruct (has _ _); [repeat split |].
  match goal with
  | |- context [sendUpdates ?l phone t ids 0 s] =>
      pose proof (sendUpdates_frame l phone t ids 0%nat s) as [Hf _];
      destruct (sendUpdates l phone t ids 0 s) as [s1 es1]
  end.
  simpl in Hf. destruct (filter _ _); simpl; exact Hf.
Qed.

(** The real-time handler, case by case: it returns early, reconciles
    after an answered call, records and sends a new missed call, or finds
    nothing new. *)
Lemma check_cases (row : Row) (now : Z) (ids : nat -> string) (s : State) :
  checkForNewCalls (Some row) now ids s = (countDomQuery s, [], (0, 0))
  \/ exists idx tsText sender ts,
      dataIndexAttr row = Some idx
      /\ timestampText row = Some tsText
      /\ senderText row = Some sender
      /\ parseDateTime tsText [] now = Some ts
      /\ (forall start, monitorStartTime s = Some start -> start < ts)
      /\ let c := displayNumber
                    (separateContactInfo (JSString.trim sender) (Some row)) in
         let phone := extractPhoneNumber c in
         let s0 := updateRecentCalls phone ts (isMissedRow row)
                                     (isAnsweredRow row) now
                                     (countDomQuery s) in
         (isAnsweredRow row = true
          /\ fst (checkForNewCalls (Some row) now ids s)
             = fst (updateMissedCallsAfterAnswer phone ts ids s0))
         \/ (isAnsweredRow row = false /\ isMissedRow row = true
             /\ recordExists c ts (allRecords s) = false
             /\ let record := newCallRecord ts c idx in
                let s1 := set_realTimeMissedCount
                            (realTimeMissedCount s + 1)
                            (set_allRecords (allRecords s ++ [record]) s0) in
                checkForNewCalls (Some row) now ids s
                = (fst (sendToGoogleSheets record false (ids 0%nat) s1),
                   snd (sendToGoogleSheets record false (ids 0%nat) s1)
                   ++ saveToLocalStorage
                        (fst (sendToGoogleSheets record false (ids 0%nat)
                                                 s1)),
                   (1, 0)))
         \/ (isAnsweredRow row = false
             /\ (isMissedRow row = false
                 \/ recordExists c ts (allRecords s) = true)
             /\ checkForNewCalls (Some row) now ids s = (s0, [], (0, 0))).
Proof.
  unfold checkForNewCalls.
  destruct (dataIndexAttr row) as [idx |]; [| now left].
  destruct (timestampText row) as [tsText |]; [| now left].
  destruct (senderText row) as [sender |]; [| now left].
  destruct (parseDateTime tsText [] now) as [ts |] eqn:Ep; [| now left].
  cbn [monitorStartTime countDomQuery set_metrics].
  destruct (match monitorStartTime s with
            | Some start => ts <=? start
            | None => false
            end) eqn:Eg; [now left |].
  right. exists idx, tsText, sender, ts.
  do 3 (split; [reflexivity |]).
  split; [exact Ep |]. split.
  { intros start Hs. rewrite Hs in Eg. apply Z.leb_gt in Eg. lia. }
  cbv zeta.
  destruct (isAnsweredRow row) eqn:Ea.
  - left. split; [reflexivity |].
    destruct (updateMissedCallsAfterAnswer _ ts ids _) as [[s1 es1] n].
    reflexivity.
  - right.
    cbn [allRecords updateRecentCalls set_recentCalls countDomQuery
         set_metrics realTimeMissedCount].
    destruct (isMissedRow row) eqn:Em; cbn [andb].
    + destruct (recordExists _ ts (allRecords s)) eqn:Ex; cbn [negb].
      * right. repeat split; auto.
      * left. do 3 (split; [reflexivity |]).
        destruct (sendToGoogleSheets _ false (ids 0%nat) _) as [s1 es1].
        reflexivity.
    + right. repeat split; auto.
Qed.

End DeliveryFrames.


(** ** Invariants of a monitoring session *)

Section MonitoringInvariants.
Context {H : Host}.
Import JSColl JSCollFacts.

Lemma mhas_set_mono {V} (k k' : string) (v : V) (m : list (string * V)) :
  mhas k m = true -> mhas k (set k' v m) = true.
Proof.
  unfold mhas. induction m as [| [k0 v0] m IH]; simpl; [discriminate |].
  destruct (String.eqb k' k0) eqn:E'; simpl.
  - apply String.eqb_eq in E'. subst k0.
    destruct (String.eqb k k'); auto.
  - destruct (String.eqb k k0); auto.
Qed.

Lemma recordExists_last (c : string) (ts : Z) (idx : string)
      (l : list CallRecord) :
  recordExists c ts (l ++ [newCallRecord ts c idx]) = true.
Proof.
  unfold recordExists. rewrite existsb_app. simpl.
  rewrite String.eqb_refl, Z.eqb_refl. apply orb_true_r.
Qed.

(** X5. A new missed call is sent exactly once.  While monitoring, a top
    row that is a missed call later than the monitor start, not yet
    stored, adds one record, raises the counter by one and sends exactly
    one request, a create for that time and phone; the same row seen
    again adds nothing and sends nothing. *)
Theorem new_missed_call_sent_once
        (row : Row) (now : Z) (ids ids' : nat -> string) (s : State)
        (idx tsText sender : string) (ts : Z) :
  isRealTimeMode s = true ->
  dataIndexAttr row = Some idx ->
  timestampText row = Some tsText ->
  senderText row = Some sender ->
  parseDateTime tsText [] now = Some ts ->
  (forall start, monitorStartTime s = Some start -> start < ts) ->
  isAnsweredRow row = false ->
  isMissedRow row = true ->
  let c := displayNumber
             (separateContactInfo (JSString.trim sender) (Some row)) in
  recordExists c ts (allRecords s) = false ->
  let r1 := checkForNewCalls (Some row) now ids s in
  let r2 := checkForNewCalls (Some row) now ids' (fst (fst r1)) in
  allRecords (fst (fst r1)) = allRecords s ++ [newCallRecord ts c idx]
  /\ realTimeMissedCount (fst (fst r1)) = realTimeMissedCount s + 1
  /\ (exists body : Payload,
         posts (snd (fst r1)) = [(ids 0%nat, body)]
         /\ isUpdate body = false
         /\ dateTime body = formatDateTimeForSheet ts
         /\ phoneNumber body = extractPhoneNumber c)
  /\ snd r1 = (1, 0)
  /\ allRecords (fst (fst r2)) = allRecords (fst (fst r1))
  /\ snd (fst r2) = []
  /\ snd r2 = (0, 0).
Proof.
  intros Hm Hidx Hts Hsender Hparse Hlate Ha Hmiss c Hex r1 r2.
  assert (Hg : forall s', monitorStartTime s' = monitorStartTime s ->
                          match monitorStartTime s' with
                          | Some start => ts <=? start
                          | None => false
                          end = false).
  { intros s' ->. destruct (monitorStartTime s) as [start |] eqn:Es;
      [| reflexivity].
    apply Z.leb_gt. now apply Hlate. }
  assert (E1 : r1 = (fst (sendToGoogleSheets
                            (newCallRecord ts c idx) false (ids 0%nat)
                            (set_realTimeMissedCount
                               (realTimeMissedCount s + 1)
                               (set_allRecords
                                  (allRecords s ++ [newCallRecord ts c idx])
                                  (updateRecentCalls
                                     (extractPhoneNumber c) ts true false now
                                     (countDomQuery s))))),
                     snd (sendToGoogleSheets
                            (newCallRecord ts c idx) false (ids 0%nat)
                            (set_realTimeMissedCount
                               (realTimeMissedCount s + 1)
                               (set_allRecords
                                  (allRecords s ++ [newCallRecord ts c idx])
                                  (updateRecentCalls
                                     (extractPhoneNumber c) ts true false now
                                     (countDomQuery s)))))
                     ++ saveToLocalStorage
                          (fst (sendToGoogleSheets
                                  (newCallRecord ts c idx) false (ids 0%nat)
                                  (set_realTimeMissedCount
                                     (realTimeMissedCount s + 1)
                                     (set_allRecords
                                        (allRecords s
                                         ++ [newCallRecord ts c idx])
                                        (updateRecentCalls
                                           (extractPhoneNumber c) ts true
                                           false now (countDomQuery s)))))),
                     (1, 0))).
  { subst r1. unfold checkForNewCalls.
    rewrite Hidx, Hts, Hsender, Hparse.
    rewrite (Hg (countDomQuery s) eq_refl). rewrite Ha, Hmiss.
    cbn [allRecords updateRecentCalls set_recentCalls countDomQuery
         set_metrics realTimeMissedCount andb].
    fold c. rewrite Hex. cbn [negb].
    destruct (sendToGoogleSheets _ false (ids 0%nat) _) as [s1 es1].
    reflexivity. }
  match type of E1 with
  | _ = (fst (sendToGoogleSheets ?rc false ?i ?s1), _, _) =>
      pose proof (sendToGoogleSheets_frame rc false i s1)
        as (_ & Fm & Fr & _ & Fc & Ft & _);
      assert (Hp : posts (snd (sendToGoogleSheets rc false i s1))
                   = [(i, {| dateTime := formatDateTimeForSheet ts;
                             number := displayNumber
                                         (separateContactInfo c None);
                             frequency := Some 1;
                             actualMissedCall :=
                               isActualMissedCall
                                 (extractPhoneNumber c) ts
                                 (countNetworkRequest s1);
                             isUpdate := false;
                             phoneNumber := extractPhoneNumber c;
                             source := "Real-time Monitor";
                             notes := contactName
                                        (separateContactInfo c None);
                             answerTime := None |})])
        by (unfold sendToGoogleSheets; cbn [isRealTimeMode
              set_realTimeMissedCount set_allRecords updateRecentCalls
              set_recentCalls countDomQuery set_metrics];
            rewrite Hm; reflexivity)
  end.
  cbn [allRecords set_realTimeMissedCount set_allRecords
       realTimeMissedCount monitorStartTime updateRecentCalls
       set_recentCalls countDomQuery set_metrics isRealTimeMode]
    in Fm, Fr, Fc, Ft.
  assert (A1 : allRecords (fst (fst r1))
               = allRecords s ++ [newCallRecord ts c idx])
    by (rewrite E1; exact Fr).
  split; [exact A1 |].
  split; [rewrite E1; exact Fc |].
  split.
  { eexists. rewrite E1. cbn [fst snd].
    rewrite posts_concat, Hp. cbn [posts saveToLocalStorage app].
    split; [reflexivity |]. repeat split. }
  split; [rewrite E1; reflexivity |].
  split; [apply check_twice_records |].
  assert (Hex2 : recordExists c ts (allRecords (fst (fst r1))) = true)
    by (rewrite A1; apply recordExists_last).
  assert (Ht2 : monitorStartTime (fst (fst r1)) = monitorStartTime s)
    by (rewrite E1; exact Ft).
  subst r2. unfold checkForNewCalls.
  rewrite Hidx, Hts, Hsender, Hparse.
  rewrite (Hg (countDomQuery (fst (fst r1))) Ht2). rewrite Ha, Hmiss.
  cbn [allRecords updateRecentCalls set_recentCalls countDomQuery
       set_metrics andb].
  fold c. rewrite Hex2. cbn [negb]. split; reflexivity.
Qed.

Lemma check_counter topRow now ids s :
  counterMatches s ->
  counterMatches (fst (fst (checkForNewCalls topRow now ids s))).
Proof.
  unfold counterMatches. intros Hc.
  destruct topRow as [row |]; [| exact Hc].
  destruct (check_cases row now ids s)
    as [-> | (idx & tsText & sender & ts & _ & _ & _ & _ & _ & Hcase)];
    [exact Hc |].
  cbv zeta in Hcase.
  destruct Hcase as [[_ ->] | [(_ & _ & _ & ->) | (_ & _ & ->)]].
  - match goal with
    | |- context [updateMissedCallsAfterAnswer ?p ?t ids ?s0] =>
        destruct (updateMissed_frame p t ids s0)
          as (_ & _ & Fr & _ & Fc & _)
    end.
    rewrite Fr, Fc. exact Hc.
  - cbn [fst].
    match goal with
    | |- context [sendToGoogleSheets ?rc false ?i ?s1] =>
        destruct (sendToGoogleSheets_frame rc false i s1)
          as (_ & _ & Fr & _ & Fc & _)
    end.
    rewrite Fr, Fc. simpl. rewrite length_app. simpl. lia.
  - exact Hc.
Qed.

Lemma cleanup_counter now sorted s :
  counterMatches s ->
  counterMatches (fst (performanceCleanup now sorted s)).
Proof.
  unfold counterMatches, performanceCleanup, cleanupRecords.
  cbn [fst allRecords realTimeMissedCount isRealTimeMode
       set_processedAnswers set_allRecords set_processedIndexes
       set_recentCalls].
  intros Hc.
  destruct (isRealTimeMode s); cbn [andb]; [| exact Hc].
  destruct (Nat.ltb_spec 200 (List.length (allRecords s))) as [Hlt | Hge];
    [| exact Hc].
  unfold JSColl.sliceLast. rewrite length_skipn. lia.
Qed.

Lemma step_counter (e : Event) (s : State) :
  isMonitoringEvent e = true ->
  counterMatches s -> counterMatches (fst (step e s)).
Proof.
  intros He Hc.
  destruct e as [now | skip | topRow now ids | rows now | id status | id | id
                | | now sorted | on |];
    try discriminate; cbn [step].
  - unfold startRealTimeMode.
    destruct (if isRealTimeMode s then stopRealTimeMode true s else (s, []))
      as [s1 es1]. unfold counterMatches. simpl. lia.
  - unfold stopRealTimeMode, clearLocalStorage.
    destruct (negb (isRealTimeMode s)); [exact Hc |].
    destruct skip; [exact Hc | unfold counterMatches; simpl; lia].
  - pose proof (check_counter topRow now ids s Hc) as Hc'.
    destruct (checkForNewCalls topRow now ids s) as [[s1 es1] f]. exact Hc'.
  - unfold onload. simpl.
    destruct (negb (isRealTimeMode s)); [exact Hc |].
    destruct (status =? 200); exact Hc.
  - exact Hc.
  - exact Hc.
  - apply cleanup_counter. exact Hc.
  - exact Hc.
  - unfold counterMatches, sortRecords in *.
    cbn [fst allRecords realTimeMissedCount set_allRecords].
    rewrite <- (Permutation.Permutation_length
                  (SortFacts.sortStable_perm
                     (fun a b => timestamp b - timestamp a)
                     (allRecords s))).
    exact Hc.
Qed.

Lemma session_counter (events : list Event) (s : State) :
  forallb isMonitoringEvent events = true ->
  counterMatches s -> counterMatches (fst (session events s)).
Proof.
  revert s. induction events as [| e rest IH]; intros s Hev Hc; simpl.
  - exact Hc.
  - simpl in Hev. apply andb_true_iff in Hev as [He Hrest].
    pose proof (step_counter e s He Hc) as Hc1.
    destruct (step e s) as [s1 es1]. specialize (IH s1 Hrest Hc1).
    destruct (session rest s1) as [s2 es2]. exact IH.
Qed.

(** X6. The counter shown while monitoring never undercounts the stored
    records.  From the start of the monitor on, through any sequence of
    checks, completions, periodic cleanups, sorts, stops and restarts
    (no pass of a bulk collection, no [destroy]), the number of records
    in [allRecords] is at most [realTimeMissedCount],
    and the two are equal as long as the counter has not passed 200:
    beyond that the cleanup keeps the last 200 records and leaves the
    counter. *)
Theorem counter_counts_records
        (now : Z) (s0 : State) (events : list Event) :
  forallb isMonitoringEvent events = true ->
  let s := fst (session events (fst (startRealTimeMode now s0))) in
  Z.of_nat (List.length (allRecords s)) <= realTimeMissedCount s
  /\ (realTimeMissedCount s <= 200 ->
      realTimeMissedCount s = Z.of_nat (List.length (allRecords s))).
Proof.
  intros Hev. cbv zeta.
  apply (session_counter events _ Hev).
  unfold counterMatches, startRealTimeMode.
  destruct (if isRealTimeMode s0 then stopRealTimeMode true s0 else (s0, []))
    as [s1 es1]. simpl. lia.
Qed.

Lemma check_recordsSent topRow now ids s :
  recordsSent s ->
  recordsSent (fst (fst (checkForNewCalls topRow now ids s))).
Proof.
  unfold recordsSent. intros Hs.
  destruct topRow as [row |]; [| exact Hs].
  destruct (check_cases row now ids s)
    as [-> | (idx & tsText & sender & ts & _ & _ & _ & _ & _ & Hcase)];
    [exact Hs |].
  cbv zeta in Hcase.
  destruct Hcase as [[_ ->] | [(_ & _ & _ & ->) | (_ & _ & ->)]].
  - match goal with
    | |- context [updateMissedCallsAfterAnswer ?p ?t ids ?s0] =>
        destruct (updateMissed_frame p t ids s0)
          as (_ & Fm & Fr & _ & _ & _ & _ & Fs & _)
    end.
    rewrite Fm, Fr, Fs. exact Hs.
  - cbn [fst].
    match goal with
    | |- context [sendToGoogleSheets ?rc false ?i ?s1] =>
        destruct (sendToGoogleSheets_frame rc false i s1)
          as (_ & Fm & Fr & _);
        pose proof (sendToGoogleSheets_sent rc false i s1) as Hsent
    end.
    rewrite Fm, Fr. intros Hm r Hin.
    destruct (Hsent Hm) as [v ->].
    cbn [sentRecords set_realTimeMissedCount set_allRecords
         updateRecentCalls set_recentCalls countDomQuery set_metrics].
    cbn [allRecords set_realTimeMissedCount set_allRecords
         updateRecentCalls set_recentCalls countDomQuery set_metrics
         isRealTimeMode] in Hin, Hm.
    apply in_app_or in Hin as [Hin | [<- | []]].
    + apply mhas_set_mono. now apply Hs.
    + apply mhas_set_same.
  - exact Hs.
Qed.

Lemma cleanup_recordsSent now sorted s :
  recordsSent s -> recordsSent (fst (performanceCleanup now sorted s)).
Proof.
  unfold recordsSent, performanceCleanup, cleanupRecords.
  cbn [fst allRecords sentRecords isRealTimeMode set_processedAnswers
       set_allRecords set_processedIndexes set_recentCalls].
  intros Hs Hm r Hin. apply (Hs Hm). rewrite Hm in Hin. cbn [andb] in Hin.
  destruct (200 <? List.length (allRecords s))%nat; [| exact Hin].
  eapply WindowFacts.In_sliceLast. exact Hin.
Qed.

Lemma step_recordsSent (e : Event) (s : State) :
  notBulk e = true -> recordsSent s -> recordsSent (fst (step e s)).
Proof.
  intros He Hs.
  destruct e as [now | skip | topRow now ids | rows now | id status | id | id
                | | now sorted | on |];
    try discriminate; cbn [step].
  - unfold startRealTimeMode.
    destruct (if isRealTimeMode s then stopRealTimeMode true s else (s, []))
      as [s1 es1]. intros _ r [].
  - intros Hm. destruct (stop_sets skip s) as [Hoff _]. congruence.
  - pose proof (check_recordsSent topRow now ids s Hs) as Hs'.
    destruct (checkForNewCalls topRow now ids s) as [[s1 es1] f]. exact Hs'.
  - unfold onload. simpl.
    destruct (negb (isRealTimeMode s)); [exact Hs |].
    destruct (status =? 200); exact Hs.
  - exact Hs.
  - exact Hs.
  - unfold destroy. destruct (stopRealTimeMode false s) as [s1 es1].
    intros _ r [].
  - apply cleanup_recordsSent. exact Hs.
  - exact Hs.
  - intros Hm r Hin. apply (Hs Hm).
    cbn [sortRecords allRecords set_allRecords] in Hin.
    eapply Permutation.Permutation_in; [| exact Hin].
    apply Permutation.Permutation_sym, SortFacts.sortStable_perm.
Qed.

(** X7. While monitoring, every stored record has a sent-record entry
    under its own key, so every stored missed call can be reconciled by a
    later answer.  This holds in every state reached from construction
    by handlers other than a pass of a bulk collection. *)
Theorem monitored_records_have_sent_entry
        (stored : option Snapshot) (events : list Event) :
  forallb notBulk events = true ->
  recordsSent (fst (session events (construct stored))).
Proof.
  intros Hev.
  assert (Hgen : forall s, recordsSent s ->
                           recordsSent (fst (session events s))).
  { induction events as [| e rest IH]; intros s Hs; simpl; [exact Hs |].
    simpl in Hev. apply andb_true_iff in Hev as [He Hrest].
    pose proof (step_recordsSent e s He Hs) as Hs1.
    destruct (step e s) as [s1 es1]. specialize (IH Hrest s1 Hs1).
    destruct (session rest s1) as [s2 es2]. exact IH. }
  apply Hgen. intros Hm. exfalso.
  unfold construct, loadFromLocalStorage in Hm.
  destruct stored; simpl in Hm; discriminate.
Qed.

End MonitoringInvariants.


(** ** Saving and loading *)

Module DistinctFacts.
Import JSColl JSCollFacts.

Lemma add_fresh (k : string) (s : list string) :
  ~ In k s -> add k s = s ++ [k].
Proof.
  intros Hn. unfold add. destruct (has k s) eqn:E; [| reflexivity].
  apply has_In in E. contradiction.
Qed.

Lemma NoDup_add (k : string) (s : list string) : NoDup s -> NoDup (add k s).
Proof.
  intros Hnd. unfold add. destruct (has k s) eqn:E; [exact Hnd |].
  apply NoDup_app; [exact Hnd | repeat constructor; intros [] |].
  intros x Hx [<- | []]. apply has_In in Hx. congruence.
Qed.

Lemma NoDup_delete (k : string) (s : list string) :
  NoDup s -> NoDup (delete k s).
Proof. intros Hnd. unfold delete. now apply NoDup_filter. Qed.

Lemma set_fresh {V} (k : string) (v : V) (m : list (string * V)) :
  ~ In k (map fst m) -> set k v m = m ++ [(k, v)].
Proof.
  induction m as [| [k0 v0] m IH]; simpl; intros Hn; [reflexivity |].
  destruct (String.eqb k k0) eqn:E.
  - apply String.eqb_eq in E. subst k0. exfalso. apply Hn. now left.
  - rewrite IH; [reflexivity |]. intros Hin. apply Hn. now right.
Qed.

Lemma set_keys {V} (k : string) (v : V) (m : list (string * V)) :
  map fst (set k v m) = map fst m
  \/ (~ In k (map fst m) /\ map fst (set k v m) = map fst m ++ [k]).
Proof.
  induction m as [| [k0 v0] m IH]; simpl.
  - right. split; [intros [] | reflexivity].
  - destruct (String.eqb k k0) eqn:E; simpl.
    + apply String.eqb_eq in E. subst k0. now left.
    + apply String.eqb_neq in E.
      destruct IH as [-> | [Hn ->]]; [now left |].
      right. split; [| reflexivity]. intros [Heq | Hin]; auto.
Qed.

Lemma NoDup_set_keys {V} (k : string) (v : V) (m : list (string * V)) :
  NoDup (map fst m) -> NoDup (map fst (set k v m)).
Proof.
  intros Hnd. destruct (set_keys k v m) as [-> | [Hn ->]]; [exact Hnd |].
  apply NoDup_app; [exact Hnd | repeat constructor; intros [] |].
  intros x Hx [<- | []]. contradiction.
Qed.

Lemma NoDup_sliceLast {A} (n : nat) (l : list A) :
  NoDup l -> NoDup (sliceLast n l).
Proof.
  intros Hnd. unfold sliceLast.
  rewrite <- (firstn_skipn (List.length l - n) l) in Hnd.
  now apply NoDup_app_remove_l in Hnd.
Qed.

Lemma sliceLast_map {A B} (f : A -> B) (n : nat) (l : list A) :
  map f (sliceLast n l) = sliceLast n (map f l).
Proof. unfold sliceLast. now rewrite length_map, skipn_map. Qed.

(** Rebuilding a set from its own elements gives it back. *)
Lemma fold_add_distinct (l acc : list string) :
  NoDup (acc ++ l) -> fold_left (fun a k => add k a) l acc = acc ++ l.
Proof.
  revert acc. induction l as [| k l IH]; intros acc Hnd; simpl.
  - now rewrite app_nil_r.
  - rewrite add_fresh.
    + rewrite IH; rewrite <- app_assoc; [reflexivity | exact Hnd].
    + intros Hin. apply NoDup_remove_2 in Hnd. apply Hnd.
      apply in_or_app. now left.
Qed.

(** Rebuilding a map from its own entries gives it back. *)
Lemma fold_set_distinct {V} (l acc : list (string * V)) :
  NoDup (map fst (acc ++ l)) ->
  fold_left (fun a kv => set (fst kv) (snd kv) a) l acc = acc ++ l.
Proof.
  revert acc. induction l as [| [k v] l IH]; intros acc Hnd; simpl.
  - now rewrite app_nil_r.
  - rewrite set_fresh.
    + rewrite IH; rewrite <- app_assoc; [reflexivity | exact Hnd].
    + intros Hin. rewrite map_app in Hnd. simpl in Hnd.
      apply NoDup_remove_2 in Hnd. apply Hnd.
      apply in_or_app. now left.
Qed.

Lemma NoDup_fold_add (l acc : list string) :
  NoDup acc -> NoDup (fold_left (fun a k => add k a) l acc).
Proof.
  revert acc. induction l as [| k l IH]; intros acc Hnd; simpl;
    [exact Hnd |].
  apply IH. now apply NoDup_add.
Qed.

Lemma NoDup_fold_set {V} (l acc : list (string * V)) :
  NoDup (map fst acc) ->
  NoDup (map fst (fold_left (fun a kv => set (fst kv) (snd kv) a) l acc)).
Proof.
  revert acc. induction l as [| [k v] l IH]; intros acc Hnd; simpl;
    [exact Hnd |].
  apply IH. now apply NoDup_set_keys.
Qed.

End DistinctFacts.

Section SaveLoad.
Context {H : Host}.
Import JSColl JSCollFacts DistinctFacts.

Lemma sendUpdates_pending records phone t ids i s :
  NoDup (pendingRequests s) ->
  NoDup (pendingRequests (fst (sendUpdates records phone t ids i s))).
Proof.
  revert i s. induction records as [| r rest IH]; intros i s Hnd; simpl.
  - exact Hnd.
  - destruct (negb (isRealTimeMode s)); [exact Hnd |].
    match goal with
    | |- context [sendUpdates rest phone t ids (S i) ?s'] =>
        specialize (IH (S i) s');
        destruct (sendUpdates rest phone t ids (S i) s') as [s1 es1]
    end.
    simpl in *. apply IH. now apply NoDup_add.
Qed.

Lemma updateMissed_distinct phone t ids s :
  collectionsDistinct s ->
  collectionsDistinct
    (fst (fst (updateMissedCallsAfterAnswer phone t ids s))).
Proof.
  intros (D1 & D2 & D3 & D4). unfold updateMissedCallsAfterAnswer.
  destruct (negb (isRealTimeMode s)); [repeat split; assumption |].
  destruct (has _ _); [repeat split; assumption |].
  match goal with
  | |- context [sendUpdates ?l phone t ids 0 s] =>
      pose proof (sendUpdates_frame l phone t ids 0%nat s)
        as [(_ & _ & _ & Fi & _ & _ & _ & Fs & _) Fa];
      pose proof (sendUpdates_pending l phone t ids 0%nat s D4) as Fp;
      destruct (sendUpdates l phone t ids 0 s) as [s1 es1]
  end.
  simpl in *.
  assert (Hd : collectionsDistinct
                 (set_processedAnswers
                    (add (answerKeyOf phone t) (processedAnswers s1)) s1)).
  { repeat split; simpl; try congruence.
    rewrite Fa. now apply NoDup_add. }
  destruct (filter _ _); simpl; exact Hd.
Qed.

Lemma sendToGoogleSheets_distinct record upd id s :
  collectionsDistinct s ->
  collectionsDistinct (fst (sendToGoogleSheets record upd id s)).
Proof.
  intros (D1 & D2 & D3 & D4). unfold sendToGoogleSheets.
  destruct (negb (isRealTimeMode s)); [repeat split; assumption |].
  repeat split; simpl; auto using NoDup_set_keys, NoDup_add.
Qed.

Lemma check_distinct topRow now ids s :
  collectionsDistinct s ->
  collectionsDistinct (fst (fst (checkForNewCalls topRow now ids s))).
Proof.
  intros Hd.
  destruct topRow as [row |]; [| exact Hd].
  destruct (check_cases row now ids s)
    as [-> | (idx & tsText & sender & ts & _ & _ & _ & _ & _ & Hcase)];
    [exact Hd |].
  cbv zeta in Hcase.
  destruct Hcase as [[_ ->] | [(_ & _ & _ & ->) | (_ & _ & ->)]].
  - apply updateMissed_distinct. exact Hd.
  - cbn [fst]. apply sendToGoogleSheets_distinct. exact Hd.
  - exact Hd.
Qed.

Lemma collectRow_distinct lower now row s :
  collectionsDistinct s ->
  collectionsDistinct (fst (collectRow lower now row s)).
Proof.
  intros (D1 & D2 & D3 & D4).
  assert (Hmark : forall s', processedIndexes s' = processedIndexes s ->
                             sentRecords s' = sentRecords s ->
                             processedAnswers s' = processedAnswers s ->
                             pendingRequests s' = pendingRequests s ->
                             forall idx,
                               collectionsDistinct
                                 (set_processedIndexes
                                    (add idx (processedIndexes s')) s')).
  { intros s' E1 E2 E3 E4 idx. repeat split; simpl; try congruence.
    rewrite E1. now apply NoDup_add. }
  unfold collectRow.
  destruct (dataIndexAttr row) as [idx |]; [| repeat split; assumption].
  destruct (has idx (processedIndexes s)); [repeat split; assumption |].
  destruct (negb (isMissedRow row) && negb (isAnsweredRow row));
    [now apply Hmark |].
  destruct (timestampText row) as [tsText |]; [| repeat split; assumption].
  destruct (senderText row) as [sender |]; [| repeat split; assumption].
  destruct (match parseDateTime tsText lower now with
            | Some ts => Some ts
            | None => parseAnyDateTime tsText now
            end) as [ts |]; [| now apply Hmark].
  destruct (isMissedRow row); cbn [fst]; now apply Hmark.
Qed.

Lemma collectRows_distinct lower now rows s :
  collectionsDistinct s ->
  collectionsDistinct (fst (collectRows lower now rows s)).
Proof.
  revert s. induction rows as [| row rest IH]; intros s Hd; simpl.
  - exact Hd.
  - pose proof (collectRow_distinct lower now row s Hd) as Hd1.
    destruct (collectRow lower now row s) as [s1 added].
    specialize (IH s1 Hd1).
    destruct (collectRows lower now rest s1) as [s2 n]. exact IH.
Qed.

Lemma NoDup_cleanupProcessedAnswers now answers :
  NoDup (cleanupProcessedAnswers now answers).
Proof.
  unfold cleanupProcessedAnswers.
  assert (Hgen : forall acc, NoDup acc ->
             NoDup (fold_left
                      (fun validAnswers answerKey =>
                         if keepsAnswer now answerKey
                         then add answerKey validAnswers else validAnswers)
                      answers acc)).
  { induction answers as [| k l IH]; intros acc Hnd; cbn [fold_left];
      [exact Hnd |].
    apply IH. destruct (keepsAnswer now k); [now apply NoDup_add | exact Hnd]. }
  apply Hgen. constructor.
Qed.

Lemma cleanup_distinct now sorted s :
  collectionsDistinct s ->
  collectionsDistinct (fst (performanceCleanup now sorted s)).
Proof.
  intros (D1 & D2 & D3 & D4).
  unfold performanceCleanup, collectionsDistinct.
  cbn [fst processedIndexes sentRecords processedAnswers pendingRequests
       set_processedAnswers set_allRecords set_processedIndexes
       set_recentCalls].
  split; [| split; [exact D2 |
                    split; [apply NoDup_cleanupProcessedAnswers | exact D4]]].
  unfold cleanupProcessedIndexes.
  destruct (500 <? List.length (processedIndexes s))%nat; [| exact D1].
  apply NoDup_fold_add. constructor.
Qed.

Lemma step_distinct (e : Event) (s : State) :
  collectionsDistinct s -> collectionsDistinct (fst (step e s)).
Proof.
  intros Hd. pose proof Hd as (D1 & D2 & D3 & D4).
  destruct e as [now | skip | topRow now ids | rows now | id status | id | id
                | | now sorted | on |];
    cbn [step].
  - unfold startRealTimeMode, stopRealTimeMode.
    destruct (isRealTimeMode s); repeat split; simpl;
      auto using NoDup_nil.
  - unfold stopRealTimeMode, clearLocalStorage.
    destruct (negb (isRealTimeMode s)); [exact Hd |].
    destruct skip; repeat split; simpl; auto using NoDup_nil.
  - pose proof (check_distinct topRow now ids s Hd) as Hd'.
    destruct (checkForNewCalls topRow now ids s) as [[s1 es1] f]. exact Hd'.
  - now apply collectRows_distinct.
  - unfold onload. simpl.
    assert (Hd' : collectionsDistinct
                    (set_pendingRequests (delete id (pendingRequests s)) s))
      by (repeat split; simpl; auto using NoDup_delete).
    destruct (negb (isRealTimeMode s)); [exact Hd' |].
    destruct (status =? 200); exact Hd'.
  - repeat split; simpl; auto using NoDup_delete.
  - repeat split; simpl; auto using NoDup_delete.
  - unfold destroy, stopRealTimeMode, clearLocalStorage.
    destruct (negb (isRealTimeMode s)); repeat split; simpl;
      auto using NoDup_nil.
  - apply cleanup_distinct. exact Hd.
  - exact Hd.
  - exact Hd.
Qed.

Lemma construct_distinct (stored : option Snapshot) :
  collectionsDistinct (construct stored).
Proof.
  unfold construct, loadFromLocalStorage.
  destruct stored as [d |]; repeat split; simpl;
    auto using NoDup_nil, NoDup_fold_add.
  apply (NoDup_fold_set (snapSentRecords d) []). constructor.
Qed.

Lemma session_distinct (events : list Event) (s : State) :
  collectionsDistinct s -> collectionsDistinct (fst (session events s)).
Proof.
  revert s. induction events as [| e rest IH]; intros s Hd; simpl.
  - exact Hd.
  - pose proof (step_distinct e s Hd) as Hd1.
    destruct (step e s) as [s1 es1]. specialize (IH s1 Hd1).
    destruct (session rest s1) as [s2 es2]. exact IH.
Qed.

(** X8. What is saved is what is loaded.  For every state [s] a session
    can reach, constructing a collector from the snapshot of [s] restores
    the counter and the last 100 records, last 300 processed indexes,
    last 50 sent-record entries and last 50 processed answers of [s], in
    their order; monitoring is off and the recent-call window and the
    pending requests are empty.  The monitor start time is restored
    unless it is the time value 0, which loads as no start time. *)
Theorem saved_state_is_restored
        (stored : option Snapshot) (events : list Event) :
  let s := fst (session events (construct stored)) in
  let s' := construct (Some (snapshot s)) in
  allRecords s' = sliceLast 100 (allRecords s)
  /\ processedIndexes s' = sliceLast 300 (processedIndexes s)
  /\ sentRecords s' = sliceLast 50 (sentRecords s)
  /\ processedAnswers s' = sliceLast 50 (processedAnswers s)
  /\ realTimeMissedCount s' = realTimeMissedCount s
  /\ (monitorStartTime s <> Some 0 ->
      monitorStartTime s' = monitorStartTime s)
  /\ (monitorStartTime s = Some 0 -> monitorStartTime s' = None)
  /\ isRealTimeMode s' = false
  /\ recentCalls s' = []
  /\ pendingRequests s' = [].
Proof.
  cbv zeta.
  pose proof (session_distinct events (construct stored)
                (construct_distinct stored)) as (D1 & D2 & D3 & _).
  remember (fst (session events (construct stored))) as s eqn:Es. clear Es.
  unfold construct, loadFromLocalStorage, snapshot.
  cbn [allRecords processedIndexes sentRecords processedAnswers
       realTimeMissedCount monitorStartTime isRealTimeMode recentCalls
       pendingRequests set_allRecords set_processedIndexes
       set_realTimeMissedCount set_monitorStartTime set_sentRecords
       set_processedAnswers emptyState snapRecords snapProcessedIndexes
       snapRealTimeMissedCount snapMonitorStartTime snapSentRecords
       snapProcessedAnswers].
  split; [reflexivity |].
  split; [apply (fold_add_distinct _ []); simpl; now apply NoDup_sliceLast |].
  split.
  { apply (fold_set_distinct _ []). simpl.
    rewrite sliceLast_map. now apply NoDup_sliceLast. }
  split; [apply (fold_add_distinct _ []); simpl; now apply NoDup_sliceLast |].
  split; [reflexivity |].
  split.
  { intros Hne. destruct (monitorStartTime s) as [t |]; [| reflexivity].
    destruct (Z.eqb_spec t 0) as [-> | _]; [now destruct Hne | reflexivity]. }
  split; [intros ->; reflexivity |].
  repeat split.
Qed.

End SaveLoad.


(** ** The bulk pass *)

Section BulkAccounting.
Context {H : Host}.
Import JSColl JSCollFacts.

(** One iteration of the bulk loop either adds nothing, or appends one
    record for a missed row whose index was not processed; the index set
    only grows. *)
Lemma collectRow_cases lower now row s :
  let r := collectRow lower now row s in
  (snd r = false /\ allRecords (fst r) = allRecords s
   /\ (processedIndexes (fst r) = processedIndexes s
       \/ exists idx, dataIndexAttr row = Some idx
                      /\ processedIndexes (fst r)
                         = add idx (processedIndexes s)))
  \/ (snd r = true
      /\ exists idx ts c,
          dataIndexAttr row = Some idx
          /\ has idx (processedIndexes s) = false
          /\ isMissedRow row = true
          /\ allRecords (fst r) = allRecords s ++ [newCallRecord ts c idx]
          /\ processedIndexes (fst r) = add idx (processedIndexes s)).
Proof.
  cbv zeta. unfold collectRow.
  destruct (dataIndexAttr row) as [idx |]; [| left; auto].
  destruct (has idx (processedIndexes s)) eqn:Eh; [left; auto |].
  destruct (negb (isMissedRow row) && negb (isAnsweredRow row));
    [left; simpl; eauto 6 |].
  destruct (timestampText row) as [tsText |]; [| left; auto].
  destruct (senderText row) as [sender |]; [| left; auto].
  destruct (match parseDateTime tsText lower now with
            | Some ts => Some ts
            | None => parseAnyDateTime tsText now
            end) as [ts |]; [| left; simpl; eauto 6].
  destruct (isMissedRow row) eqn:Em.
  - right. split; [reflexivity |]. eexists idx, ts, _.
    repeat split; auto.
  - left. simpl. eauto 6.
Qed.

(** X9. A bulk pass only appends records, and accounts for each: the
    returned count is the number of records appended, and every appended
    record comes from a missed-call row of the batch whose index had not
    been processed before the pass and is processed after it. *)
Theorem bulk_pass_accounting (rows : list Row) (now : Z) (s : State) :
  let r := collectRecords rows now s in
  exists added : list CallRecord,
    allRecords (fst r) = allRecords s ++ added
    /\ snd r = Z.of_nat (List.length added)
    /\ forall rec : CallRecord,
        In rec added ->
        has (dataIndex rec) (processedIndexes s) = false
        /\ has (dataIndex rec) (processedIndexes (fst r)) = true
        /\ exists row : Row,
            In row rows /\ isMissedRow row = true
            /\ dataIndexAttr row = Some (dataIndex rec).
Proof.
  cbv zeta. unfold collectRecords.
  generalize (lowerRowDatesOf rows now) as lower. intros lower.
  revert s. induction rows as [| row rest IH]; intros s; simpl.
  - exists []. rewrite app_nil_r.
    split; [reflexivity |]. split; [reflexivity |]. intros rc [].
  - pose proof (collectRow_cases lower now row s) as Hc.
    pose proof (fun k => collectRow_mono lower now row s k) as Hmono.
    pose proof (fun k => collectRows_mono
                           lower now rest (fst (collectRow lower now row s)) k)
      as Hmono2.
    specialize (IH (fst (collectRow lower now row s))).
    destruct (collectRow lower now row s) as [s1 added1].
    cbv zeta in Hc. simpl in Hc, Hmono, Hmono2, IH.
    destruct (collectRows lower now rest s1) as [s2 n] eqn:E2.
    simpl in *. destruct IH as (added & Ha & Hn & Hall).
    assert (Hold : forall rec, In rec added ->
                     has (dataIndex rec) (processedIndexes s) = false
                     /\ has (dataIndex rec) (processedIndexes s2) = true
                     /\ exists row0, (row = row0 \/ In row0 rest)
                                     /\ isMissedRow row0 = true
                                     /\ dataIndexAttr row0
                                        = Some (dataIndex rec)).
    { intros rc Hin. destruct (Hall rc Hin) as (H1 & H2 & row0 & R1 & R2).
      split; [| split; [exact H2 | exists row0; tauto]].
      destruct (has (dataIndex rc) (processedIndexes s)) eqn:E;
        [| reflexivity].
      apply Hmono in E. congruence. }
    destruct Hc as [(-> & Hr & _) | (-> & idx & ts & c & Hi & Hh & Hm & Hr & Hp)].
    + exists added. rewrite Ha, Hr.
      split; [reflexivity |]. split; [exact Hn |]. exact Hold.
    + exists (newCallRecord ts c idx :: added).
      rewrite Ha, Hr, <- app_assoc. simpl.
      split; [reflexivity |]. split; [lia |].
      intros rc [<- | Hin]; [| now apply Hold].
      simpl. split; [exact Hh |]. split.
      * apply Hmono2. rewrite Hp. apply has_add_same.
      * exists row. auto.
Qed.

Lemma collectRow_ledger lower now row s :
  indexLedger s -> indexLedger (fst (collectRow lower now row s)).
Proof.
  intros [Hnd Hin].
  destruct (collectRow_cases lower now row s)
    as [(_ & Hr & Hp) | (_ & idx & ts & c & _ & Hh & _ & Hr & Hp)];
    unfold indexLedger; rewrite Hr.
  - split; [exact Hnd |]. intros r Hr'.
    destruct Hp as [-> | (idx & _ & ->)]; [auto |].
    apply has_add_mono. auto.
  - rewrite map_app. simpl. split.
    + apply NoDup_app; [exact Hnd | repeat constructor; intros [] |].
      intros x Hx [<- | []]. apply in_map_iff in Hx as [r [Hd Hr']].
      apply Hin in Hr'. rewrite Hd in Hr'. congruence.
    + rewrite Hp. intros r Hr'.
      apply in_app_or in Hr' as [Hr' | [<- | []]].
      * apply has_add_mono. auto.
      * apply has_add_same.
Qed.

(** X10. On the bulk path an index is recorded at most once: if the stored
    records have distinct indexes, all marked as processed (as after the
    reset that starts a collection), the same holds after a bulk pass. *)
Theorem bulk_pass_one_record_per_index
        (rows : list Row) (now : Z) (s : State) :
  indexLedger s -> indexLedger (fst (collectRecords rows now s)).
Proof.
  unfold collectRecords.
  generalize (lowerRowDatesOf rows now) as lower. intros lower.
  revert s. induction rows as [| row rest IH]; intros s Hl; simpl.
  - exact Hl.
  - pose proof (collectRow_ledger lower now row s Hl) as Hl1.
    destruct (collectRow lower now row s) as [s1 added].
    specialize (IH s1 Hl1).
    destruct (collectRows lower now rest s1) as [s2 n]. exact IH.
Qed.

End BulkAccounting.


(** ** More timestamp texts *)

Lemma indexOf_range (x : string) (l : list string) (i : Z) :
  indexOf x l i = -1
  \/ i <= indexOf x l i < i + Z.of_nat (List.length l).
Proof.
  revert i. induction l as [| y l IH]; intros i; simpl; [now left |].
  destruct (String.eqb x y); [right; lia |].
  destruct (IH (i + 1)) as [-> | Hr]; [now left | right; lia].
Qed.

Section MoreTimestamps.
Context {H : Host}.
Import JSString Regex Patterns JSDate JSDateFacts LocalDate.

(** [date.setDate(date.getDate() - k)] goes back [k] days. *)
Lemma setDate_back (t k : Z) : setDate t (getDate t - k) = t - k * msPerDay.
Proof.
  unfold setDate, getDate, UTC. rewrite MakeDay_same_month.
  unfold MakeDate, Day, TimeWithinDay, LocalTime, msPerDay.
  remember (t + tzOffset) as l eqn:El.
  generalize (DateFromTime l) as d. intros d.
  Z.div_mod_to_equations. nia.
Qed.

(** X12. A timestamp text that starts with a weekday name and a time
    resolves to that clock time on the latest day before today that falls
    on that weekday: between one and seven days back, a full week when
    today is that weekday. *)
Theorem weekday_resolution
        (txt : string) (now : Z) (m : found) (k : Z) :
  txt <> "" ->
  matchStart dayOfWeekRe txt = Some m ->
  indexOf (toLowerCase (text (group 1 m))) dayNames 0 = k ->
  k <> -1 ->
  exists (r daysAgo : Z),
    parseAnyDateTime txt now = Some r
    /\ 1 <= daysAgo <= 7
    /\ (Day (LocalTime now) - daysAgo + 4) mod 7 = k
    /\ LocalTime r
       = MakeDate (Day (LocalTime now) - daysAgo)
                  (MakeTime (to24 (parseDigits (group 2 m)) (groupUpper 4 m))
                            (parseDigits (group 3 m)) 0 0).
Proof.
  intros Hne Hm Hk Hfound.
  assert (Hrange : 0 <= k < 7).
  { destruct (indexOf_range (toLowerCase (text (group 1 m))) dayNames 0)
      as [E | E]; [congruence |].
    rewrite Hk in E. simpl in E. lia. }
  unfold parseAnyDateTime.
  apply String.eqb_neq in Hne. rewrite Hne, Hm, Hk.
  apply Z.eqb_neq in Hfound. rewrite Hfound.
  set (cur := getDay now).
  assert (Hcur : cur = (Day (LocalTime now) + 4) mod 7) by reflexivity.
  assert (Hc7 : 0 <= cur < 7) by (rewrite Hcur; apply Z.mod_pos_bound; lia).
  set (ago := if cur - k <=? 0 then cur - k + 7 else cur - k).
  assert (Hago : 1 <= ago <= 7 /\ (cur - ago - k) mod 7 = 0).
  { subst ago. destruct (Z.leb_spec (cur - k) 0).
    - split; [lia |]. replace (cur - (cur - k + 7) - k) with (-1 * 7) by lia.
      apply Z.mod_mul. lia.
    - split; [lia |]. replace (cur - (cur - k) - k) with 0 by lia.
      reflexivity. }
  destruct Hago as [Ha1 Ha2].
  eexists. exists ago. split; [reflexivity |]. split; [exact Ha1 |].
  split.
  - clearbody cur ago. subst cur.
    revert Ha2. generalize (Day (LocalTime now)) as d. intros d Ha2.
    Z.div_mod_to_equations. lia.
  - rewrite setHours_local, setDate_back. f_equal.
    unfold Day, LocalTime, msPerDay. clearbody ago.
    remember (now + tzOffset) as l eqn:El.
    replace (now - ago * 86400000 + tzOffset) with (l - ago * 86400000)
      by lia.
    Z.div_mod_to_equations. lia.
Qed.

End MoreTimestamps.

(** ** The legacy report *)

Section ReportFacts.
Context {H : Host}.
Variable localeCompare : string -> string -> Z.
Import JSColl SortFacts.

Lemma mergedTotal_set_new k e (m : list (string * MergedEntry)) :
  get k m = None -> mergedTotal (set k e m) = mergedTotal m + callsInHour e.
Proof.
  induction m as [| [k0 e0] m IH]; simpl; intros Hg; [lia |].
  destruct (String.eqb k k0); [discriminate |].
  simpl. rewrite IH by exact Hg. lia.
Qed.

Lemma mergedTotal_set_old k e e0 (m : list (string * MergedEntry)) :
  get k m = Some e0 ->
  mergedTotal (set k e m) = mergedTotal m - callsInHour e0 + callsInHour e.
Proof.
  induction m as [| [k1 e1] m IH]; simpl; intros Hg; [discriminate |].
  destruct (String.eqb k k1).
  - injection Hg as ->. simpl. lia.
  - simpl. rewrite IH by exact Hg. lia.
Qed.

Lemma set_values {V} (P : V -> Prop) k (v : V) (m : list (string * V)) :
  P v -> Forall (fun kv => P (snd kv)) m ->
  Forall (fun kv => P (snd kv)) (set k v m).
Proof.
  intros Hv. induction 1 as [| [k0 v0] m Hk Hm IH]; simpl.
  - repeat constructor. exact Hv.
  - destruct (String.eqb k k0); constructor; auto.
Qed.

Lemma get_value {V} (P : V -> Prop) k (v : V) (m : list (string * V)) :
  Forall (fun kv => P (snd kv)) m -> get k m = Some v -> P v.
Proof.
  induction 1 as [| [k0 v0] m Hk _ IH]; simpl; [discriminate |].
  destruct (String.eqb k k0); [intros [= <-]; exact Hk | exact IH].
Qed.

Lemma set_length {V} k (v : V) (m : list (string * V)) :
  (List.length (set k v m) <= S (List.length m))%nat.
Proof.
  induction m as [| [k0 v0] m IH]; simpl; [lia |].
  destruct (String.eqb k k0); simpl; lia.
Qed.

Lemma merge_fold (records : list CallRecord)
      (m : list (string * MergedEntry)) :
  Forall (fun kv => 1 <= callsInHour (snd kv)) m ->
  let m' := fold_left mergeRecord records m in
  mergedTotal m' = mergedTotal m + Z.of_nat (List.length records)
  /\ Forall (fun kv => 1 <= callsInHour (snd kv)) m'
  /\ (List.length m' <= List.length m + List.length records)%nat.
Proof.
  revert m. induction records as [| r rest IH]; intros m Hpos; simpl.
  - repeat split; auto; lia.
  - assert (Hstep : mergedTotal (mergeRecord m r) = mergedTotal m + 1
                    /\ Forall (fun kv => 1 <= callsInHour (snd kv))
                              (mergeRecord m r)
                    /\ (List.length (mergeRecord m r)
                        <= S (List.length m))%nat).
    { unfold mergeRecord. destruct (get (hourKey r) m) as [e |] eqn:Eg.
      - rewrite (mergedTotal_set_old _ _ e) by exact Eg. simpl.
        split; [lia |]. split; [| apply set_length].
        apply (set_values (fun e => 1 <= callsInHour e)); [| exact Hpos].
        simpl.
        pose proof (get_value (fun e => 1 <= callsInHour e) _ _ _ Hpos Eg).
        simpl in *. lia.
      - rewrite mergedTotal_set_new by exact Eg. simpl.
        split; [lia |]. split; [| apply set_length].
        apply (set_values (fun e => 1 <= callsInHour e)); [simpl; lia |].
        exact Hpos. }
    destruct Hstep as (T1 & P1 & L1).
    destruct (IH (mergeRecord m r) P1) as (T2 & P2 & L2).
    cbv zeta in *. repeat split; [lia | exact P2 | lia].
Qed.

(** X14. The legacy report counts every stored record exactly once.  The
    call counts of its rows add up to the number of stored records, each
    row counts at least one call, there are no more rows than records,
    and the stored records are left as a rearrangement of what they were,
    newest first. *)
Theorem legacy_report_counts_every_record (s : State) :
  let r := generateLegacyReport localeCompare s in
  totalCalls (snd r) = Z.of_nat (List.length (allRecords s))
  /\ Forall (fun row => 1 <= rowCalls row) (snd r)
  /\ (List.length (snd r) <= List.length (allRecords s))%nat
  /\ Permutation.Permutation (allRecords s) (allRecords (fst r))
  /\ newestFirst (allRecords (fst r)).
Proof.
  cbv zeta. unfold generateLegacyReport. simpl.
  set (sorted := sortStable (fun a b => timestamp b - timestamp a)
                            (allRecords s)).
  pose proof (sortStable_perm (fun a b => timestamp b - timestamp a)
                              (allRecords s)) as Hperm.
  fold sorted in Hperm.
  destruct (merge_fold sorted [] (Forall_nil _)) as (T & P & L).
  cbv zeta in T, P, L. simpl in T, L.
  set (merged := fold_left mergeRecord sorted []) in *.
  set (report := map (fun kv => reportRow (snd kv)) merged).
  pose proof (sortStable_perm
                (fun a b => localeCompare (rowDatetime b) (rowDatetime a))
                report) as Hrep.
  assert (Hlen : List.length sorted = List.length (allRecords s))
    by (symmetry; now apply Permutation.Permutation_length).
  assert (Htot : totalCalls report = mergedTotal merged).
  { subst report. clear. induction merged as [| kv m IH]; simpl;
      [reflexivity |]. now rewrite IH. }
  repeat split.
  - rewrite <- (totalCalls_perm _ _ Hrep), Htot, T, Hlen. reflexivity.
  - apply (Permutation.Permutation_Forall Hrep). subst report.
    apply Forall_map. exact P.
  - rewrite <- (Permutation.Permutation_length Hrep). subst report.
    rewrite length_map. lia.
  - exact Hperm.
  - apply sort_newestFirst.
Qed.

End ReportFacts.


(** ** Periodic cleanup *)

Module ParseFacts.
Import JSString JSParse.

Lemma chars_app (a b : string) : chars (a ++ b) = chars a ++ chars b.
Proof.
  unfold chars. induction a as [| c a IH]; simpl; [reflexivity |].
  now rewrite IH.
Qed.

Lemma text_chars (s : string) : text (chars s) = s.
Proof. apply string_of_list_ascii_of_string. Qed.

Lemma uint_chars_digits (d : Decimal.uint) :
  isDigits (chars (NilEmpty.string_of_uint d)).
Proof.
  unfold isDigits. induction d; simpl; constructor; auto.
Qed.

(** Reading the digits of a decimal numeral gives its value. *)
Lemma digits_val_uint_acc (d : Decimal.uint) (acc : positive) :
  digits_val (Z.pos acc) (chars (NilEmpty.string_of_uint d))
  = Z.pos (Pos.of_uint_acc d acc).
Proof.
  unfold chars.
  revert acc. induction d; intros acc; [reflexivity | ..];
    cbn [NilEmpty.string_of_uint list_ascii_of_string digits_val
         Pos.of_uint_acc];
    rewrite <- IHd;
    match goal with
    | |- (if ?b then _ else _) = _ => replace b with true by reflexivity
    end;
    f_equal;
    match goal with
    | |- context [digit_val ?c] =>
        let v := eval vm_compute in (digit_val c) in
        change (digit_val c) with v
    end; lia.
Qed.

Lemma digits_val_uint (d : Decimal.uint) :
  digits_val 0 (chars (NilEmpty.string_of_uint d)) = Z.of_N (Pos.of_uint d).
Proof.
  unfold chars.
  induction d; [reflexivity | exact IHd | ..];
    cbn [NilEmpty.string_of_uint list_ascii_of_string digits_val
         Pos.of_uint Z.of_N];
    rewrite <- (digits_val_uint_acc d); unfold chars;
    match goal with
    | |- (if ?b then _ else _) = _ => replace b with true by reflexivity
    end;
    f_equal.
Qed.

(** [parseInt] reads a run of digits as its decimal value. *)
Lemma parseInt_digits (c : ascii) (r : list ascii) :
  isDigits (c :: r) ->
  parseInt (text (c :: r)) = Some (digits_val 0 (c :: r)).
Proof.
  intros Hd. unfold parseInt, chars, text.
  rewrite list_ascii_of_string_of_list_ascii.
  inversion Hd as [| ? ? Hc Hr]. subst.
  apply is_digit_digits in Hc. simpl in Hc.
  destruct r as [| x r'].
  - repeat (destruct Hc as [<- | Hc]; [reflexivity |]). destruct Hc.
  - inversion Hr as [| ? ? Hx _]. subst.
    apply is_digit_digits in Hx. simpl in Hx.
    repeat (destruct Hc as [<- | Hc];
            [repeat (destruct Hx as [<- | Hx]; [reflexivity |]);
             destruct Hx |]).
    destruct Hc.
Qed.

(** ... and a minus sign before them as its opposite. *)
Lemma parseInt_minus_digits (c : ascii) (r : list ascii) :
  isDigits (c :: r) ->
  parseInt (text ("-"%char :: c :: r)) = Some (- digits_val 0 (c :: r)).
Proof.
  intros Hd. unfold parseInt, chars, text.
  rewrite list_ascii_of_string_of_list_ascii.
  inversion Hd as [| ? ? Hc Hr]. subst.
  apply is_digit_digits in Hc. simpl in Hc.
  destruct r as [| x r'].
  - repeat (destruct Hc as [<- | Hc]; [reflexivity |]). destruct Hc.
  - inversion Hr as [| ? ? Hx _]. subst.
    apply is_digit_digits in Hx. simpl in Hx.
    repeat (destruct Hc as [<- | Hc];
            [repeat (destruct Hx as [<- | Hx]; [reflexivity |]);
             destruct Hx |]).
    destruct Hc.
Qed.

(** The decimal text of a positive number: digits, whose value it is. *)
Lemma pos_text (p : positive) :
  exists c r,
    ofZ (Z.pos p) = text (c :: r)
    /\ isDigits (c :: r)
    /\ digits_val 0 (c :: r) = Z.pos p.
Proof.
  pose proof (uint_chars_digits (Pos.to_uint p)) as Hd.
  pose proof (digits_val_uint (Pos.to_uint p)) as Hv.
  rewrite DecimalPos.Unsigned.of_to in Hv.
  change (Z.of_N (N.pos p)) with (Z.pos p) in Hv.
  assert (Hs : ofZ (Z.pos p) = NilEmpty.string_of_uint (Pos.to_uint p)).
  { unfold ofZ. cbn [Z.to_int NilZero.string_of_int].
    destruct (Pos.to_uint p) eqn:E; try reflexivity.
    exfalso. now apply (DecimalPos.Unsigned.to_uint_nonnil p). }
  destruct (chars (NilEmpty.string_of_uint (Pos.to_uint p)))
    as [| c r] eqn:Ec; [discriminate |].
  exists c, r. split; [| auto].
  now rewrite Hs, <- Ec, text_chars.
Qed.

Lemma neg_text (p : positive) (l : list ascii) :
  ofZ (Z.pos p) = text l -> ofZ (Z.neg p) = text ("-"%char :: l).
Proof.
  unfold ofZ. cbn [Z.to_int NilZero.string_of_int]. intros ->.
  reflexivity.
Qed.

(** Printing a number and reading it back with [parseInt] gives the
    number. *)
Lemma parseInt_ofZ (t : Z) : parseInt (ofZ t) = Some t.
Proof.
  destruct t as [| p | p].
  - reflexivity.
  - destruct (pos_text p) as (c & r & -> & Hd & Hv).
    rewrite parseInt_digits by exact Hd. now rewrite Hv.
  - destruct (pos_text p) as (c & r & Ht & Hd & Hv).
    pose proof (neg_text p _ Ht) as E.
    rewrite E, parseInt_minus_digits by exact Hd. rewrite Hv. reflexivity.
Qed.

(** The decimal text of a number holds no underscore. *)
Lemma ofZ_no_underscore (t : Z) :
  Forall (fun c => Ascii.eqb c "_" = false) (chars (ofZ t)).
Proof.
  assert (Hdig : forall l, isDigits l ->
                           Forall (fun c => Ascii.eqb c "_" = false) l).
  { intros l Hl. eapply Forall_impl; [| exact Hl]. simpl.
    intros c Hc. apply is_digit_digits in Hc. simpl in Hc.
    repeat (destruct Hc as [<- | Hc]; [reflexivity |]). destruct Hc. }
  destruct t as [| p | p].
  - repeat constructor.
  - destruct (pos_text p) as (c & r & -> & Hd & _).
    unfold chars, text. rewrite list_ascii_of_string_of_list_ascii. auto.
  - destruct (pos_text p) as (c & r & Ht & Hd & _).
    pose proof (neg_text p _ Ht) as E.
    rewrite E. unfold chars, text.
    rewrite list_ascii_of_string_of_list_ascii.
    constructor; [reflexivity | auto].
Qed.

Lemma split_no_sep (sep : ascii) (b cur : list ascii) :
  Forall (fun c => Ascii.eqb c sep = false) b ->
  split_chars sep cur b = [rev cur ++ b].
Proof.
  intros Hb. revert cur. induction Hb as [| c b Hc _ IH]; intros cur; simpl.
  - now rewrite app_nil_r.
  - rewrite Hc, IH. simpl. now rewrite <- app_assoc.
Qed.

(** The last part of a text cut at [sep] is what follows its last
    [sep]. *)
Lemma split_last (sep : ascii) (a b cur : list ascii) :
  Forall (fun c => Ascii.eqb c sep = false) b ->
  exists pre, split_chars sep cur (a ++ sep :: b) = pre ++ [b]
              /\ pre <> [].
Proof.
  intros Hb. revert cur. induction a as [| c a IH]; intros cur; simpl.
  - rewrite Ascii.eqb_refl. exists [rev cur].
    rewrite (split_no_sep sep b [] Hb). split; [reflexivity | discriminate].
  - destruct (Ascii.eqb c sep).
    + destruct (IH []) as [pre [-> Hne]]. exists (rev cur :: pre).
      split; [reflexivity | discriminate].
    + apply IH.
Qed.

End ParseFacts.

Section CleanupFacts.
Context {H : Host}.
Import JSString JSColl JSCollFacts JSParse ParseFacts WindowFacts
       DistinctFacts.

(** The cleanup test on a key made by the collector compares the time in
    the key with six hours before now. *)
Lemma keepsAnswer_keyOf (now : Z) (phone : string) (t : Z) :
  keepsAnswer now (keyOf phone t) = dateAfter t (now - 6 * 60 * 60 * 1000).
Proof.
  unfold keepsAnswer, split, keyOf.
  rewrite chars_app. change (chars ("_" ++ ofZ t)) with ("_"%char :: chars (ofZ t)).
  destruct (split_last "_" (chars phone) (chars (ofZ t)) []
                       (ofZ_no_underscore t)) as [pre [-> Hne]].
  rewrite map_app. cbn [map]. rewrite length_app, last_last.
  rewrite text_chars, parseInt_ofZ.
  destruct pre as [| p pre]; [congruence |]. cbn [map List.length].
  replace (S (List.length (map text pre)) + 1)%nat
    with (S (S (List.length (map text pre)))) by lia.
  reflexivity.
Qed.

Lemma cleanup_fold (now : Z) (answers acc : list string) :
  NoDup (acc ++ answers) ->
  fold_left (fun validAnswers answerKey =>
               if keepsAnswer now answerKey
               then add answerKey validAnswers else validAnswers)
            answers acc
  = acc ++ filter (keepsAnswer now) answers.
Proof.
  revert acc. induction answers as [| k l IH]; intros acc Hnd; simpl.
  - now rewrite app_nil_r.
  - assert (Hk : ~ In k acc).
    { intros Hin. apply NoDup_remove_2 in Hnd. apply Hnd.
      apply in_or_app. now left. }
    destruct (keepsAnswer now k).
    + rewrite add_fresh by exact Hk. rewrite IH.
      * now rewrite <- app_assoc.
      * rewrite <- app_assoc. exact Hnd.
    + apply IH. now apply NoDup_remove_1 in Hnd.
Qed.

(** X15. The cleanup of processed answers keeps, in their order, exactly
    the keys whose trailing time is a valid time later than six hours
    before now.  For a key the collector made for phone [P] and time [t]
    this means: it stays if and only if it was there and [t] is less than
    six hours old. *)
Theorem recent_answers_survive_cleanup
        (now : Z) (answers : list string) (phone : string) (t : Z) :
  NoDup answers ->
  Z.abs t <= maxTime ->
  cleanupProcessedAnswers now answers = filter (keepsAnswer now) answers
  /\ (In (keyOf phone t) (cleanupProcessedAnswers now answers)
      <-> In (keyOf phone t) answers /\ now - 6 * hourMs < t).
Proof.
  intros Hnd Ht.
  assert (E : cleanupProcessedAnswers now answers
              = filter (keepsAnswer now) answers)
    by (unfold cleanupProcessedAnswers; now rewrite cleanup_fold).
  split; [exact E |].
  rewrite E, filter_In, keepsAnswer_keyOf. unfold dateAfter, hourMs.
  apply Z.leb_le in Ht. rewrite Ht. simpl. rewrite Z.ltb_lt.
  split; intros [Hin Hlt]; (split; [exact Hin | lia]).
Qed.

Lemma get_mdelete_same {V} (k : string) (m : list (string * V)) :
  get k (mdelete k m) = None.
Proof.
  unfold mdelete. induction m as [| [k0 v0] m IH]; simpl; [reflexivity |].
  destruct (String.eqb k k0) eqn:E; simpl; [exact IH |].
  now rewrite E.
Qed.

Lemma get_mdelete_other {V} (k k' : string) (m : list (string * V)) :
  k' <> k -> get k' (mdelete k m) = get k' m.
Proof.
  intros Hne. unfold mdelete.
  induction m as [| [k0 v0] m IH]; simpl; [reflexivity |].
  destruct (String.eqb k k0) eqn:E; simpl.
  - apply String.eqb_eq in E. subst k0.
    destruct (String.eqb k' k) eqn:E'; [| exact IH].
    apply String.eqb_eq in E'. contradiction.
  - now rewrite IH.
Qed.

Lemma get_None_keys {V} (k : string) (m : list (string * V)) :
  ~ In k (map fst m) -> get k m = None.
Proof.
  induction m as [| [k0 v0] m IH]; simpl; intros Hn; [reflexivity |].
  destruct (String.eqb k k0) eqn:E.
  - apply String.eqb_eq in E. subst. exfalso. apply Hn. now left.
  - apply IH. intros Hin. apply Hn. now right.
Qed.

Lemma cleanup_calls_fold (now : Z) (todo acc : list (string * list Call))
      (phone : string) :
  NoDup (map fst todo) ->
  get phone
      (fold_left (fun acc entry =>
                    match trimmedCalls now (snd entry) with
                    | None => mdelete (fst entry) acc
                    | Some recent => set (fst entry) recent acc
                    end) todo acc)
  = match get phone todo with
    | Some calls => trimmedCalls now calls
    | None => get phone acc
    end.
Proof.
  revert acc. induction todo as [| [k calls] todo IH]; intros acc Hnd;
    simpl; [reflexivity |].
  inversion Hnd as [| ? ? Hk Hnd']. subst.
  rewrite IH by exact Hnd'.
  destruct (String.eqb phone k) eqn:E.
  - apply String.eqb_eq in E. subst k.
    rewrite (get_None_keys phone todo Hk).
    destruct (trimmedCalls now calls) as [recent |].
    + apply get_set_same.
    + apply get_mdelete_same.
  - apply String.eqb_neq in E.
    destruct (get phone todo); [reflexivity |].
    destruct (trimmedCalls now calls) as [recent |].
    + now apply get_set_other.
    + now apply get_mdelete_other.
Qed.

(** X16. After the cleanup of the recent-call window every phone is
    either absent or has between one and five calls, all later than two
    hours before now and all taken from its window before the cleanup: a
    phone whose calls are all older is removed, not left empty. *)
Theorem cleanup_bounds_recent_calls
        (now : Z) (m : list (string * list Call)) (phone : string) :
  NoDup (map fst m) ->
  get phone (cleanupRecentCalls now m)
  = match get phone m with
    | Some calls => trimmedCalls now calls
    | None => None
    end
  /\ forall calls : list Call,
      get phone (cleanupRecentCalls now m) = Some calls ->
      (1 <= List.length calls <= 5)%nat
      /\ exists old : list Call,
          get phone m = Some old
          /\ forall call, In call calls ->
                          In call old /\ now - 2 * hourMs < time call.
Proof.
  intros Hnd.
  assert (E : get phone (cleanupRecentCalls now m)
              = match get phone m with
                | Some calls => trimmedCalls now calls
                | None => None
                end).
  { unfold cleanupRecentCalls. rewrite cleanup_calls_fold by exact Hnd.
    destruct (get phone m); reflexivity. }
  split; [exact E |].
  intros calls Hc. rewrite E in Hc.
  destruct (get phone m) as [old |]; [| discriminate].
  unfold trimmedCalls in Hc.
  destruct (filter (fun call => now - 2 * 60 * 60 * 1000 <? time call) old)
    as [| c0 recent] eqn:Ef; [discriminate |].
  injection Hc as <-. split.
  - split; [| apply sliceLast_length].
    unfold sliceLast. rewrite length_skipn. cbn [List.length]. lia.
  - exists old. split; [reflexivity |].
    intros call Hin. apply In_sliceLast in Hin. rewrite <- Ef in Hin.
    apply filter_In in Hin as [Hin Hlt]. apply Z.ltb_lt in Hlt.
    unfold hourMs. split; [exact Hin | lia].
Qed.

End CleanupFacts.

(** ** Telephone numbers *)

Module PhoneFacts.
Import JSString Regex Patterns ParseFacts.

Section Inversion.
Context {A : Type}.
Implicit Types (k : list ascii -> caps -> option A) (x : A).

Lemma run_Cat r1 r2 s c k :
  run (Cat r1 r2) s c k = run r1 s c (fun s' c' => run r2 s' c' k).
Proof. reflexivity. Qed.

Lemma run_Grp n r s c k :
  run (Grp n r) s c k
  = run r s c
        (fun s' c' =>
           k s' ((n, firstn (List.length s - List.length s') s) :: c')).
Proof. reflexivity. Qed.

Lemma run_Cls_inv p s c k x :
  run (Cls p) s c k = Some x ->
  exists a s', s = a :: s' /\ p a = true /\ k s' c = Some x.
Proof.
  destruct s as [|a s']; cbn [run]; [discriminate |].
  destruct (p a) eqn:Hp; [| discriminate].
  intros Hk. exists a, s'. auto.
Qed.

Lemma run_Opt_inv p s c k x :
  run (Opt (Cls p)) s c k = Some x -> exists s', k s' c = Some x.
Proof.
  unfold Opt. cbn [run].
  destruct s as [|a s']; cbn [orElse]; [eauto |].
  destruct (p a); [| eauto].
  destruct (k s' c) eqn:Hk; cbn [orElse]; [| eauto].
  intros [= <-]. eauto.
Qed.

Lemma run_Star_inv p s c k x :
  run (Star (Cls p)) s c k = Some x -> exists s', k s' c = Some x.
Proof.
  cbn [run]. generalize (List.length s) as fuel. intros fuel. revert s.
  induction fuel as [|fuel IH]; intros s; [eauto |].
  destruct s as [|a s']; cbn [orElse]; [eauto |].
  destruct (p a); [| eauto].
  destruct (List.length s' <? List.length (a :: s'))%nat; [| eauto].
  match goal with
  | |- orElse ?t _ = _ -> _ => destruct t eqn:Ht
  end; cbn [orElse]; [| eauto].
  intros [= <-]. eauto.
Qed.

Lemma firstn_prefix (l s : list ascii) :
  firstn (List.length (l ++ s) - List.length s) (l ++ s) = l.
Proof.
  rewrite length_app, Nat.add_sub, firstn_app, Nat.sub_diag, firstn_all.
  cbn [firstn]. apply app_nil_r.
Qed.

Lemma run_d3_inv n s c k x :
  run (Grp n d3) s c k = Some x ->
  exists l s', s = l ++ s' /\ List.length l = 3%nat /\ isDigits l
               /\ k s' ((n, l) :: c) = Some x.
Proof.
  unfold d3, digit. cbn [cats]. rewrite run_Grp, run_Cat. intros Hr.
  apply run_Cls_inv in Hr as (a1 & s1 & -> & H1 & Hr).
  rewrite run_Cat in Hr.
  apply run_Cls_inv in Hr as (a2 & s2 & -> & H2 & Hr).
  apply run_Cls_inv in Hr as (a3 & s3 & -> & H3 & Hr).
  exists [a1; a2; a3], s3.
  change (a1 :: a2 :: a3 :: s3) with ([a1; a2; a3] ++ s3) in Hr.
  rewrite firstn_prefix in Hr.
  repeat split; [repeat constructor; assumption | exact Hr].
Qed.

Lemma run_d4_inv n s c k x :
  run (Grp n d4) s c k = Some x ->
  exists l s', s = l ++ s' /\ List.length l = 4%nat /\ isDigits l
               /\ k s' ((n, l) :: c) = Some x.
Proof.
  unfold d4, digit. cbn [cats]. rewrite run_Grp, run_Cat. intros Hr.
  apply run_Cls_inv in Hr as (a1 & s1 & -> & H1 & Hr).
  rewrite run_Cat in Hr.
  apply run_Cls_inv in Hr as (a2 & s2 & -> & H2 & Hr).
  rewrite run_Cat in Hr.
  apply run_Cls_inv in Hr as (a3 & s3 & -> & H3 & Hr).
  apply run_Cls_inv in Hr as (a4 & s4 & -> & H4 & Hr).
  exists [a1; a2; a3; a4], s4.
  change (a1 :: a2 :: a3 :: a4 :: s4) with ([a1; a2; a3; a4] ++ s4) in Hr.
  rewrite firstn_prefix in Hr.
  repeat split; [repeat constructor; assumption | exact Hr].
Qed.

(** What a match of the telephone pattern captures. *)
Lemma run_phoneRe_inv s k x :
  run phoneRe s [] k = Some x ->
  exists g1 g2 g3 rest,
    List.length g1 = 3%nat /\ List.length g2 = 3%nat
    /\ List.length g3 = 4%nat
    /\ isDigits g1 /\ isDigits g2 /\ isDigits g3
    /\ k rest [(3%nat, g3); (2%nat, g2); (1%nat, g1)] = Some x.
Proof.
  unfold phoneRe, chr, space, sep. cbn [cats]. intros Hr.
  rewrite run_Cat in Hr. apply run_Opt_inv in Hr as (s1 & Hr).
  rewrite run_Cat in Hr. apply run_Opt_inv in Hr as (s2 & Hr).
  rewrite run_Cat in Hr. apply run_Star_inv in Hr as (s3 & Hr).
  rewrite run_Cat in Hr. apply run_Opt_inv in Hr as (s4 & Hr).
  rewrite run_Cat in Hr.
  apply run_d3_inv in Hr as (g1 & s5 & -> & L1 & D1 & Hr).
  rewrite run_Cat in Hr. apply run_Opt_inv in Hr as (s6 & Hr).
  rewrite run_Cat in Hr. apply run_Opt_inv in Hr as (s7 & Hr).
  rewrite run_Cat in Hr.
  apply run_d3_inv in Hr as (g2 & s8 & -> & L2 & D2 & Hr).
  rewrite run_Cat in Hr. apply run_Opt_inv in Hr as (s9 & Hr).
  apply run_d4_inv in Hr as (g3 & s10 & -> & L3 & D3 & Hr).
  exists g1, g2, g3, s10. auto 10.
Qed.

Lemma run_Cls_ok p a s c k :
  p a = true -> run (Cls p) (a :: s) c k = k s c.
Proof. intros Hp. cbn [run]. now rewrite Hp. Qed.

Lemma run_Opt_skip p a s c k :
  p a = false -> run (Opt (Cls p)) (a :: s) c k = k (a :: s) c.
Proof. intros Hp. unfold Opt. cbn [run]. now rewrite Hp. Qed.

Lemma run_Opt_take p a s c k x :
  p a = true -> k s c = Some x ->
  run (Opt (Cls p)) (a :: s) c k = Some x.
Proof. intros Hp Hk. unfold Opt. cbn [run]. now rewrite Hp, Hk. Qed.

Lemma run_Star_skip p a s c k :
  p a = false -> run (Star (Cls p)) (a :: s) c k = k (a :: s) c.
Proof. intros Hp. cbn [run List.length]. now rewrite Hp. Qed.

End Inversion.

Lemma searchFrom_phoneRe_inv s pre m :
  searchFrom phoneRe pre s = Some m ->
  exists g1 g2 g3,
    List.length g1 = 3%nat /\ List.length g2 = 3%nat
    /\ List.length g3 = 4%nat
    /\ isDigits g1 /\ isDigits g2 /\ isDigits g3
    /\ groups m = [(3%nat, g3); (2%nat, g2); (1%nat, g1)].
Proof.
  revert pre. induction s as [|a s IH]; intros pre; cbn [searchFrom];
    match goal with
    | |- match ?t with _ => _ end = _ -> _ => destruct t eqn:Hr
    end; try discriminate; eauto.
  all: intros [= <-];
    apply run_phoneRe_inv in Hr
      as (g1 & g2 & g3 & rest & L1 & L2 & L3 & D1 & D2 & D3 & [= <-]);
    exists g1, g2, g3; auto 10.
Qed.

Lemma digit_plain (c : ascii) :
  is_digit c = true ->
  is_space c = false /\ Ascii.eqb "+" c = false
  /\ Ascii.eqb "(" c = false
  /\ (Ascii.eqb c "-" || Ascii.eqb c "." || is_space c) = false.
Proof.
  intros Hc. apply is_digit_digits in Hc. simpl in Hc.
  repeat (destruct Hc as [<- | Hc]; [repeat split |]). destruct Hc.
Qed.

(** The pattern reads a number written [(ddd)ddd-dddd] back, digit for
    digit. *)
Lemma search_formatted (g1 g2 g3 : list ascii) :
  List.length g1 = 3%nat -> List.length g2 = 3%nat ->
  List.length g3 = 4%nat ->
  isDigits g1 -> isDigits g2 -> isDigits g3 ->
  exists m,
    search phoneRe ("(" ++ text g1 ++ ")" ++ text g2 ++ "-" ++ text g3)
    = Some m
    /\ groups m = [(3%nat, g3); (2%nat, g2); (1%nat, g1)].
Proof.
  intros L1 L2 L3 D1 D2 D3.
  destruct g1 as [|a1 [|a2 [|a3 [|? ?]]]]; try discriminate L1.
  destruct g2 as [|b1 [|b2 [|b3 [|? ?]]]]; try discriminate L2.
  destruct g3 as [|c1 [|c2 [|c3 [|c4 [|? ?]]]]]; try discriminate L3.
  unfold isDigits in *.
  repeat match goal with
         | H : Forall _ (_ :: _) |- _ => inversion H; clear H; subst
         end.
  destruct (digit_plain b1) as (_ & _ & _ & Hsep); [assumption |].
  eexists. split.
  - unfold search.
    rewrite !chars_app. unfold chars at 2 4 6.
    rewrite !list_ascii_of_string_of_list_ascii.
    cbn [chars list_ascii_of_string app searchFrom].
    match goal with
    | |- match ?t with _ => _ end = _ =>
        assert (t = Some {| before := [];
                            groups := [(3%nat, [c1; c2; c3; c4]);
                                       (2%nat, [b1; b2; b3]);
                                       (1%nat, [a1; a2; a3])];
                            after := [] |}) as ->; [| reflexivity]
    end.
    unfold phoneRe, chr, space, sep. cbn [cats].
    rewrite run_Cat, run_Opt_skip by reflexivity.
    rewrite run_Cat, run_Opt_skip by reflexivity.
    rewrite run_Cat, run_Star_skip by reflexivity.
    rewrite run_Cat. apply run_Opt_take; [reflexivity |].
    rewrite run_Cat, run_Grp. unfold d3, d4, digit. cbn [cats].
    rewrite run_Cat, run_Cls_ok by assumption.
    rewrite run_Cat, run_Cls_ok by assumption.
    rewrite run_Cls_ok by assumption.
    rewrite run_Cat. apply run_Opt_take; [reflexivity |].
    rewrite run_Cat, run_Opt_skip by assumption.
    rewrite run_Cat, run_Grp.
    rewrite run_Cat, run_Cls_ok by assumption.
    rewrite run_Cat, run_Cls_ok by assumption.
    rewrite run_Cls_ok by assumption.
    rewrite run_Cat. apply run_Opt_take; [reflexivity |].
    rewrite run_Grp.
    rewrite run_Cat, run_Cls_ok by assumption.
    rewrite run_Cat, run_Cls_ok by assumption.
    rewrite run_Cat, run_Cls_ok by assumption.
    rewrite run_Cls_ok by assumption.
    reflexivity.
  - reflexivity.
Qed.

End PhoneFacts.

Section PhoneKeys.
Import JSString Regex Patterns PhoneFacts.

(** X17.  The telephone key of a contact is the contact text itself when
    it holds no telephone number, and otherwise exactly ten decimal
    digits, whatever punctuation, spacing or country prefix the text
    used. *)
Theorem phone_key_is_ten_digits (c : string) :
  (search phoneRe c = None /\ extractPhoneNumber c = c)
  \/ exists ds, extractPhoneNumber c = text ds
                /\ List.length ds = 10%nat /\ isDigits ds.
Proof.
  unfold extractPhoneNumber. destruct (search phoneRe c) as [m|] eqn:Hs.
  - right. unfold search in Hs.
    apply searchFrom_phoneRe_inv in Hs
      as (g1 & g2 & g3 & L1 & L2 & L3 & D1 & D2 & D3 & Hg).
    exists (g1 ++ g2 ++ g3). unfold group. rewrite Hg. cbn [cap Nat.eqb].
    split; [reflexivity |]. split.
    + rewrite !length_app. lia.
    + unfold isDigits in *. rewrite !Forall_app. auto.
  - left. auto.
Qed.

Lemma formatPhone_key (m : found) (c : string) :
  search phoneRe c = Some m ->
  extractPhoneNumber (formatPhone m)
  = text (group 1 m ++ group 2 m ++ group 3 m).
Proof.
  intros Hs. unfold search in Hs.
  apply searchFrom_phoneRe_inv in Hs
    as (g1 & g2 & g3 & L1 & L2 & L3 & D1 & D2 & D3 & Hg).
  unfold formatPhone, group. rewrite Hg. cbn [cap Nat.eqb].
  destruct (search_formatted g1 g2 g3) as (m' & Hm' & Hg'); try assumption.
  unfold extractPhoneNumber. rewrite Hm'. unfold group. rewrite Hg'.
  reflexivity.
Qed.

(** X18.  Formatting does not change the key: when the contact text
    holds a telephone number, the number shown for the contact,
    [(ddd)ddd-dddd], has the same telephone key as the contact text. *)
Theorem display_number_keeps_phone_key (c : string) (row : option Row)
        (m : found) :
  search phoneRe c = Some m ->
  extractPhoneNumber (displayNumber (separateContactInfo c row))
  = extractPhoneNumber c.
Proof.
  intros Hs. unfold separateContactInfo. rewrite Hs.
  assert (extractPhoneNumber (formatPhone m) = extractPhoneNumber c) as Hk.
  { rewrite (formatPhone_key m c Hs). unfold extractPhoneNumber.
    now rewrite Hs. }
  destruct (matchStart bareNumberRe _); exact Hk.
Qed.

End PhoneKeys.

(** ** Times written for the sheet *)

Module SheetFacts.
Import JSString Regex Patterns JSDate ParseFacts PhoneFacts.

Lemma civil_ranges (z : Z) :
  let '(y, m, d) := civilFromDays z in 1 <= m <= 12 /\ 1 <= d <= 31.
Proof.
  unfold civilFromDays.
  set (z' := z + 719468).
  set (era := z' / 146097).
  set (doe := z' - era * 146097).
  assert (Hdoe : 0 <= doe < 146097)
    by (subst doe era; Z.div_mod_to_equations; lia).
  clearbody doe.
  set (yoe := (doe - doe / 1460 + doe / 36524 - doe / 146096) / 365).
  set (doy := doe - (365 * yoe + yoe / 4 - yoe / 100)).
  assert (Hdoy : 0 <= doy <= 365)
    by (subst doy yoe; Z.div_mod_to_equations; lia).
  clearbody doy. clearbody yoe.
  set (mp := (5 * doy + 2) / 153).
  assert (Hmp : 0 <= mp <= 11) by (subst mp; Z.div_mod_to_equations; lia).
  assert (Hd : 1 <= doy - (153 * mp + 2) / 5 + 1 <= 31)
    by (subst mp; Z.div_mod_to_equations; lia).
  clearbody mp. cbv zeta.
  destruct (Z.ltb_spec mp 10); lia.
Qed.

Lemma two_digit_texts :
  forallb (fun n =>
             match chars (padStart2 (ofZ (Z.of_nat n))) with
             | [a; b] => is_digit a && is_digit b
                         && (parseDigits [a; b] =? Z.of_nat n)
             | _ => false
             end) (seq 0 100) = true.
Proof. vm_compute. reflexivity. Qed.

Lemma four_digit_texts :
  forallb (fun n =>
             match chars (ofZ (Z.of_nat n)) with
             | [a; b; c; d] => is_digit a && is_digit b && is_digit c
                               && is_digit d
                               && (parseDigits [a; b; c; d] =? Z.of_nat n)
             | _ => false
             end) (seq (10 * 100) (90 * 100)) = true.
Proof. vm_compute. reflexivity. Qed.

Lemma pad2_shape (n : Z) :
  0 <= n < 100 ->
  exists a b, padStart2 (ofZ n) = text [a; b]
              /\ is_digit a = true /\ is_digit b = true
              /\ parseDigits [a; b] = n.
Proof.
  intros Hn. pose proof two_digit_texts as Hall.
  rewrite forallb_forall in Hall. specialize (Hall (Z.to_nat n)).
  rewrite Z2Nat.id in Hall by lia.
  assert (Hin : In (Z.to_nat n) (seq 0 100)) by (apply in_seq; lia).
  specialize (Hall Hin).
  destruct (chars (padStart2 (ofZ n))) as [| a [| b [| ? ?]]] eqn:Hc;
    try discriminate Hall.
  apply andb_true_iff in Hall as [Hall Hv].
  apply andb_true_iff in Hall as [Ha Hb].
  exists a, b. rewrite <- (text_chars (padStart2 (ofZ n))), Hc.
  apply Z.eqb_eq in Hv. auto.
Qed.

Lemma year_shape (y : Z) :
  1000 <= y <= 9999 ->
  exists a b c d, ofZ y = text [a; b; c; d]
                  /\ isDigits [a; b; c; d]
                  /\ parseDigits [a; b; c; d] = y.
Proof.
  intros Hy. pose proof four_digit_texts as Hall.
  rewrite forallb_forall in Hall. specialize (Hall (Z.to_nat y)).
  rewrite Z2Nat.id in Hall by lia.
  assert (Hin : In (Z.to_nat y) (seq (10 * 100) (90 * 100))) by (apply in_seq; lia).
  specialize (Hall Hin).
  destruct (chars (ofZ y)) as [| a [| b [| c [| d [| ? ?]]]]] eqn:Hc;
    try discriminate Hall.
  apply andb_true_iff in Hall as [Hall Hv].
  apply andb_true_iff in Hall as [Hall Hd].
  apply andb_true_iff in Hall as [Hall Hcc].
  apply andb_true_iff in Hall as [Ha Hb].
  exists a, b, c, d. rewrite <- (text_chars (ofZ y)), Hc.
  apply Z.eqb_eq in Hv.
  split; [reflexivity |]. split; [| exact Hv].
  repeat constructor; assumption.
Qed.

Section Stepping.
Context {A : Type}.
Implicit Types (k : list ascii -> caps -> option A) (x : A).

Lemma run_Opt_match r s c k x :
  run r s c k = Some x -> run (Opt r) s c k = Some x.
Proof. intros Hr. unfold Opt. cbn [run]. now rewrite Hr. Qed.

(** [\s*] over one space followed by something else *)
Lemma run_Star_one p a b s c k x :
  p a = true -> p b = false -> k (b :: s) c = Some x ->
  run (Star (Cls p)) (a :: b :: s) c k = Some x.
Proof.
  intros Ha Hb Hk. cbn [run List.length]. rewrite Ha, Hb.
  assert (E : (S (List.length s) <? S (S (List.length s)))%nat = true)
    by (apply Nat.ltb_lt; lia).
  rewrite E, Hk. reflexivity.
Qed.

End Stepping.

(** The weekday pattern reads no text that starts with a digit. *)
Lemma weekday_not_digit (a : ascii) (rest : list ascii) :
  is_digit a = true -> matchStart dayOfWeekRe (text (a :: rest)) = None.
Proof.
  intros Ha. apply is_digit_digits in Ha.
  unfold matchStart, chars, text.
  rewrite list_ascii_of_string_of_list_ascii.
  simpl in Ha.
  repeat (destruct Ha as [<- | Ha]; [vm_compute; reflexivity |]).
  destruct Ha.
Qed.

(** The month/day/year pattern reads a text written
    [MM/DD/YYYY hh:mm ?M] field by field. *)
Lemma mdy_reads (m1 m2 e1 e2 y1 y2 y3 y4 h1 h2 n1 n2 p : ascii) :
  isDigits [m1; m2; e1; e2; y1; y2; y3; y4; h1; h2; n1; n2] ->
  p = "A"%char \/ p = "P"%char ->
  exists m,
    matchStart mdyRe
      (text [m1; m2; "/"; e1; e2; "/"; y1; y2; y3; y4; " "; h1; h2; ":";
             n1; n2; " "; p; "M"]%char) = Some m
    /\ group 1 m = [m1; m2] /\ group 2 m = [e1; e2]
    /\ group 3 m = [y1; y2; y3; y4] /\ group 4 m = [h1; h2]
    /\ group 5 m = [n1; n2]
    /\ groupUpper 6 m = Some (text [p; "M"%char]).
Proof.
  intros Hd Hp. unfold isDigits in Hd.
  repeat match goal with
         | H : Forall _ (_ :: _) |- _ => inversion H; clear H; subst
         end.
  destruct (digit_plain h1) as (Hs1 & _); [assumption |].
  assert (Hsp : is_space p = false) by (destruct Hp; subst; reflexivity).
  eexists. split.
  - unfold matchStart, chars, text.
    rewrite list_ascii_of_string_of_list_ascii.
    unfold mdyRe, chr, space, d12, d2, d4, digit. cbn [cats].
    rewrite run_Cat, run_Grp, run_Cat, run_Cls_ok by assumption.
    apply run_Opt_take; [assumption |].
    rewrite run_Cat, run_Cls_ok by reflexivity.
    rewrite run_Cat, run_Grp, run_Cat, run_Cls_ok by assumption.
    apply run_Opt_take; [assumption |].
    rewrite run_Cat, run_Cls_ok by reflexivity.
    rewrite run_Cat, run_Grp.
    rewrite run_Cat, run_Cls_ok by assumption.
    rewrite run_Cat, run_Cls_ok by assumption.
    rewrite run_Cat, run_Cls_ok by assumption.
    rewrite run_Cls_ok by assumption.
    rewrite run_Cat. apply run_Star_one; [reflexivity | assumption |].
    rewrite run_Cat, run_Grp, run_Cat, run_Cls_ok by assumption.
    apply run_Opt_take; [assumption |].
    rewrite run_Cat, run_Cls_ok by reflexivity.
    rewrite run_Cat, run_Grp, run_Cat, run_Cls_ok by assumption.
    rewrite run_Cls_ok by assumption.
    rewrite run_Cat. apply run_Star_one; [reflexivity | assumption |].
    apply run_Opt_match. unfold ampm, oneOfi, chri.
    rewrite run_Grp, run_Cat.
    rewrite run_Cls_ok by (destruct Hp; subst; reflexivity).
    rewrite run_Cls_ok by reflexivity.
    reflexivity.
  - unfold group, groupUpper. cbn.
    destruct Hp; subst; repeat split.
Qed.

End SheetFacts.

Section SheetTimes.
Context {H : Host}.
Import JSString Regex Patterns JSDate LocalDate JSDateFacts SheetFacts.

Lemma clock_ranges (l : Z) :
  0 <= HourFromTime l < 24 /\ 0 <= MinFromTime l < 60.
Proof.
  unfold HourFromTime, MinFromTime, TimeWithinDay, msPerDay, msPerHour,
    msPerMinute.
  split; Z.div_mod_to_equations; lia.
Qed.

Lemma to24_formatted (h : Z) :
  0 <= h < 24 ->
  to24 (if h =? 0 then 12 else if 12 <? h then h - 12 else h)
       (Some (if 12 <=? h then "PM" else "AM")) = h.
Proof.
  intros Hh. unfold to24, isPeriod.
  destruct (Z.eqb_spec h 0) as [-> | H0]; [reflexivity |].
  destruct (Z.ltb_spec 12 h) as [H12 | H12].
  - rewrite (proj2 (Z.leb_le 12 h)) by lia.
    change ("PM" =? "PM")%string with true.
    change ("PM" =? "AM")%string with false. cbn [andb].
    rewrite (proj2 (Z.eqb_neq (h - 12) 12)) by lia. cbn [negb]. lia.
  - destruct (Z.leb_spec 12 h) as [Hge | Hlt].
    + assert (h = 12) as -> by lia. reflexivity.
    + change ("AM" =? "PM")%string with false.
      change ("AM" =? "AM")%string with true. cbn [andb].
      rewrite (proj2 (Z.eqb_neq h 12)) by lia. reflexivity.
Qed.

(** X19.  A time written for the sheet reads back: for a date whose year
    has four digits, [parseAnyDateTime] reads the text that
    [formatDateTimeForSheet] wrote as the same instant with the seconds
    and milliseconds cleared, whatever the current time. *)
Theorem sheet_time_reads_back (t now : Z) :
  1000 <= getFullYear t <= 9999 ->
  parseAnyDateTime (formatDateTimeForSheet t) now
  = Some (setSeconds t 0 0).
Proof.
  intros Hy. unfold formatDateTimeForSheet, setSeconds.
  unfold getFullYear, getMonth, getDate, getHours, getMinutes in *.
  set (l := LocalTime t) in *.
  pose proof (civil_ranges (Day l)) as Hc.
  pose proof (MakeDay_same_month l (DateFromTime l)) as Hday.
  unfold YearFromTime, MonthFromTime, DateFromTime in *.
  destruct (civilFromDays (Day l)) as [[y mo] d]. cbn [fst snd] in *.
  destruct Hc as [Hmo Hd].
  destruct (clock_ranges l) as [Hh Hmi].
  pose proof (to24_formatted (HourFromTime l) Hh) as H24.
  set (h := HourFromTime l) in *. set (mi := MinFromTime l) in *.
  set (h12 := if h =? 0 then 12 else if 12 <? h then h - 12 else h) in *.
  assert (Hh12 : 0 <= h12 < 100).
  { subst h12. destruct (h =? 0); [lia |].
    destruct (Z.ltb_spec 12 h); lia. }
  destruct (pad2_shape (mo - 1 + 1)) as (m1 & m2 & -> & Dm1 & Dm2 & Vm);
    [lia |].
  destruct (pad2_shape d) as (e1 & e2 & -> & De1 & De2 & Ve); [lia |].
  destruct (year_shape y Hy) as (y1 & y2 & y3 & y4 & -> & Dy & Vy).
  destruct (pad2_shape h12 Hh12) as (h1 & h2 & -> & Dh1 & Dh2 & Vh).
  destruct (pad2_shape mi) as (n1 & n2 & -> & Dn1 & Dn2 & Vn); [lia |].
  set (p := if 12 <=? h then "P"%char else "A"%char).
  assert (Hp : p = "A"%char \/ p = "P"%char)
    by (subst p; destruct (12 <=? h); auto).
  assert (Hpm : (if 12 <=? h then "PM" else "AM") = text [p; "M"%char])
    by (subst p; destruct (12 <=? h); reflexivity).
  rewrite Hpm in *.
  change (text [m1; m2] ++ "/" ++ text [e1; e2] ++ "/"
          ++ text [y1; y2; y3; y4] ++ " " ++ text [h1; h2] ++ ":"
          ++ text [n1; n2] ++ " " ++ text [p; "M"%char])%string
    with (text [m1; m2; "/"; e1; e2; "/"; y1; y2; y3; y4; " "; h1; h2; ":";
                n1; n2; " "; p; "M"]%char).
  unfold parseAnyDateTime.
  change (String.eqb (text (m1 :: ?r)) "") with false. cbv iota.
  rewrite weekday_not_digit by assumption.
  destruct (mdy_reads m1 m2 e1 e2 y1 y2 y3 y4 h1 h2 n1 n2 p)
    as (m & -> & G1 & G2 & G3 & G4 & G5 & G6); [| assumption |].
  { change (isDigits ([m1; m2; e1; e2] ++ [y1; y2; y3; y4]
                        ++ [h1; h2; n1; n2])).
    unfold isDigits in *. rewrite !Forall_app.
    repeat split; auto. }
  rewrite G1, G2, G3, G4, G5, G6, Vm, Ve, Vy, Vh, Vn, H24.
  unfold newDate.
  assert (E : (0 <=? y) && (y <=? 99) = false).
  { apply andb_false_iff. right. apply Z.leb_gt. lia. }
  rewrite E. replace (mo - 1 + 1 - 1) with (mo - 1) by lia.
  rewrite Hday. do 3 f_equal. lia.
Qed.

End SheetTimes.

(** ** Clock times *)

Module ClockFacts.
Import JSString Regex Patterns PhoneFacts SheetFacts.

(** [\s*] takes a run of white space that something else ends. *)
Lemma run_Star_many {A} p (l s : list ascii) c
      (k : list ascii -> caps -> option A) x :
  Forall (fun a => p a = true) l ->
  match s with [] => True | b :: _ => p b = false end ->
  k s c = Some x ->
  run (Star (Cls p)) (l ++ s) c k = Some x.
Proof.
  intros Hl Hs Hk. cbn [run].
  assert (Hf : (List.length l <= List.length (l ++ s))%nat)
    by (rewrite length_app; lia).
  revert Hf. generalize (List.length (l ++ s)) as fuel.
  induction Hl as [| a l Ha Hl IH]; intros fuel Hf.
  - cbn [app]. destruct fuel as [| fuel]; [exact Hk |].
    destruct s as [| b s]; [now rewrite Hk |].
    now rewrite Hs, Hk.
  - destruct fuel as [| fuel]; [cbn [List.length] in Hf; lia |].
    cbn [app]. rewrite Ha.
    assert (E : (List.length (l ++ s) <? List.length (a :: l ++ s))%nat
                = true) by (apply Nat.ltb_lt; cbn [List.length]; lia).
    rewrite E, IH; [reflexivity | cbn [List.length] in Hf; lia].
Qed.

Lemma colon_not_digit : is_digit ":" = false.
Proof. reflexivity. Qed.

(** The time-only pattern reads the hour, the minute and the period off
    a text made of them. *)
Lemma time_text_matches (h m spaces : list ascii)
      (period : option (list ascii)) :
  (List.length h = 1 \/ List.length h = 2)%nat ->
  isDigits h -> List.length m = 2%nat -> isDigits m ->
  Forall (fun c => is_space c = true) spaces ->
  (forall p, period = Some p -> In p periodSpellings) ->
  exists f : found,
    matchStart timeOnlyRe (timeText h m spaces period) = Some f
    /\ group 1 f = h /\ group 2 f = m
    /\ groupUpper 3 f = upperPeriod period.
Proof.
  intros Hlh Hdh Hlm Hdm Hsp Hp.
  destruct m as [| m1 [| m2 [| ? ?]]]; try discriminate Hlm.
  inversion Hdm as [| ? ? Dm1 Hdm']. inversion Hdm' as [| ? ? Dm2 _].
  subst.
  assert (Htail : forall c : caps,
             exists c',
               run (Star (Cls is_space))
                   (spaces ++ match period with Some p => p | None => [] end)
                   c
                   (fun s' c' =>
                      run (Opt (Grp 3 ampm)) s' c'
                          (fun rest c'' =>
                             Some {| before := []; groups := c'';
                                     after := rest |}))
               = Some {| before := []; groups := c'; after := [] |}
               /\ cap 1 c' = cap 1 c /\ cap 2 c' = cap 2 c
               /\ option_map (fun v => toUpperCase (text v)) (cap 3 c')
                  = match period with
                    | Some p => upperPeriod (Some p)
                    | None => option_map (fun v => toUpperCase (text v))
                                         (cap 3 c)
                    end).
  { intros c. destruct period as [p |].
    - specialize (Hp p eq_refl). simpl in Hp.
      repeat (destruct Hp as [<- | Hp];
              [eexists; split;
               [apply run_Star_many;
                [exact Hsp | reflexivity | reflexivity]
               | repeat split] |]).
      destruct Hp.
    - exists c. split; [| repeat split].
      apply run_Star_many; [exact Hsp | exact I | reflexivity]. }
  unfold timeText, matchStart, chars, text.
  rewrite list_ascii_of_string_of_list_ascii.
  unfold timeOnlyRe, chr, space, d12, d2, digit. cbn [cats].
  destruct h as [| h1 [| h2 [| ? ?]]];
    try (destruct Hlh as [Hlh | Hlh]; discriminate Hlh).
  - inversion Hdh as [| ? ? Dh1 _]. subst. cbn [app].
    destruct (Htail [(2%nat, [m1; m2]); (1%nat, [h1])])
      as (c' & Hrun & C1 & C2 & C3).
    eexists. split.
    + rewrite run_Cat, run_Grp, run_Cat, run_Cls_ok by assumption.
      rewrite run_Opt_skip by exact colon_not_digit.
      rewrite run_Cat, run_Cls_ok by reflexivity.
      rewrite run_Cat, run_Grp, run_Cat, run_Cls_ok by assumption.
      rewrite run_Cls_ok by assumption.
      rewrite run_Cat.
      change (h1 :: ":"%char :: m1 :: m2 :: ?r)
        with ([h1] ++ ":"%char :: m1 :: m2 :: r).
      rewrite firstn_prefix.
      change (m1 :: m2 :: ?r) with ([m1; m2] ++ r).
      rewrite firstn_prefix.
      exact Hrun.
    + unfold group, groupUpper, upperPeriod. cbn [groups].
      rewrite C1, C2, C3. cbn [cap Nat.eqb].
      destruct period; repeat split.
  - inversion Hdh as [| ? ? Dh1 Hdh']. inversion Hdh' as [| ? ? Dh2 _].
    subst. cbn [app].
    destruct (Htail [(2%nat, [m1; m2]); (1%nat, [h1; h2])])
      as (c' & Hrun & C1 & C2 & C3).
    eexists. split.
    + rewrite run_Cat, run_Grp, run_Cat, run_Cls_ok by assumption.
      apply run_Opt_take; [assumption |].
      rewrite run_Cat, run_Cls_ok by reflexivity.
      rewrite run_Cat, run_Grp, run_Cat, run_Cls_ok by assumption.
      rewrite run_Cls_ok by assumption.
      rewrite run_Cat.
      change (h1 :: h2 :: ":"%char :: m1 :: m2 :: ?r)
        with ([h1; h2] ++ ":"%char :: m1 :: m2 :: r).
      rewrite firstn_prefix.
      change (m1 :: m2 :: ?r) with ([m1; m2] ++ r).
      rewrite firstn_prefix.
      exact Hrun.
    + unfold group, groupUpper, upperPeriod. cbn [groups].
      rewrite C1, C2, C3. cbn [cap Nat.eqb].
      destruct period; repeat split.
Qed.

End ClockFacts.

Section ClockTimes.
Context {H : Host}.
Import JSString Regex Patterns JSDate JSDateFacts LocalDate ClockFacts.

(** X11. A timestamp text made of an hour of one or two digits, a colon
    and a minute of two digits, followed by nothing, by white space, or
    by AM or PM in any letter case with any or no white space before it,
    resolves to local midnight of today plus the hours and minutes it
    names, the hour converted from the 12-hour clock by the period,
    whatever the dates of the other rows of the batch. *)
Theorem time_only_resolution
        (h m spaces : list ascii) (period : option (list ascii))
        (lower : list Z) (now : Z) :
  (List.length h = 1 \/ List.length h = 2)%nat ->
  Forall (fun c => is_digit c = true) h ->
  List.length m = 2%nat ->
  Forall (fun c => is_digit c = true) m ->
  Forall (fun c => is_space c = true) spaces ->
  (forall p, period = Some p -> In p periodSpellings) ->
  exists r : Z,
    parseDateTime (timeText h m spaces period) lower now = Some r
    /\ LocalTime r
       = MakeDate (Day (LocalTime now))
                  (MakeTime (to24 (parseDigits h) (upperPeriod period))
                            (parseDigits m) 0 0).
Proof.
  intros Hlh Hdh Hlm Hdm Hsp Hp.
  destruct (time_text_matches h m spaces period Hlh Hdh Hlm Hdm Hsp Hp)
    as [f [Hf [G1 [G2 G3]]]].
  unfold parseDateTime. rewrite Hf, G1, G2, G3.
  eexists. split; [reflexivity |]. apply setHours_local.
Qed.

End ClockTimes.

(** ** Keys of sent records *)

Section Keys.
Import JSString ParseFacts.

Lemma split_at_last_sep (sep : ascii) (a a' b b' : list ascii) :
  Forall (fun c => Ascii.eqb c sep = false) b ->
  Forall (fun c => Ascii.eqb c sep = false) b' ->
  a ++ sep :: b = a' ++ sep :: b' -> a = a' /\ b = b'.
Proof.
  intros Hb Hb'. revert a'.
  assert (Hno : forall l r, Forall (fun c => Ascii.eqb c sep = false)
                                   (l ++ sep :: r) -> False).
  { intros l r Hf. apply Forall_app in Hf as [_ Hf].
    inversion Hf as [| ? ? Hs _]. now rewrite Ascii.eqb_refl in Hs. }
  induction a as [| x a IH]; intros [| x' a']; cbn [app]; intros Heq.
  - injection Heq as <-. auto.
  - injection Heq as <- ->. destruct (Hno _ _ Hb).
  - injection Heq as -> <-. destruct (Hno _ _ Hb').
  - injection Heq as <- Heq. destruct (IH _ Heq) as [-> ->]. auto.
Qed.

(** X20.  The key under which a record is marked as sent,
    [phone_timestamp], names one telephone key and one time: two keys are
    equal only when both parts are. *)
Theorem sent_key_names_one_call (phone phone' : string) (t t' : Z) :
  keyOf phone t = keyOf phone' t' -> phone = phone' /\ t = t'.
Proof.
  unfold keyOf. intros Heq. apply (f_equal chars) in Heq.
  rewrite !chars_app in Heq.
  change (chars "_") with ["_"%char] in Heq. cbn [app] in Heq.
  apply split_at_last_sep in Heq as [Hp Ht];
    try apply ofZ_no_underscore.
  split.
  - now rewrite <- (text_chars phone), Hp, text_chars.
  - apply (f_equal text) in Ht. rewrite !text_chars in Ht.
    pose proof (parseInt_ofZ t) as P. rewrite Ht, parseInt_ofZ in P.
    congruence.
Qed.

End Keys.

(** ** A second answer *)

Section ReconciliationMemory.
Context {H : Host}.
Import JSString JSColl JSCollFacts LocalDate ParseFacts.

Lemma keyOf_time (phone : string) (t t' : Z) :
  keyOf phone t = keyOf phone t' -> t = t'.
Proof.
  unfold keyOf. intros Heq.
  assert (Ht : ofZ t = ofZ t').
  { induction phone as [| c phone IH]; cbn [String.append] in Heq.
    - now injection Heq.
    - injection Heq as Heq. exact (IH Heq). }
  pose proof (parseInt_ofZ t) as P. rewrite Ht, parseInt_ofZ in P.
  congruence.
Qed.

Lemma has_add_other (k k' : string) (l : list string) :
  k <> k' -> has k (add k' l) = has k l.
Proof.
  intros Hne. unfold add. destruct (has k' l); [reflexivity |].
  unfold has. rewrite existsb_app. cbn [existsb].
  destruct (String.eqb_spec k k') as [-> | _]; [now destruct Hne |].
  now rewrite !orb_false_r.
Qed.

(** X13. A reconciliation pass keeps no record of the calls it has
    updated.  After a pass for an answer at [t1], a pass for an answer of
    the same phone that falls in another minute, [t2], returns the same
    count and sends the same update requests as it would have sent
    without the first pass; so a missed call among the first three
    matches of both answers is sent as an update twice. *)
Theorem second_answer_updates_again
        (phone : string) (t1 t2 : Z) (ids1 ids2 : nat -> string)
        (s : State) :
  isRealTimeMode s = true ->
  has (answerKeyOf phone t1) (processedAnswers s) = false ->
  has (answerKeyOf phone t2) (processedAnswers s) = false ->
  setSeconds t1 0 0 <> setSeconds t2 0 0 ->
  let first := updateMissedCallsAfterAnswer phone t1 ids1 s in
  let second :=
    updateMissedCallsAfterAnswer phone t2 ids2 (fst (fst first)) in
  let alone := updateMissedCallsAfterAnswer phone t2 ids2 s in
  posts (snd (fst second)) = posts (snd (fst alone))
  /\ snd second = snd alone
  /\ forall record : CallRecord,
      In record (firstn 3 (filter (isAffected phone t1 s) (allRecords s))) ->
      In record (firstn 3 (filter (isAffected phone t2 s) (allRecords s))) ->
      (exists id, In (id, updateData record phone t1)
                     (posts (snd (fst first))))
      /\ (exists id, In (id, updateData record phone t2)
                        (posts (snd (fst second)))).
Proof.
  intros Hm Hk1 Hk2 Hmin. cbv zeta.
  destruct (updateMissed_on phone t1 ids1 s Hm Hk1) as (P1 & A1 & _).
  destruct (updateMissed_frame phone t1 ids1 s)
    as (_ & Fm & Fr & _ & _ & _ & _ & Fs & _).
  set (s1 := fst (fst (updateMissedCallsAfterAnswer phone t1 ids1 s))) in *.
  assert (Hm1 : isRealTimeMode s1 = true) by congruence.
  assert (Hk2' : has (answerKeyOf phone t2) (processedAnswers s1) = false).
  { rewrite A1, has_add_other; [exact Hk2 |].
    unfold answerKeyOf. intros Heq. apply keyOf_time in Heq. congruence. }
  destruct (updateMissed_on phone t2 ids2 s1 Hm1 Hk2') as (P2 & _ & N2).
  destruct (updateMissed_on phone t2 ids2 s Hm Hk2) as (P0 & _ & N0).
  assert (Hsame : filter (isAffected phone t2 s1) (allRecords s1)
                  = filter (isAffected phone t2 s) (allRecords s)).
  { rewrite Fr. apply filter_ext. intros r. unfold isAffected.
    now rewrite Fs. }
  rewrite Hsame in P2, N2.
  split; [congruence |]. split; [congruence |].
  intros record In1 In2. split.
  - rewrite P1. now apply updatePosts_complete.
  - rewrite P2. now apply updatePosts_complete.
Qed.

End ReconciliationMemory.

(** ** The session of 15 March 2024 *)

Import Scenario.

(** The 2:15 PM missed call is recorded once and sent as a create. *)
Example missed_call_is_sent :
  allRecords afterMissed = [record215]
  /\ map (fun p => (dateTime (snd p), actualMissedCall (snd p),
                    isUpdate (snd p)))
         (posts (snd (step (Checked (Some (missed "2:15 PM" "7"))
                                        (at_ 14 15 30) ids) started)))
     = [("03/15/2024 02:15 PM", "Yes", false)].
Proof. vm_compute. split; reflexivity. Qed.

(** An answer at 2:40 PM sends one update for it; seeing the same answer
    again in that minute sends nothing. *)
Example answer_updates_once :
  let answer := Checked (Some (answered "2:40 PM" "9")) (at_ 14 40 5) ids in
  let '(s1, es1) := step answer afterMissed in
  map (fun p => (dateTime (snd p), actualMissedCall (snd p),
                 isUpdate (snd p))) (posts es1)
  = [("03/15/2024 02:15 PM", "No", true)]
  /\ snd (step answer s1) = [].
Proof. vm_compute. split; reflexivity. Qed.

(** In a bulk pass just after midnight, a "Yesterday 11:50 PM" row next to
    a "12:05 AM" row is dated today. *)
Example yesterday_label_after_midnight :
  map (fun r => formatDateTimeForSheet (timestamp r))
      (allRecords
         (fst (collectRecords
                 afterMidnight (at_ 0 40 5) (construct None))))
  = ["03/15/2024 11:50 PM"; "03/15/2024 12:05 AM"].
Proof. vm_compute. reflexivity. Qed.

(** C1, refuted at the boundary: the 2:15 PM missed call was recorded and
    sent, the same phone is answered at 3:15 PM, exactly one hour later,
    and no update is sent. *)
Lemma answer_exactly_one_hour_later_sends_nothing :
  at_ 14 15 0 < at_ 15 15 0
  /\ at_ 15 15 0 - at_ 14 15 0 <= 60 * 60 * 1000
  /\ parseDateTime "2:15 PM" [] (at_ 14 15 30) = Some (at_ 14 15 0)
  /\ parseDateTime "3:15 PM" [] (at_ 15 15 5) = Some (at_ 15 15 0)
  /\ allRecords afterMissed = [record215]
  /\ JSColl.mhas (keyOf "5551234567" (at_ 14 15 0)) (sentRecords afterMissed)
     = true
  /\ updates (snd (session answeredAnHourLater (construct None))) = []
  /\ snd (fst (updateMissedCallsAfterAnswer "5551234567" (at_ 15 15 0)
                 ids afterMissed)) = [].
Proof. vm_compute. repeat split; congruence. Qed.

(** C2, refuted: the create request of the 2:15 PM missed call fails, and
    the record's sent-ledger entry is set all the same. *)
Lemma failed_create_still_marked_sent :
  pendingRequests afterMissed = ["req0"]
  /\ JSColl.mhas (keyOf "5551234567" (at_ 14 15 0)) (sentRecords started)
     = false
  /\ JSColl.mhas (keyOf "5551234567" (at_ 14 15 0))
                 (sentRecords (onerror "req0" afterMissed)) = true
  /\ JSColl.mhas (keyOf "5551234567" (at_ 14 15 0))
                 (sentRecords (ontimeout "req0" afterMissed)) = true.
Proof. vm_compute. repeat split; reflexivity. Qed.

(** C4, refuted on the bulk path: two rows with different indexes and
    the same contact and time give two records with the same pair. *)
Lemma bulk_pass_repeats_contact_and_time :
  map identity
      (allRecords (fst (session [Collected twins (at_ 14 40 5)]
                                 (construct None))))
  = [("(555)123-4567", at_ 14 15 0); ("(555)123-4567", at_ 14 15 0)]
  /\ ~ NoDup (map identity
                  (allRecords (fst (session
                                      [Collected twins (at_ 14 40 5)]
                                      (construct None))))).
Proof.
  split; [vm_compute; reflexivity |].
  intros Hnd. vm_compute in Hnd. inversion Hnd as [| x l Hnotin _].
  apply Hnotin. now left.
Qed.


(** ** The theorems at work on the session *)

Lemma persisted_snapshot_bounded_witness :
  In (Store (snapshot afterMissed))
     (snd (step (Checked (Some (missed "2:15 PM" "7")) (at_ 14 15 30) ids)
                 started))
  /\ withinCaps (snapshot afterMissed)
  /\ List.length (snapRecords (snapshot afterMissed))
     = Nat.min 100 (List.length (allRecords afterMissed)).
Proof.
  assert (Hin : In (Store (snapshot afterMissed))
                   (snd (step (Checked (Some (missed "2:15 PM" "7"))
                                           (at_ 14 15 30) ids) started))).
  { vm_compute. right. left. reflexivity. }
  split; [exact Hin |].
  pose proof (persisted_snapshot_bounded _ _ _ Hin) as Hthm.
  cbv zeta in Hthm. destruct Hthm as (_ & Hcaps & (_ & Hlen) & _).
  split; [exact Hcaps | exact Hlen].
Defined.

Lemma calls_before_monitor_start_ignored_witness :
  isRealTimeMode afterMissed = true
  /\ parseDateTime "1:59 PM" [] (at_ 14 20 0) = Some (at_ 13 59 0)
  /\ checkForNewCalls (Some (missed "1:59 PM" "3")) (at_ 14 20 0) ids
                       afterMissed
     = (countDomQuery afterMissed, [], (0, 0)).
Proof.
  assert (Hm : isRealTimeMode afterMissed = true)
    by (vm_compute; reflexivity).
  assert (Hp : parseDateTime "1:59 PM" [] (at_ 14 20 0)
               = Some (at_ 13 59 0)) by (vm_compute; reflexivity).
  assert (Hs : fst (session
                      [Started (at_ 14 0 0);
                       Checked (Some (missed "2:15 PM" "7")) (at_ 14 15 30) ids]
                      (construct None)) = afterMissed)
    by (vm_compute; reflexivity).
  split; [exact Hm |]. split; [exact Hp |].
  destruct (calls_before_monitor_start_ignored None _ afterMissed Hs Hm)
    as [start [Hstart Hall]].
  assert (Hle : at_ 13 59 0 <= start).
  { vm_compute in Hstart. injection Hstart as <-. vm_compute. discriminate. }
  exact (proj1 (Hall (missed "1:59 PM" "3") (at_ 14 20 0) ids "1:59 PM"
                     (at_ 13 59 0) eq_refl Hp Hle)).
Defined.


Lemma stale_completion_ignored_witness :
  isRealTimeMode (fst (session stoppedEarly (construct None))) = false
  /\ onload "req0" 200 (fst (session stoppedEarly (construct None)))
     = fst (session stoppedEarly (construct None)).
Proof.
  assert (Hm : isRealTimeMode
                 (fst (session stoppedEarly (construct None))) = false)
    by (vm_compute; reflexivity).
  split; [exact Hm |].
  destruct (stale_completion_ignored) as [_ Hlate].
  destruct (Hlate None stoppedEarly _ eq_refl Hm) as [_ Hall].
  exact (proj1 (Hall "req0" 200)).
Defined.

Lemma answer_reconciled_once_per_minute_witness :
  JSColl.has (answerKeyOf "5551234567" (at_ 14 40 0))
             (processedAnswers afterAnswer) = true
  /\ updateMissedCallsAfterAnswer "5551234567" (at_ 14 40 0) ids
                                   afterAnswer
     = (afterAnswer, [], 0).
Proof.
  assert (Hk : JSColl.has (answerKeyOf "5551234567" (at_ 14 40 0))
                          (processedAnswers afterAnswer) = true)
    by (vm_compute; reflexivity).
  split; [exact Hk |].
  exact (proj1 (answer_reconciled_once_per_minute "5551234567" (at_ 14 40 0) ids afterAnswer) Hk).
Defined.

Lemma reconciliation_window_witness :
  isRealTimeMode afterMissed = true
  /\ JSColl.has (answerKeyOf "5551234567" (at_ 14 40 0))
                (processedAnswers afterMissed) = false
  /\ posts (snd (fst (updateMissedCallsAfterAnswer "5551234567" (at_ 14 40 0) ids afterMissed)))
     = updatePosts
         (firstn 3 (filter (isAffected "5551234567" (at_ 14 40 0)
                                        afterMissed)
                           (allRecords afterMissed)))
         "5551234567" (at_ 14 40 0) ids 0.
Proof.
  assert (Hm : isRealTimeMode afterMissed = true)
    by (vm_compute; reflexivity).
  assert (Hk : JSColl.has (answerKeyOf "5551234567" (at_ 14 40 0))
                          (processedAnswers afterMissed) = false)
    by (vm_compute; reflexivity).
  split; [exact Hm |]. split; [exact Hk |].
  exact (proj1 (proj2 (proj2 (reconciliation_window "5551234567" (at_ 14 40 0) ids
                                afterMissed)) Hm Hk)).
Defined.

Lemma answer_within_hour_updates_witness :
  at_ 14 15 0 < at_ 14 40 0
  /\ at_ 14 40 0 - at_ 14 15 0 < hourMs
  /\ posts (snd (fst (updateMissedCallsAfterAnswer "5551234567" (at_ 14 40 0) ids afterMissed)))
     = [(("update_" ++ ids 0%nat)%string,
         updateData record215 "5551234567" (at_ 14 40 0))].
Proof.
  assert (Hlt : at_ 14 15 0 < at_ 14 40 0) by (vm_compute; reflexivity).
  assert (Hwin : at_ 14 40 0 - at_ 14 15 0 < hourMs)
    by (vm_compute; reflexivity).
  assert (Hm : isRealTimeMode afterMissed = true)
    by (vm_compute; reflexivity).
  assert (Hk : JSColl.has (answerKeyOf "5551234567" (at_ 14 40 0))
                          (processedAnswers afterMissed) = false)
    by (vm_compute; reflexivity).
  assert (Hall : allRecords afterMissed = [] ++ record215 :: [])
    by (vm_compute; reflexivity).
  assert (Ht : timestamp record215 = at_ 14 15 0)
    by (vm_compute; reflexivity).
  assert (Hp : extractPhoneNumber (contact record215) = "5551234567")
    by (vm_compute; reflexivity).
  assert (Hsent : JSColl.mhas (keyOf "5551234567" (at_ 14 15 0))
                              (sentRecords afterMissed) = true)
    by (vm_compute; reflexivity).
  assert (Hothers : forall x : CallRecord,
             In x ([] ++ []) ->
             extractPhoneNumber (contact x) = "5551234567" ->
             ~ (at_ 14 40 0 - hourMs < timestamp x < at_ 14 40 0))
    by (intros x []).
  split; [exact Hlt |]. split; [exact Hwin |].
  exact (proj1 (proj1 (answer_within_hour_updates "5551234567" (at_ 14 15 0) (at_ 14 40 0) ids
                         afterMissed [] [] record215
                         Hm Hk Hall Ht Hp Hsent Hothers Hlt) Hwin)).
Defined.

Lemma failed_create_keeps_sent_entry_witness :
  isRealTimeMode started = true
  /\ JSColl.mhas
       (keyOf (extractPhoneNumber (contact record215))
              (timestamp record215))
       (sentRecords
          (onerror "req0"
                   (fst (sendToGoogleSheets record215 false "req0"
                                             started)))) = true.
Proof.
  assert (Hm : isRealTimeMode started = true) by (vm_compute; reflexivity).
  split; [exact Hm |].
  exact (proj1 (proj2 (proj2 (failed_create_keeps_sent_entry record215 "req0" started Hm)))).
Defined.

Lemma repeated_row_recorded_once_witness :
  NoDup (map identity (allRecords started))
  /\ NoDup (map identity
                (allRecords
                   (fst (fst (checkForNewCalls (Some (missed "2:15 PM" "7"))
                                (at_ 14 15 30) ids started)))))
  /\ allRecords
       (fst (collectRecords twins (at_ 14 40 5)
               (fst (collectRecords twins (at_ 14 40 5)
                                     (construct None)))))
     = allRecords (fst (collectRecords twins (at_ 14 40 5)
                                        (construct None))).
Proof.
  assert (Hnd : NoDup (map identity (allRecords started)))
    by (vm_compute; constructor).
  destruct (repeated_row_recorded_once) as [Hrt Hbulk].
  split; [exact Hnd |]. split.
  - exact (proj2 (Hrt (Some (missed "2:15 PM" "7")) (at_ 14 15 30) ids ids
                      started) Hnd).
  - exact (proj1 (Hbulk twins (at_ 14 40 5) (construct None))).
Defined.

Lemma yesterday_resolution_witness :
  yesterdayText ["1"; "1"]%char ["5"; "0"]%char " PM" = "Yesterday 11:50 PM"
  /\ exists r : Z,
      parseDateTime "Yesterday 11:50 PM" [at_ 0 5 0] (at_ 0 40 5) = Some r
      /\ LocalDate.LocalTime r
         = JSDate.MakeDate (JSDate.Day (LocalDate.LocalTime (at_ 0 40 5)))
                           (JSDate.MakeTime 23 50 0 0).
Proof.
  split; [reflexivity |].
  assert (Hh : Forall (fun c => JSString.is_digit c = true) ["1"; "1"]%char)
    by (repeat constructor).
  assert (Hm : Forall (fun c => JSString.is_digit c = true) ["5"; "0"]%char)
    by (repeat constructor).
  assert (Hp : In " PM" periodTexts) by (right; right; left; reflexivity).
  destruct (yesterday_resolution
              ["1"; "1"]%char ["5"; "0"]%char " PM" [at_ 0 5 0] (at_ 0 40 5)
              (or_intror eq_refl) Hh eq_refl Hm Hp)
    as [r [Hr [_ Htoday]]].
  exists r. split; [exact Hr |].
  assert (Hsib : exists d, In d [at_ 0 5 0]
                           /\ JSDate.Day (LocalDate.LocalTime d)
                              = JSDate.Day (LocalDate.LocalTime (at_ 0 40 5))).
  { exists (at_ 0 5 0). split; [now left | vm_compute; reflexivity]. }
  assert (Hyear : ~ (0 <= LocalDate.getFullYear (at_ 0 40 5) <= 99)).
  { vm_compute. intros [_ Hle]. apply Hle. reflexivity. }
  rewrite (Htoday Hsib Hyear). vm_compute. reflexivity.
Defined.

(** ** The further properties at work on the session *)

Lemma answered_call_marks_not_missed_witness :
  at_ 14 40 5 - 2 * hourMs < at_ 14 40 0
  /\ at_ 14 15 0 - hourMs < at_ 14 40 0 < at_ 14 15 0 + hourMs
  /\ isActualMissedCall "5551234567" (at_ 14 15 0)
       (updateRecentCalls "5551234567" (at_ 14 40 0) false true
                          (at_ 14 40 5) afterMissed)
     = "No".
Proof.
  assert (Hrecent : at_ 14 40 5 - 2 * hourMs < at_ 14 40 0)
    by (vm_compute; reflexivity).
  assert (Hnear : at_ 14 15 0 - hourMs < at_ 14 40 0 < at_ 14 15 0 + hourMs)
    by (split; vm_compute; reflexivity).
  split; [exact Hrecent |]. split; [exact Hnear |].
  exact (answered_call_marks_not_missed "5551234567" (at_ 14 40 0) false
           (at_ 14 40 5) afterMissed (at_ 14 15 0) Hrecent Hnear).
Defined.

Lemma no_request_while_idle_witness :
  isRealTimeMode (construct None) = false
  /\ posts (snd (step (Checked (Some (missed "2:15 PM" "7")) (at_ 14 15 30)
                               ids)
                      (construct None)))
     = [].
Proof.
  assert (Hoff : isRealTimeMode (construct None) = false)
    by (vm_compute; reflexivity).
  split; [exact Hoff |].
  exact (no_request_while_idle
           (Checked (Some (missed "2:15 PM" "7")) (at_ 14 15 30) ids)
           (construct None) Hoff).
Defined.

Lemma new_missed_call_sent_once_witness :
  isRealTimeMode started = true
  /\ parseDateTime "2:15 PM" [] (at_ 14 15 30) = Some (at_ 14 15 0)
  /\ recordExists "(555)123-4567" (at_ 14 15 0) (allRecords started) = false
  /\ allRecords
       (fst (fst (checkForNewCalls (Some (missed "2:15 PM" "7"))
                                   (at_ 14 15 30) ids started)))
     = allRecords started ++ [record215].
Proof.
  assert (Hon : isRealTimeMode started = true) by (vm_compute; reflexivity).
  assert (Hts : parseDateTime "2:15 PM" [] (at_ 14 15 30)
                = Some (at_ 14 15 0)) by (vm_compute; reflexivity).
  assert (Hstart : forall start,
             monitorStartTime started = Some start -> start < at_ 14 15 0).
  { intros start Hs. vm_compute in Hs. injection Hs as <-.
    vm_compute. reflexivity. }
  assert (Hans : isAnsweredRow (missed "2:15 PM" "7") = false)
    by (vm_compute; reflexivity).
  assert (Hmiss : isMissedRow (missed "2:15 PM" "7") = true)
    by (vm_compute; reflexivity).
  assert (Hc : displayNumber
                 (separateContactInfo (JSString.trim "(555)123-4567")
                                      (Some (missed "2:15 PM" "7")))
               = "(555)123-4567") by (vm_compute; reflexivity).
  assert (Hnew : recordExists "(555)123-4567" (at_ 14 15 0)
                              (allRecords started) = false)
    by (vm_compute; reflexivity).
  split; [exact Hon |]. split; [exact Hts |]. split; [exact Hnew |].
  pose proof (new_missed_call_sent_once
                (missed "2:15 PM" "7") (at_ 14 15 30) ids ids started
                "7" "2:15 PM" "(555)123-4567" (at_ 14 15 0)
                Hon eq_refl eq_refl eq_refl Hts Hstart Hans Hmiss) as Hthm.
  cbv zeta in Hthm. rewrite Hc in Hthm.
  exact (proj1 (Hthm Hnew)).
Defined.

Lemma counter_counts_records_witness :
  forallb isMonitoringEvent
          [Checked (Some (missed "2:15 PM" "7")) (at_ 14 15 30) ids;
           Cleaned (at_ 14 20 0) [];
           Checked (Some (answered "2:40 PM" "9")) (at_ 14 40 5) ids]
  = true
  /\ realTimeMissedCount
       (fst (session
               [Checked (Some (missed "2:15 PM" "7")) (at_ 14 15 30) ids;
                Cleaned (at_ 14 20 0) [];
                Checked (Some (answered "2:40 PM" "9")) (at_ 14 40 5) ids]
               (fst (startRealTimeMode (at_ 14 0 0) (construct None)))))
     = Z.of_nat
         (List.length
            (allRecords
               (fst (session
                       [Checked (Some (missed "2:15 PM" "7")) (at_ 14 15 30)
                                ids;
                        Cleaned (at_ 14 20 0) [];
                        Checked (Some (answered "2:40 PM" "9")) (at_ 14 40 5)
                                ids]
                       (fst (startRealTimeMode (at_ 14 0 0)
                                               (construct None))))))).
Proof.
  split; [reflexivity |].
  pose proof (counter_counts_records (at_ 14 0 0) (construct None)
                [Checked (Some (missed "2:15 PM" "7")) (at_ 14 15 30) ids;
                 Cleaned (at_ 14 20 0) [];
                 Checked (Some (answered "2:40 PM" "9")) (at_ 14 40 5) ids]
                eq_refl) as Hthm.
  cbv zeta in Hthm. destruct Hthm as [_ Hexact].
  apply Hexact. apply Z.leb_le. vm_compute. reflexivity.
Defined.

Lemma saved_state_is_restored_witness :
  monitorStartTime (fst (session [Started 0] (construct None))) = Some 0
  /\ monitorStartTime
       (construct
          (Some (snapshot (fst (session [Started 0] (construct None))))))
     = None.
Proof.
  assert (Hzero : monitorStartTime
                    (fst (session [Started 0] (construct None))) = Some 0)
    by (vm_compute; reflexivity).
  split; [exact Hzero |].
  pose proof (saved_state_is_restored None [Started 0]) as Hthm.
  cbv zeta in Hthm.
  destruct Hthm as (_ & _ & _ & _ & _ & _ & Hnull & _).
  exact (Hnull Hzero).
Defined.

Lemma monitored_records_have_sent_entry_witness :
  forallb notBulk answeredAnHourLater = true
  /\ recordsSent (fst (session answeredAnHourLater (construct None))).
Proof.
  split; [reflexivity |].
  exact (monitored_records_have_sent_entry None answeredAnHourLater eq_refl).
Defined.

Lemma bulk_pass_one_record_per_index_witness :
  indexLedger (construct None)
  /\ indexLedger (fst (collectRecords twins (at_ 14 40 5) (construct None))).
Proof.
  assert (Hempty : indexLedger (construct None)).
  { split; [vm_compute; constructor |].
    intros r Hr. vm_compute in Hr. destruct Hr. }
  split; [exact Hempty |].
  exact (bulk_pass_one_record_per_index twins (at_ 14 40 5) (construct None)
           Hempty).
Defined.

Lemma time_only_resolution_witness :
  timeText ["2"]%char ["1"; "5"]%char [] (Some ["p"; "m"]%char) = "2:15pm"
  /\ exists r : Z,
      parseDateTime "2:15pm" [] (at_ 14 15 30) = Some r
      /\ LocalDate.LocalTime r
         = JSDate.MakeDate (JSDate.Day (LocalDate.LocalTime (at_ 14 15 30)))
                           (JSDate.MakeTime 14 15 0 0).
Proof.
  split; [reflexivity |].
  assert (Hh : Forall (fun c => JSString.is_digit c = true) ["2"]%char)
    by (repeat constructor).
  assert (Hm : Forall (fun c => JSString.is_digit c = true) ["1"; "5"]%char)
    by (repeat constructor).
  assert (Hp : forall p, Some ["p"; "m"]%char = Some p ->
                         In p periodSpellings).
  { intros p [= <-]. vm_compute. tauto. }
  exact (time_only_resolution ["2"]%char ["1"; "5"]%char []
           (Some ["p"; "m"]%char) [] (at_ 14 15 30)
           (or_introl eq_refl) Hh eq_refl Hm (Forall_nil _) Hp).
Defined.

Lemma weekday_resolution_witness :
  "Monday 2:15 PM" <> ""
  /\ exists r daysAgo : Z,
      parseAnyDateTime "Monday 2:15 PM" (at_ 14 15 30) = Some r
      /\ 1 <= daysAgo <= 7
      /\ (JSDate.Day (LocalDate.LocalTime (at_ 14 15 30)) - daysAgo + 4)
           mod 7 = 1.
Proof.
  assert (Hne : "Monday 2:15 PM" <> "") by discriminate.
  split; [exact Hne |].
  set (m := {| Regex.before := [];
               Regex.groups :=
                 [(4%nat, ["P"; "M"]%char); (3%nat, ["1"; "5"]%char);
                  (2%nat, ["2"]%char);
                  (1%nat, ["M"; "o"; "n"; "d"; "a"; "y"]%char)];
               Regex.after := [] |}).
  assert (Hm : Regex.matchStart Patterns.dayOfWeekRe "Monday 2:15 PM"
               = Some m) by (vm_compute; reflexivity).
  assert (Hk : indexOf (JSString.toLowerCase
                          (JSString.text (Patterns.group 1 m))) dayNames 0
               = 1) by (vm_compute; reflexivity).
  assert (Hk1 : 1 <> -1) by discriminate.
  destruct (weekday_resolution "Monday 2:15 PM" (at_ 14 15 30) m 1
              Hne Hm Hk Hk1) as (r & daysAgo & Hr & Hd & Hw & _).
  exists r, daysAgo. split; [exact Hr |]. split; [exact Hd | exact Hw].
Defined.

Lemma second_answer_updates_again_witness :
  isRealTimeMode afterMissed = true
  /\ LocalDate.setSeconds (at_ 14 40 0) 0 0
     <> LocalDate.setSeconds (at_ 14 45 0) 0 0
  /\ (exists id,
         In (id, updateData record215 "5551234567" (at_ 14 40 0))
            (posts (snd (fst (updateMissedCallsAfterAnswer
                                "5551234567" (at_ 14 40 0) ids
                                afterMissed)))))
  /\ (exists id,
         In (id, updateData record215 "5551234567" (at_ 14 45 0))
            (posts (snd (fst (updateMissedCallsAfterAnswer
                                "5551234567" (at_ 14 45 0) ids
                                (fst (fst (updateMissedCallsAfterAnswer
                                             "5551234567" (at_ 14 40 0) ids
                                             afterMissed)))))))).
Proof.
  assert (Hon : isRealTimeMode afterMissed = true)
    by (vm_compute; reflexivity).
  assert (Hk1 : JSColl.has (answerKeyOf "5551234567" (at_ 14 40 0))
                           (processedAnswers afterMissed) = false)
    by (vm_compute; reflexivity).
  assert (Hk2 : JSColl.has (answerKeyOf "5551234567" (at_ 14 45 0))
                           (processedAnswers afterMissed) = false)
    by (vm_compute; reflexivity).
  assert (Hmin : LocalDate.setSeconds (at_ 14 40 0) 0 0
                 <> LocalDate.setSeconds (at_ 14 45 0) 0 0)
    by (vm_compute; discriminate).
  assert (In1 : In record215
                   (firstn 3 (filter (isAffected "5551234567" (at_ 14 40 0)
                                                 afterMissed)
                                     (allRecords afterMissed))))
    by (vm_compute; left; reflexivity).
  assert (In2 : In record215
                   (firstn 3 (filter (isAffected "5551234567" (at_ 14 45 0)
                                                 afterMissed)
                                     (allRecords afterMissed))))
    by (vm_compute; left; reflexivity).
  split; [exact Hon |]. split; [exact Hmin |].
  pose proof (second_answer_updates_again
                "5551234567" (at_ 14 40 0) (at_ 14 45 0) ids ids afterMissed
                Hon Hk1 Hk2 Hmin) as Hthm.
  cbv zeta in Hthm. destruct Hthm as (_ & _ & Hboth).
  exact (Hboth record215 In1 In2).
Defined.

Lemma recent_answers_survive_cleanup_witness :
  NoDup (processedAnswers afterAnswer)
  /\ Z.abs (at_ 14 40 0) <= maxTime
  /\ cleanupProcessedAnswers (at_ 16 0 0) (processedAnswers afterAnswer)
     = filter (keepsAnswer (at_ 16 0 0)) (processedAnswers afterAnswer).
Proof.
  assert (Hnd : NoDup (processedAnswers afterAnswer)).
  { vm_compute. constructor; [intros [] | constructor]. }
  assert (Ht : Z.abs (at_ 14 40 0) <= maxTime)
    by (apply Z.leb_le; vm_compute; reflexivity).
  split; [exact Hnd |]. split; [exact Ht |].
  exact (proj1 (recent_answers_survive_cleanup (at_ 16 0 0)
                  (processedAnswers afterAnswer) "5551234567" (at_ 14 40 0)
                  Hnd Ht)).
Defined.

Lemma cleanup_bounds_recent_calls_witness :
  NoDup (map fst (recentCalls afterAnswer))
  /\ JSColl.get "5551234567"
       (cleanupRecentCalls (at_ 16 30 0) (recentCalls afterAnswer))
     = match JSColl.get "5551234567" (recentCalls afterAnswer) with
       | Some calls => trimmedCalls (at_ 16 30 0) calls
       | None => None
       end.
Proof.
  assert (Hnd : NoDup (map fst (recentCalls afterAnswer))).
  { vm_compute. constructor; [intros [] | constructor]. }
  split; [exact Hnd |].
  exact (proj1 (cleanup_bounds_recent_calls (at_ 16 30 0)
                  (recentCalls afterAnswer) "5551234567" Hnd)).
Defined.

Lemma display_number_keeps_phone_key_witness :
  Regex.search Patterns.phoneRe "John +1 (555) 123-4567" <> None
  /\ extractPhoneNumber
       (displayNumber (separateContactInfo "John +1 (555) 123-4567" None))
     = extractPhoneNumber "John +1 (555) 123-4567".
Proof.
  destruct (Regex.search Patterns.phoneRe "John +1 (555) 123-4567")
    as [m |] eqn:Hm; [| vm_compute in Hm; discriminate Hm].
  split; [discriminate |].
  exact (display_number_keeps_phone_key "John +1 (555) 123-4567" None m Hm).
Defined.

Lemma sheet_time_reads_back_witness :
  1000 <= LocalDate.getFullYear (at_ 14 15 30) <= 9999
  /\ formatDateTimeForSheet (at_ 14 15 30) = "03/15/2024 02:15 PM"
  /\ parseAnyDateTime "03/15/2024 02:15 PM" (at_ 9 0 0)
     = Some (at_ 14 15 0).
Proof.
  assert (Hy : 1000 <= LocalDate.getFullYear (at_ 14 15 30) <= 9999)
    by (split; apply Z.leb_le; vm_compute; reflexivity).
  assert (Hf : formatDateTimeForSheet (at_ 14 15 30) = "03/15/2024 02:15 PM")
    by (vm_compute; reflexivity).
  assert (Hs : LocalDate.setSeconds (at_ 14 15 30) 0 0 = at_ 14 15 0)
    by (vm_compute; reflexivity).
  split; [exact Hy |]. split; [exact Hf |].
  rewrite <- Hf, <- Hs.
  exact (sheet_time_reads_back (at_ 14 15 30) (at_ 9 0 0) Hy).
Defined.

Lemma sent_key_names_one_call_witness :
  keyOf "5551234567" (at_ 14 15 0)
  = keyOf (extractPhoneNumber (contact record215)) (timestamp record215)
  /\ "5551234567" = extractPhoneNumber (contact record215)
  /\ at_ 14 15 0 = timestamp record215.
Proof.
  assert (Hk : keyOf "5551234567" (at_ 14 15 0)
               = keyOf (extractPhoneNumber (contact record215))
                       (timestamp record215)) by (vm_compute; reflexivity).
  split; [exact Hk |].
  exact (sent_key_names_one_call "5551234567"
           (extractPhoneNumber (contact record215)) (at_ 14 15 0)
           (timestamp record215) Hk).
Defined.
